(** * The hot-stock pipeline of [fetchMoexData.js]

    A shallow embedding of the JavaScript module that downloads the daily
    trading history of the exchange, averages every security's volume over
    a window of business days and reports, per day, the ratio of the day's
    volume to that average.

    Conventions of the embedding:
    - a BigInt is a [Z]; BigInt division is [Z.quot] and throws on a zero
      divisor;
    - a Number is an IEEE 754 binary64 value, [spec_float] with
      [prec = 53] and [emax = 1024], with the operations of the standard
      library's [SpecFloat];
    - text is a [string] holding UTF-8 bytes; where the language reads a
      number out of text ([BigInt(s)], a string operand of [*]) the
      literal is parsed as the language does;
    - a [Date] is the number of its local calendar day, with the invalid
      Date below the first day a Date can hold;
    - a JavaScript [Map] is an association list in insertion order;
    - a thrown exception is [None] (or a dedicated constructor) of the
      result type;
    - the network is a script: the list of answers the remote end gives to
      the successive requests, together with the trace of what was asked
      and what was shown to the user. *)

From Stdlib Require Import ZArith List String Ascii Bool Lia DecimalString Sorted
  Permutation.
From Stdlib Require Import SpecFloat.
From Equations Require Import Equations.
Import ListNotations.
Local Open Scope Z_scope.

(* ===================================================================== *)
(** * Numbers *)
(* ===================================================================== *)

Module JsNumber.

(** A JavaScript Number. *)
Definition double : Type := spec_float.

Definition fmul : double -> double -> double := SFmul 53 1024.
Definition fdiv : double -> double -> double := SFdiv 53 1024.

(** [Number(n)] for a BigInt [n], and integer literals: the nearest
    binary64 value, ties to even. *)
Definition Number (n : Z) : double := binary_normalize 53 1024 n 0 false.

Definition NaN : double := S754_nan.

(** [Math.round(x)]: the integer nearest to [x], a tie going to the
    greater one; the sign of [x] is kept when the result is zero. *)
Definition Math_round (x : double) : double :=
  match x with
  | S754_finite s m (Zneg k) =>
      let n := (cond_Zopp s (Zpos m~0) + Z.pow_pos 2 k) / Z.pow_pos 2 (k + 1) in
      if n =? 0 then S754_zero s else Number n
  | _ => x
  end.

(** [Math.trunc(x)]: the fractional digits are dropped. *)
Definition Math_trunc (x : double) : double :=
  match x with
  | S754_finite s m (Zneg k) =>
      let n := Zpos m / Z.pow_pos 2 k in
      if n =? 0 then S754_zero s else Number (cond_Zopp s n)
  | _ => x
  end.

(** [BigInt(x)] for a Number [x]: the exact integer, a RangeError
    ([None]) when [x] is not an integer. *)
Definition NumberToBigInt (x : double) : option Z :=
  match x with
  | S754_zero _ => Some 0
  | S754_finite s m (Zneg k) =>
      if Zpos m mod Z.pow_pos 2 k =? 0
      then Some (cond_Zopp s (Zpos m / Z.pow_pos 2 k))
      else None
  | S754_finite s m e => Some (cond_Zopp s (Zpos m * 2 ^ e))
  | _ => None
  end.

(** [a / b] on BigInts: truncating, a RangeError on [0n]. *)
Definition bigint_div (a b : Z) : option Z :=
  if b =? 0 then None else Some (Z.quot a b).

(** The exact integer part of [x / 10^6] for a finite [x = m * 2^e],
    computed on integers (no rounding anywhere). *)
Definition exact_millions (x : double) : option Z :=
  match x with
  | S754_zero _ => Some 0
  | S754_finite s m (Zneg k) =>
      Some (cond_Zopp s (Zpos m / (Z.pow_pos 2 k * 1000000)))
  | S754_finite s m e => Some (cond_Zopp s ((Zpos m * 2 ^ e) / 1000000))
  | _ => None
  end.

End JsNumber.
Import JsNumber.

(** [String(n)] for an integer: its decimal digits, with a sign when
    negative. *)
Definition String_of_int (n : Z) : string := NilZero.string_of_int (Z.to_int n).

(** [s.padStart(n, c)]. *)
Definition padStart (n : nat) (c : ascii) (s : string) : string :=
  let fix fill (k : nat) : string :=
    match k with O => s | S k' => String c (fill k') end in
  fill (n - String.length s)%nat.

(* ===================================================================== *)
(** * Numeric text *)
(* ===================================================================== *)

(** What the language makes of a string where a number is wanted:
    [BigInt(s)] reads an integer literal, and a string operand of [*] is
    read as a numeric literal. Text is kept as its UTF-8 bytes. *)
Module JsText.

Definition bytes (s : string) : list Z :=
  map (fun c => Z.of_N (N_of_ascii c)) (list_ascii_of_string s).

(** The text without the white space and line terminators it starts
    with: TAB, LF, VT, FF, CR, SP, U+00A0, U+1680, U+2000 to U+200A,
    U+2028, U+2029, U+202F, U+205F, U+3000 and U+FEFF. *)
Fixpoint trimStart (l : list Z) : list Z :=
  match l with
  | (9 | 10 | 11 | 12 | 13 | 32) :: r => trimStart r
  | 194 :: 160 :: r => trimStart r
  | 225 :: 154 :: 128 :: r => trimStart r
  | 226 :: 128 :: c :: r =>
      if ((128 <=? c) && (c <=? 138)) || (c =? 168) || (c =? 169) || (c =? 175)
      then trimStart r else l
  | 226 :: 129 :: 159 :: r => trimStart r
  | 227 :: 128 :: 128 :: r => trimStart r
  | 239 :: 187 :: 191 :: r => trimStart r
  | _ => l
  end.

Definition onlySpace (l : list Z) : bool :=
  match trimStart l with [] => true | _ => false end.

(** The value of a digit of the base, upper or lower case. *)
Definition digitValue (base c : Z) : option Z :=
  let v := if (48 <=? c) && (c <=? 57) then c - 48
           else if (97 <=? c) && (c <=? 102) then c - 87
           else if (65 <=? c) && (c <=? 70) then c - 55
           else base in
  if v <? base then Some v else None.

(** The digits the text starts with, read after [value]: the value, how
    many digits were read, and what follows them. *)
Fixpoint readDigits (base : Z) (l : list Z) (value count : Z) : Z * Z * list Z :=
  match l with
  | c :: r =>
      match digitValue base c with
      | Some v => readDigits base r (value * base + v) (count + 1)
      | None => (value, count, l)
      end
  | [] => (value, count, [])
  end.

(** At least one digit, then nothing but white space. *)
Definition readInteger (base : Z) (l : list Z) : option Z :=
  let '(value, count, rest) := readDigits base l 0 0 in
  if (0 <? count) && onlySpace rest then Some value else None.

(** [BigInt(s)] for a string: white space is trimmed from both ends;
    what is left is empty (zero), decimal digits with an optional sign,
    or digits of base 16, 8 or 2 after [0x], [0o] or [0b]. Anything else
    is a SyntaxError ([None]). *)
Definition StringToBigInt (s : string) : option Z :=
  match trimStart (bytes s) with
  | [] => Some 0
  | 48 :: (120 | 88) :: r => readInteger 16 r
  | 48 :: (111 | 79) :: r => readInteger 8 r
  | 48 :: (98 | 66) :: r => readInteger 2 r
  | 43 :: r => readInteger 10 r
  | 45 :: r => option_map Z.opp (readInteger 10 r)
  | l => readInteger 10 l
  end.

(** The Number nearest to [m * 10^e], for [m >= 0], with the sign
    asked for. *)
Definition decimalValue (negative : bool) (m e : Z) : double :=
  match m with
  | Zpos p =>
      if 0 <=? e
      then binary_normalize 53 1024 (cond_Zopp negative (m * 10 ^ e)) 0 false
      else fdiv (S754_finite negative p 0)
                (S754_finite false (Z.to_pos (10 ^ (- e))) 0)
  | _ => S754_zero negative
  end.

(** An exponent part, [e] or [E] and a signed integer, when the text
    starts with one. *)
Definition readExponent (l : list Z) : Z * list Z :=
  match l with
  | (101 | 69) :: r =>
      let '(sign, r') := match r with
                         | 43 :: r' => (1, r')
                         | 45 :: r' => (-1, r')
                         | _ => (1, r)
                         end in
      let '(e, count, rest) := readDigits 10 r' 0 0 in
      if 0 <? count then (sign * e, rest) else (0, l)
  | _ => (0, l)
  end.

(** An unsigned decimal literal: [Infinity], or digits with an optional
    fraction and an optional exponent part, at least one digit before or
    after the point. *)
Definition readDecimal (negative : bool) (l : list Z) : double :=
  match l with
  | 73 :: 110 :: 102 :: 105 :: 110 :: 105 :: 116 :: 121 :: rest =>
      if onlySpace rest then S754_infinity negative else NaN
  | _ =>
      let '(whole, wholeCount, afterWhole) := readDigits 10 l 0 0 in
      let '(mantissa, fractionCount, afterFraction) :=
        match afterWhole with
        | 46 :: r => readDigits 10 r whole 0
        | _ => (whole, 0, afterWhole)
        end in
      if wholeCount + fractionCount =? 0 then NaN
      else
        let '(exponent, rest) := readExponent afterFraction in
        if onlySpace rest
        then decimalValue negative mantissa (exponent - fractionCount)
        else NaN
  end.

Definition readNonDecimal (base : Z) (l : list Z) : double :=
  match readInteger base l with
  | Some v => Number v
  | None => NaN
  end.

(** The Number a string stands for: white space is trimmed from both
    ends; what is left is empty (zero), a decimal literal with an
    optional sign, or an unsigned integer of base 16, 8 or 2. Anything
    else is NaN. The value is rounded to the nearest Number, whatever the
    number of its digits. *)
Definition StringToNumber (s : string) : double :=
  match trimStart (bytes s) with
  | [] => S754_zero false
  | 48 :: (120 | 88) :: r => readNonDecimal 16 r
  | 48 :: (111 | 79) :: r => readNonDecimal 8 r
  | 48 :: (98 | 66) :: r => readNonDecimal 2 r
  | 43 :: r => readDecimal false r
  | 45 :: r => readDecimal true r
  | l => readDecimal false l
  end.

End JsText.
Import JsText.

(* ===================================================================== *)
(** * Maps *)
(* ===================================================================== *)

Class EqDec (K : Type) := eq_dec : forall x y : K, {x = y} + {x <> y}.

#[export] Instance string_EqDec : EqDec string := string_dec.

(** A [Map]: its entries in insertion order. [set] on a key that is
    present replaces the value where it stands. *)
Module JsMap.
Section Ops.
Context {K V : Type} `{EqDec K}.

Fixpoint get (k : K) (m : list (K * V)) : option V :=
  match m with
  | [] => None
  | (k', v) :: m' => if eq_dec k k' then Some v else get k m'
  end.

Definition has (k : K) (m : list (K * V)) : bool :=
  match get k m with Some _ => true | None => false end.

Fixpoint set (k : K) (v : V) (m : list (K * V)) : list (K * V) :=
  match m with
  | [] => [(k, v)]
  | (k', v') :: m' =>
      if eq_dec k k' then (k', v) :: m' else (k', v') :: set k v m'
  end.

Definition clear (m : list (K * V)) : list (K * V) := [].

Definition keys (m : list (K * V)) : list K := map fst m.
End Ops.
End JsMap.

(* ===================================================================== *)
(** * Dates *)
(* ===================================================================== *)

(** A [Date] is kept as the number of its local calendar day, day 0 being
    1970-01-01. The time within the day is not read by this program and
    [setDate] leaves it alone.

    A Date holds a time value of at most a hundred million days either
    side of day 0; moved out of that range it becomes the invalid Date,
    whose fields all read NaN. The program moves a Date to the past only,
    so it is the lower bound that is modelled: a number below [firstDay]
    stands for the invalid Date, and a number above [lastDay] is no Date
    the program can be started with. The bound is taken on the day
    number, which is exact for a host on UTC; the offset of another zone
    moves the first local day by at most one.

    The host's zone is taken to be one in which [setDate], asked for the
    day before, lands on it: no change of its offset removes a local day,
    or the time of day of the instant on some day, from the local
    calendar. The statements about the days the generator walks are made
    for such a host. *)
Module JsDate.

Definition Date : Type := Z.

Definition firstDay : Z := -100000000.
Definition lastDay : Z := 100000000.

Definition isValid (d : Date) : bool := firstDay <=? d.

Definition invalidDate : Date := firstDay - 1.

(** Year, month (0 to 11) and day of the month of a day number, in the
    proleptic Gregorian calendar. *)
Definition civil (n : Z) : Z * Z * Z :=
  let z := n + 719468 in
  let era := z / 146097 in
  let doe := z mod 146097 in
  let yoe := (doe - doe / 1460 + doe / 36524 - doe / 146096) / 365 in
  let doy := doe - (365 * yoe + yoe / 4 - yoe / 100) in
  let mp := (5 * doy + 2) / 153 in
  let d := doy - (153 * mp + 2) / 5 + 1 in
  let m := if mp <? 10 then mp + 3 else mp - 9 in
  (yoe + era * 400 + (if m <=? 2 then 1 else 0), m - 1, d).

Definition YearFromTime (n : Z) : Z := fst (fst (civil n)).
Definition MonthFromTime (n : Z) : Z := snd (fst (civil n)).
Definition DateFromTime (n : Z) : Z := snd (civil n).

(** 0 is Sunday, 6 is Saturday; 1970-01-01 was a Thursday. *)
Definition WeekDay (n : Z) : Z := (n + 4) mod 7.

(** The fields of a Date; [None] is the NaN an invalid Date gives. *)
Definition getFullYear (d : Date) : option Z :=
  if isValid d then Some (YearFromTime d) else None.
Definition getMonth (d : Date) : option Z :=
  if isValid d then Some (MonthFromTime d) else None.
Definition getDate (d : Date) : option Z :=
  if isValid d then Some (DateFromTime d) else None.
Definition getDay (d : Date) : option Z :=
  if isValid d then Some (WeekDay d) else None.

(** [d.setDate(n)]: day [n] counted from the first of [d]'s month; [n]
    may leave the month. The Date becomes invalid when [n] is NaN or the
    day asked for is out of range, and an invalid Date stays invalid. *)
Definition setDate (d : Date) (n : option Z) : Date :=
  match getDate d, n with
  | Some dayOfMonth, Some n =>
      let day := d - dayOfMonth + n in
      if isValid day then day else invalidDate
  | _, _ => invalidDate
  end.

(** [x + n] for a field [x]; NaN stays NaN. *)
Definition plus (x : option Z) (n : Z) : option Z :=
  match x with
  | Some v => Some (v + n)
  | None => None
  end.

(** [String(x)] for a field. *)
Definition String_of_field (x : option Z) : string :=
  match x with
  | Some v => String_of_int v
  | None => "NaN"
  end.

End JsDate.
Import JsDate.

Definition formatDate (date : Date) : string :=
  let year := getFullYear date in
  let month := padStart 2 "0" (String_of_field (plus (getMonth date) 1)) in
  let day := padStart 2 "0" (String_of_field (getDate date)) in
  (String_of_field year ++ "-" ++ month ++ "-" ++ day)%string.

(** The test of line 38; NaN is no day of the week. *)
Definition isWeekend (dayOfWeek : option Z) : bool :=
  match dayOfWeek with
  | Some w => (w =? 0) || (w =? 6)
  | None => false
  end.

(** How many of the days just before [current] the loop is going to skip
    before it reaches a working day. *)
Definition skipsAhead (current : Date) : nat :=
  match getDay current with
  | Some 1 => 2%nat
  | Some 0 => 1%nat
  | _ => 0%nat
  end.

Definition loopMeasure (daysBack i : Z) (current : Date) : nat :=
  (3 * Z.to_nat (daysBack + 1 - i) + skipsAhead current)%nat.

(** The loop of [workDaysGenerator], from the state [(current, i)]; the
    values it yields, in order. *)
Equations? workDaysLoop (daysBack : Z) (current : Date) (i : Z) : list string
  by wf (loopMeasure daysBack i current) lt :=
  workDaysLoop daysBack current i with Z_le_gt_dec i daysBack => {
    | right _ := [];
    | left _ with bool_dec (isWeekend (getDay (setDate current (plus (getDate current) (-1))))) true => {
        | left _ := workDaysLoop daysBack (setDate current (plus (getDate current) (-1))) i;
        | right _ :=
            formatDate (setDate current (plus (getDate current) (-1)))
              :: workDaysLoop daysBack (setDate current (plus (getDate current) (-1))) (i + 1) } }.
Proof.
  all: clear workDaysLoop.
  all: unfold loopMeasure, skipsAhead, isWeekend, setDate, plus, getDate, getDay,
         isValid, invalidDate, firstDay, WeekDay, Date in *.
  all: repeat match goal with
              | H : context [Z.leb ?a ?b] |- _ => destruct (Z.leb_spec a b)
              | |- context [Z.leb ?a ?b] => destruct (Z.leb_spec a b)
              end; try discriminate; try lia.
  all: try (replace (current - DateFromTime current + (DateFromTime current + -1) + 4)
              with (current + 4 + 6 + (-1) * 7) in * by lia;
            rewrite Z_mod_plus_full in *;
            rewrite <- (Zplus_mod_idemp_l (current + 4) 6 7) in *;
            pose proof (Z.mod_pos_bound (current + 4) 7 ltac:(lia)) as R;
            assert (C : (current + 4) mod 7 = 0 \/ (current + 4) mod 7 = 1
                        \/ (current + 4) mod 7 = 2 \/ (current + 4) mod 7 = 3
                        \/ (current + 4) mod 7 = 4 \/ (current + 4) mod 7 = 5
                        \/ (current + 4) mod 7 = 6) by lia;
            destruct C as [C|[C|[C|[C|[C|[C|C]]]]]]; rewrite C in *; cbn in *;
            try discriminate; try congruence; lia).
Qed.

(** [workDaysGenerator(daysBack, startDate)], read to its end. *)
Definition workDaysGenerator (daysBack : Z) (startDate : Date) : list string :=
  workDaysLoop daysBack startDate 0.

(* ===================================================================== *)
(** * Ratio arithmetic *)
(* ===================================================================== *)

(** [divideBigInt(a, b)]; [None] is the RangeError of a division by
    [0n]. *)
Definition divideBigInt (a b : Z) : option double :=
  match bigint_div (a * 100) b with
  | None => None
  | Some q =>
      let result := fdiv (Number q) (Number 100) in
      Some (fdiv (Math_round (fmul result (Number 10))) (Number 10))
  end.

(* ===================================================================== *)
(** * The remote history and the window dataset *)
(* ===================================================================== *)

(** A cell of a decoded history row: a number, text or null.
    [CUndefined] is what indexing past the end of a row gives. *)
Inductive Cell : Type :=
| CUndefined
| CNull
| CNum (x : double)
| CStr (s : string).

#[export] Instance Cell_EqDec : EqDec Cell.
Proof.
  unfold EqDec. intros x y.
  decide equality; try apply string_dec.
  decide equality; try apply Z.eq_dec; try apply Pos.eq_dec; apply bool_dec.
Defined.

(** The Number a cell is read as when it is an operand of [*]. *)
Definition ToNumber (c : Cell) : double :=
  match c with
  | CNum x => x
  | CNull => S754_zero false
  | CUndefined => NaN
  | CStr s => StringToNumber s
  end.

(** [BigInt(c)]; [None] when it throws: a TypeError on null and
    undefined, a RangeError on a Number that is not an integer, a
    SyntaxError on text that is no integer literal. *)
Definition BigInt (c : Cell) : option Z :=
  match c with
  | CNum x => NumberToBigInt x
  | CStr s => StringToBigInt s
  | CUndefined | CNull => None
  end.

(** A [Map] stores the key [-0] as [+0]. *)
Definition mapKey (c : Cell) : Cell :=
  match c with
  | CNum (S754_zero _) => CNum (S754_zero false)
  | _ => c
  end.

Record Table (A : Type) : Type := { columns : list string; data : list (list A) }.
Arguments columns {A} _.
Arguments data {A} _.

(** A decoded answer. The cells of the cursor are integers in the range
    where Number arithmetic is exact; a missing cell is [None]
    (undefined, NaN in arithmetic). *)
Record Page : Type := { history : Table Cell; history_cursor : Table Z }.

(** [fetchMoexData] either throws (transport failure, bad status, body
    that does not decode) or returns the page. A body without its two
    tables makes [loadData] throw inside the same [try] block, so it is
    counted with the failures. *)
Inductive Response : Type :=
| Failure
| Reply (a : Page).

Inductive Notice : Type :=
| CannotFindAllIndexes         (* "cannot find all indexes" *)
| CannotFindAllIndexesForPage  (* "cannot find all indexes for page" *)
| DataError.                   (* the alert of the catch block *)

Inductive Event : Type :=
| Fetch (date : string) (start : Z)
| Alert (notice : Notice).

Record SecurityRecord : Type := { volume : Z; turnover : double }.

Definition DaySnapshot : Type := list (Cell * SecurityRecord).
Definition WindowDataset : Type := list (string * DaySnapshot).

(** [columns.indexOf(name)]; [None] is -1. *)
Fixpoint indexOf (name : string) (columns : list string) : option nat :=
  match columns with
  | [] => None
  | c :: rest =>
      if string_dec c name then Some 0%nat
      else match indexOf name rest with
           | Some i => Some (S i)
           | None => None
           end
  end.

Inductive Merge : Type :=
| Merged (imoexDay : DaySnapshot)
| MergeThrew (imoexDay : DaySnapshot).

(** The loop of lines 75 to 77. [BigInt] is evaluated before the product;
    when it throws, the rows before it stay in the map. *)
Fixpoint mergeRows (idxName idxVol idxClose : nat) (rows : list (list Cell))
    (imoexDay : DaySnapshot) : Merge :=
  match rows with
  | [] => Merged imoexDay
  | row :: rest =>
      match BigInt (nth idxVol row CUndefined) with
      | None => MergeThrew imoexDay
      | Some v =>
          mergeRows idxName idxVol idxClose rest
            (JsMap.set (mapKey (nth idxName row CUndefined))
               {| volume := v;
                  turnover := fmul (ToNumber (nth idxVol row CUndefined))
                                   (ToNumber (nth idxClose row CUndefined)) |}
               imoexDay)
      end
  end.

(** [pageIndex + pageSize >= pageTotal]. *)
Definition cursorAtEnd (pageIndex pageTotal pageSize : option Z) : bool :=
  match pageIndex, pageSize, pageTotal with
  | Some i, Some s, Some t => t <=? i + s
  | _, _, _ => false
  end.

(** Lines 93 to 97; [None] is NaN. *)
Definition nextPage (page : Z) (pageIndex pageTotal pageSize : option Z) : option Z :=
  if cursorAtEnd pageIndex pageTotal pageSize then Some (-1)
  else match pageSize with
       | Some s => Some (page + s)
       | None => None
       end.

Inductive DayResult : Type :=
| DayDone (imoexDay : DaySnapshot) (rest : list Response) (trace : list Event)
| DayAbort (rest : list Response) (trace : list Event)
| DayAwait (trace : list Event).

(** The [while (page >= 0)] loop of one date. Each request takes the next
    answer of the script; with no answer left the load stays suspended at
    its [await]. *)
Fixpoint pageLoop (responses : list Response) (date : string) (page : option Z)
    (imoexDay : DaySnapshot) (trace : list Event) {struct responses} : DayResult :=
  match page with
  | None => DayDone imoexDay responses trace
  | Some start =>
      if start <? 0 then DayDone imoexDay responses trace
      else
        match responses with
        | [] => DayAwait (trace ++ [Fetch date start])
        | Failure :: rest =>
            pageLoop rest date page imoexDay
              (trace ++ [Fetch date start; Alert DataError])
        | Reply a :: rest =>
            let historyColumns := columns (history a) in
            match indexOf "SECID" historyColumns, indexOf "VOLUME" historyColumns,
                  indexOf "TRADEDATE" historyColumns, indexOf "CLOSE" historyColumns with
            | Some idxName, Some idxVol, Some idxDate, Some idxClose =>
                match mergeRows idxName idxVol idxClose (data (history a)) imoexDay with
                | MergeThrew imoexDay' =>
                    pageLoop rest date page imoexDay'
                      (trace ++ [Fetch date start; Alert DataError])
                | Merged imoexDay' =>
                    let cursor := history_cursor a in
                    let cursorColumns := columns cursor in
                    match indexOf "INDEX" cursorColumns, indexOf "TOTAL" cursorColumns,
                          indexOf "PAGESIZE" cursorColumns with
                    | Some idxPageIndex, Some idxPageTotal, Some idxPageSize =>
                        match data cursor with
                        | [] =>
                            (* [cursor.data[0]] is undefined: reading its
                               cell throws *)
                            pageLoop rest date page imoexDay'
                              (trace ++ [Fetch date start; Alert DataError])
                        | pageData :: _ =>
                            pageLoop rest date
                              (nextPage start (nth_error pageData idxPageIndex)
                                 (nth_error pageData idxPageTotal)
                                 (nth_error pageData idxPageSize))
                              imoexDay' (trace ++ [Fetch date start])
                        end
                    | _, _, _ =>
                        DayAbort rest
                          (trace ++ [Fetch date start; Alert CannotFindAllIndexesForPage])
                    end
                end
            | _, _, _, _ =>
                DayAbort rest (trace ++ [Fetch date start; Alert CannotFindAllIndexes])
            end
        end
  end.

(** What a call that awaits the network comes to: it returns, or it stays
    suspended because no further answer arrives. *)
Inductive Outcome (A : Type) : Type :=
| Returned (value : A) (rest : list Response) (trace : list Event)
| Awaiting (trace : list Event).
Arguments Returned {A} _ _ _.
Arguments Awaiting {A} _.

(** The [for (const date of dates)] loop. [imoexData.set(date, imoexDay)]
    runs before the pages are read and stores the very map that the pages
    fill, so the day is entered here once it is complete. *)
Fixpoint datesLoop (dates : list string) (responses : list Response)
    (imoexData : WindowDataset) (trace : list Event)
  : Outcome (option WindowDataset) :=
  match dates with
  | [] => Returned (Some imoexData) responses trace
  | date :: more =>
      match pageLoop responses date (Some 0) [] trace with
      | DayDone imoexDay rest trace' =>
          datesLoop more rest (JsMap.set date imoexDay imoexData) trace'
      | DayAbort rest trace' => Returned None rest trace'
      | DayAwait trace' => Awaiting trace'
      end
  end.

(** [loadData(daysBack)], called when the clock reads [now]. [None] is the
    [undefined] of the bare [return]. *)
Definition loadData (daysBack : Z) (now : Date) (responses : list Response)
  : Outcome (option WindowDataset) :=
  datesLoop (workDaysGenerator daysBack now) responses [] [].

(* ===================================================================== *)
(** * Average volume *)
(* ===================================================================== *)

(** The object of line 113 while the window is being summed. *)
Record Tally : Type := { tallyVolume : Z; tallyCount : Z }.

(** The same object once line 121 has given it its [average]. *)
Record AverageEntry : Type := { totalVolume : Z; count : Z; average : Z }.

Definition AverageVolume : Type := list (Cell * AverageEntry).

(** Lines 112 to 117 for one entry of a day. [None]: [current] would be
    undefined. *)
Definition addVolume (averageVolume : list (Cell * Tally)) (secId : Cell)
    (stockData : SecurityRecord) : option (list (Cell * Tally)) :=
  let averageVolume :=
    if negb (JsMap.has secId averageVolume)
    then JsMap.set secId {| tallyVolume := 0; tallyCount := 0 |} averageVolume
    else averageVolume in
  match JsMap.get secId averageVolume with
  | Some current =>
      Some (JsMap.set secId
              {| tallyVolume := tallyVolume current + volume stockData;
                 tallyCount := tallyCount current + 1 |}
              averageVolume)
  | None => None
  end.

Fixpoint sumDay (dayData : DaySnapshot) (averageVolume : list (Cell * Tally))
  : option (list (Cell * Tally)) :=
  match dayData with
  | [] => Some averageVolume
  | (secId, stockData) :: rest =>
      match addVolume averageVolume secId stockData with
      | Some averageVolume' => sumDay rest averageVolume'
      | None => None
      end
  end.

Fixpoint sumWindow (imoexData : WindowDataset) (averageVolume : list (Cell * Tally))
  : option (list (Cell * Tally)) :=
  match imoexData with
  | [] => Some averageVolume
  | (date, dayData) :: rest =>
      match sumDay dayData averageVolume with
      | Some averageVolume' => sumWindow rest averageVolume'
      | None => None
      end
  end.

(** The loop of lines 120 to 122; [None] is the RangeError of a division
    by [0n]. *)
Fixpoint setAverages (entries : list (Cell * Tally)) : option AverageVolume :=
  match entries with
  | [] => Some []
  | (secId, data) :: rest =>
      match bigint_div (tallyVolume data) (tallyCount data) with
      | None => None
      | Some avg =>
          match setAverages rest with
          | None => None
          | Some rest' =>
              Some ((secId, {| totalVolume := tallyVolume data;
                               count := tallyCount data;
                               average := avg |}) :: rest')
          end
      end
  end.

(** [computeAverageVolume(imoexData)]; [None] when it throws. *)
Definition computeAverageVolume (imoexData : WindowDataset) : option AverageVolume :=
  match sumWindow imoexData [] with
  | Some sums => setAverages sums
  | None => None
  end.

(* ===================================================================== *)
(** * Hot stocks *)
(* ===================================================================== *)

Module Hot.
Record Entry : Type := { secId : Cell; ratio : double; turnover : double }.
End Hot.

Definition HotStocks : Type := list (string * list Hot.Entry).

(** The entry pushed at line 143 for a record whose ratio is [ratio]. *)
Definition hotEntry (secId : Cell) (ratio : double) (stockData : SecurityRecord)
  : Hot.Entry :=
  {| Hot.secId := secId;
     Hot.ratio := ratio;
     Hot.turnover := Math_trunc (fdiv (turnover stockData) (Number 1000000)) |}.

(** Lines 139 to 143. *)
Definition pushEntry (hotStocks : HotStocks) (date : string) (e : Hot.Entry)
  : option HotStocks :=
  let hotStocks :=
    if negb (JsMap.has date hotStocks) then JsMap.set date [] hotStocks
    else hotStocks in
  match JsMap.get date hotStocks with
  | Some arr => Some (JsMap.set date (arr ++ [e]) hotStocks)
  | None => None
  end.

(** The body of the inner loop, lines 131 to 143. *)
Definition hotStep (averageVolume : AverageVolume) (date : string)
    (hotStocks : HotStocks) (secId : Cell) (stockData : SecurityRecord)
  : option HotStocks :=
  if negb (JsMap.has secId averageVolume) then Some hotStocks
  else
    match JsMap.get secId averageVolume with
    | None => None
    | Some avgData =>
        if average avgData =? 0 then Some hotStocks
        else
          match divideBigInt (volume stockData) (average avgData) with
          | None => None
          | Some ratio => pushEntry hotStocks date (hotEntry secId ratio stockData)
          end
    end.

Fixpoint hotDay (averageVolume : AverageVolume) (date : string)
    (dayData : DaySnapshot) (hotStocks : HotStocks) : option HotStocks :=
  match dayData with
  | [] => Some hotStocks
  | (secId, stockData) :: rest =>
      match hotStep averageVolume date hotStocks secId stockData with
      | Some hotStocks' => hotDay averageVolume date rest hotStocks'
      | None => None
      end
  end.

Fixpoint hotWindow (averageVolume : AverageVolume) (imoexData : WindowDataset)
    (hotStocks : HotStocks) : option HotStocks :=
  match imoexData with
  | [] => Some hotStocks
  | (date, dayData) :: rest =>
      match hotDay averageVolume date dayData hotStocks with
      | Some hotStocks' => hotWindow averageVolume rest hotStocks'
      | None => None
      end
  end.

(** [computeHotStocks(imoexData, averageVolume)]; [None] when it throws. *)
Definition computeHotStocks (imoexData : WindowDataset) (averageVolume : AverageVolume)
  : option HotStocks :=
  hotWindow averageVolume imoexData [].

(** The older copy of the module (the second source file) still takes a
    [threshold] and keeps an entry only when [ratio >= threshold]. *)
Module Thresholded.

Definition hotStep (threshold : double) (averageVolume : AverageVolume)
    (date : string) (hotStocks : HotStocks) (secId : Cell)
    (stockData : SecurityRecord) : option HotStocks :=
  if negb (JsMap.has secId averageVolume) then Some hotStocks
  else
    match JsMap.get secId averageVolume with
    | None => None
    | Some avgData =>
        if average avgData =? 0 then Some hotStocks
        else
          match divideBigInt (volume stockData) (average avgData) with
          | None => None
          | Some ratio =>
              if SFleb threshold ratio
              then pushEntry hotStocks date (hotEntry secId ratio stockData)
              else Some hotStocks
          end
    end.

Fixpoint hotDay (threshold : double) (averageVolume : AverageVolume)
    (date : string) (dayData : DaySnapshot) (hotStocks : HotStocks)
  : option HotStocks :=
  match dayData with
  | [] => Some hotStocks
  | (secId, stockData) :: rest =>
      match hotStep threshold averageVolume date hotStocks secId stockData with
      | Some hotStocks' => hotDay threshold averageVolume date rest hotStocks'
      | None => None
      end
  end.

Fixpoint hotWindow (threshold : double) (averageVolume : AverageVolume)
    (imoexData : WindowDataset) (hotStocks : HotStocks) : option HotStocks :=
  match imoexData with
  | [] => Some hotStocks
  | (date, dayData) :: rest =>
      match hotDay threshold averageVolume date dayData hotStocks with
      | Some hotStocks' => hotWindow threshold averageVolume rest hotStocks'
      | None => None
      end
  end.

Definition computeHotStocks (imoexData : WindowDataset)
    (averageVolume : AverageVolume) (threshold : double) : option HotStocks :=
  hotWindow threshold averageVolume imoexData [].

(** [getHotStocks(daysBack, threshold)] of that copy, which keeps no
    cache; [None] is a rejected promise. *)
Definition getHotStocks (daysBack : Z) (threshold : double) (now : Date)
    (responses : list Response) : Outcome (option HotStocks) :=
  match loadData daysBack now responses with
  | Awaiting trace => Awaiting trace
  | Returned None rest trace => Returned None rest trace
  | Returned (Some moexData) rest trace =>
      match computeAverageVolume moexData with
      | None => Returned None rest trace
      | Some averageVolume =>
          Returned (computeHotStocks moexData averageVolume threshold) rest trace
      end
  end.

End Thresholded.

(* ===================================================================== *)
(** * The cached entry point *)
(* ===================================================================== *)

Definition Cache : Type := list (string * HotStocks).

(** How the promise of [getHotStocks] settles. The object [out] has the
    dates as its property names, in the order of the map's entries, so it
    is kept as that list of entries. *)
Inductive Settled : Type :=
| Fulfilled (out : HotStocks)
| Rejected
| Pending.

Record Call : Type := {
  settled : Settled;
  cacheAfter : Cache;
  unread : list Response;
  events : list Event
}.

Definition cacheKeyOf (daysBack : Z) (today : Date) : string :=
  ("hotStocks_" ++ String_of_int daysBack ++ "_" ++ formatDate today)%string.

(** Lines 162 to 167. *)
Definition readCache (cacheKey : string) (cacheImoexData : Cache)
    (rest : list Response) (trace : list Event) : Call :=
  match JsMap.get cacheKey cacheImoexData with
  | Some hotStocks =>
      {| settled := Fulfilled hotStocks; cacheAfter := cacheImoexData;
         unread := rest; events := trace |}
  | None =>
      {| settled := Rejected; cacheAfter := cacheImoexData;
         unread := rest; events := trace |}
  end.

(** [getHotStocks(daysBack)] run on the cache [cacheImoexData]. [today] is
    the day read for the cache key, [now] the one the date generator
    starts from. *)
Definition getHotStocks (daysBack : Z) (today now : Date) (cacheImoexData : Cache)
    (responses : list Response) : Call :=
  let cacheKey := cacheKeyOf daysBack today in
  if negb (JsMap.has cacheKey cacheImoexData) then
    match loadData daysBack now responses with
    | Awaiting trace =>
        {| settled := Pending; cacheAfter := cacheImoexData;
           unread := []; events := trace |}
    | Returned None rest trace =>
        (* [computeAverageVolume(undefined)] throws *)
        {| settled := Rejected; cacheAfter := cacheImoexData;
           unread := rest; events := trace |}
    | Returned (Some moexData) rest trace =>
        match computeAverageVolume moexData with
        | None =>
            {| settled := Rejected; cacheAfter := cacheImoexData;
               unread := rest; events := trace |}
        | Some averageVolume =>
            match computeHotStocks moexData averageVolume with
            | None =>
                {| settled := Rejected; cacheAfter := cacheImoexData;
                   unread := rest; events := trace |}
            | Some hotStocks =>
                readCache cacheKey
                  (JsMap.set cacheKey hotStocks (JsMap.clear cacheImoexData))
                  rest trace
            end
        end
    end
  else readCache cacheKey cacheImoexData responses [].

(* ===================================================================== *)
(** * Vocabulary of the statements *)
(* ===================================================================== *)

(** A list of entries is a [Map] when no key occurs twice. *)
Definition isMap {K V : Type} (m : list (K * V)) : Prop := NoDup (JsMap.keys m).

(** A window dataset: a map of maps. *)
Definition isDataset (imoexData : WindowDataset) : Prop :=
  isMap imoexData /\ Forall (fun day => isMap (snd day)) imoexData.

(** The list stored under [date], empty when there is none. *)
Definition listAt {V : Type} (date : string) (m : list (string * list V)) : list V :=
  match JsMap.get date m with
  | Some l => l
  | None => []
  end.

(** The volume a security traded on one day, nothing when it is absent. *)
Definition volumeOn (secId : Cell) (dayData : DaySnapshot) : Z :=
  match JsMap.get secId dayData with
  | Some r => volume r
  | None => 0
  end.

(** The sum of a security's volumes over the days where it appears. *)
Fixpoint windowVolume (secId : Cell) (imoexData : WindowDataset) : Z :=
  match imoexData with
  | [] => 0
  | (_, dayData) :: rest => volumeOn secId dayData + windowVolume secId rest
  end.

(** The number of days where a security appears. *)
Fixpoint daysWith (secId : Cell) (imoexData : WindowDataset) : Z :=
  match imoexData with
  | [] => 0
  | (_, dayData) :: rest =>
      (if JsMap.has secId dayData then 1 else 0) + daysWith secId rest
  end.

(** [r / 10] on Numbers for an integer [r]: the Number nearest to [r]
    tenths. *)
Definition tenths (r : Z) : double := fdiv (Number r) (Number 10).

(** Rounding a Number to one decimal place the way line 48 does. *)
Definition roundOneDecimal (x : double) : double :=
  fdiv (Math_round (fmul x (Number 10))) (Number 10).

(** The ratio as the specification words it: the truncated integer
    quotient of a hundred times the numerator by the denominator is a
    count of hundredths; it is rounded to the nearest tenth, a half going
    up. *)
Definition RatioArithmetic (numerator denominator : Z) : double :=
  let hundredths := Z.quot (numerator * 100) denominator in
  tenths ((hundredths + 5) / 10).

(** [f] holds of the [n] integers from [lo] on. *)
Fixpoint allFrom (lo : Z) (n : nat) (f : Z -> bool) : bool :=
  match n with
  | O => true
  | S k => f lo && allFrom (lo + 1) k f
  end.

(** [f] holds of every integer from 0 below [n]. *)
Definition allBelow (n : Z) (f : Z -> bool) : bool := allFrom 0 (Z.to_nat n) f.

Definition roundsAsSpecified (hundredths : Z) : bool :=
  match roundOneDecimal (fdiv (Number hundredths) (Number 100)) with
  | S754_finite s m e =>
      match tenths ((hundredths + 5) / 10) with
      | S754_finite s' m' e' => Bool.eqb s s' && Pos.eqb m m' && Z.eqb e e'
      | _ => false
      end
  | S754_zero s =>
      match tenths ((hundredths + 5) / 10) with
      | S754_zero s' => Bool.eqb s s'
      | _ => false
      end
  | _ => false
  end.

Definition isDigit (c : ascii) : bool :=
  let n := nat_of_ascii c in (48 <=? n)%nat && (n <=? 57)%nat.

(** Four digits, a dash, two digits, a dash, two digits. *)
Definition isISODate (s : string) : bool :=
  match list_ascii_of_string s with
  | [y1; y2; y3; y4; d1; m1; m2; d2; a1; a2] =>
      isDigit y1 && isDigit y2 && isDigit y3 && isDigit y4
      && Ascii.eqb d1 "-" && isDigit m1 && isDigit m2
      && Ascii.eqb d2 "-" && isDigit a1 && isDigit a2
  | _ => false
  end.

(** Two decimal digits. *)
Definition isTwoDigits (s : string) : bool :=
  match list_ascii_of_string s with
  | [a; b] => isDigit a && isDigit b
  | _ => false
  end.

(** Strictly decreasing: every day is earlier than all those before it. *)
Definition decreasing (days : list Date) : Prop :=
  StronglySorted (fun earlier later => later < earlier) days.

Definition dayTrace (r : DayResult) : list Event :=
  match r with
  | DayDone _ _ trace | DayAbort _ trace | DayAwait trace => trace
  end.

(** The requests of a trace. *)
Fixpoint requests (trace : list Event) : list (string * Z) :=
  match trace with
  | [] => []
  | Fetch date start :: rest => (date, start) :: requests rest
  | Alert _ :: rest => requests rest
  end.

(** The unrounded product of two Numbers, as mantissa and exponent. *)
Definition exact_mul (x y : double) : double :=
  match x, y with
  | S754_finite sx mx ex, S754_finite sy my ey =>
      S754_finite (xorb sx sy) (mx * my) (ex + ey)
  | _, _ => fmul x y
  end.

(** The tally a security has in a map, nothing counted when it is not
    there yet. *)
Definition tallyOf (secId : Cell) (averageVolume : list (Cell * Tally)) : Tally :=
  match JsMap.get secId averageVolume with
  | Some t => t
  | None => {| tallyVolume := 0; tallyCount := 0 |}
  end.

(** The entries of a window in the order the two nested loops visit
    them. *)
Definition visited (imoexData : WindowDataset) : DaySnapshot :=
  List.concat (map snd imoexData).

(** Volume and number of the entries of a list that carry a given key. *)
Fixpoint occVolume (secId : Cell) (entries : DaySnapshot) : Z :=
  match entries with
  | [] => 0
  | (k, r) :: rest =>
      (if eq_dec secId k then volume r else 0) + occVolume secId rest
  end.

Fixpoint occCount (secId : Cell) (entries : DaySnapshot) : Z :=
  match entries with
  | [] => 0
  | (k, r) :: rest => (if eq_dec secId k then 1 else 0) + occCount secId rest
  end.

Definition averageOf (t : Tally) : AverageEntry :=
  {| totalVolume := tallyVolume t;
     count := tallyCount t;
     average := Z.quot (tallyVolume t) (tallyCount t) |}.

(** What one record adds to the report of its day. *)
Definition emitted (averageVolume : AverageVolume) (secId : Cell)
    (stockData : SecurityRecord) : list Hot.Entry :=
  match JsMap.get secId averageVolume with
  | Some avgData =>
      if average avgData =? 0 then []
      else match divideBigInt (volume stockData) (average avgData) with
           | Some ratio => [hotEntry secId ratio stockData]
           | None => []
           end
  | None => []
  end.

Definition emittedByDay (averageVolume : AverageVolume) (dayData : DaySnapshot)
  : list Hot.Entry :=
  flat_map (fun e => emitted averageVolume (fst e) (snd e)) dayData.

(** The entries reported under [date], in order. *)
Definition reportFor (averageVolume : AverageVolume) (date : string)
    (imoexData : WindowDataset) : list Hot.Entry :=
  flat_map (fun day => if string_dec date (fst day)
                       then emittedByDay averageVolume (snd day) else [])
    imoexData.

(** A record of the text [name] with the integer volume [v] and the
    turnover [t], for examples. *)
Definition sec (name : string) (v t : Z) : Cell * SecurityRecord :=
  (CStr name, {| volume := v; turnover := Number t |}).

(** Ten days; AAA trades on two of them, 100 and 300. *)
Definition tenDays : WindowDataset :=
  [ ("2025-10-31", [sec "BBB" 7 0]);
    ("2025-10-30", [sec "BBB" 9 0; sec "AAA" 100 0]);
    ("2025-10-29", [sec "CCC" 1 0]);
    ("2025-10-28", []);
    ("2025-10-27", [sec "BBB" 2 0]);
    ("2025-10-24", [sec "CCC" 5 0; sec "BBB" 4 0]);
    ("2025-10-23", [sec "AAA" 300 0; sec "CCC" 5 0]);
    ("2025-10-22", [sec "BBB" 1 0]);
    ("2025-10-21", []);
    ("2025-10-20", [sec "CCC" 12 0]) ]%string.

(** Two days; AAA trades 100 on the first and 400 on the second. *)
Definition twoDays : WindowDataset :=
  [ ("2025-10-31", [sec "AAA" 100 0]);
    ("2025-10-30", [sec "AAA" 400 0]) ]%string.

Definition padsToTwoDigits (n : Z) : bool :=
  isTwoDigits (padStart 2 "0" (String_of_int n)).

Definition isFourDigits (s : string) : bool :=
  match list_ascii_of_string s with
  | [a; b; c; d] => isDigit a && isDigit b && isDigit c && isDigit d
  | _ => false
  end.

Definition yearHasFourDigits (y : Z) : bool :=
  (y <? 1000) || isFourDigits (String_of_int y).

(** The days a run of the generator picks: one more than [daysBack] of
    them, each earlier than the one before, all before [startDate], each
    a valid Date whose day of the week is neither Sunday nor Saturday,
    yielded as their [formatDate]. *)
Definition picksBusinessDays (daysBack : Z) (startDate : Date) (days : list Date)
  : Prop :=
  workDaysGenerator daysBack startDate = map formatDate days
  /\ Z.of_nat (List.length days) = daysBack + 1
  /\ decreasing days
  /\ Forall (fun d => d < startDate) days
  /\ Forall (fun d => exists w, getDay d = Some w /\ w <> 0 /\ w <> 6) days.

(** The string of a day is made of its local calendar fields: the year as
    it stands, a dash, the month (counted from 1) on two digits, a dash
    and the day of the month on two digits. *)
Definition writtenFromFields (d : Date) : Prop :=
  exists year month day mm dd,
    getFullYear d = Some year /\ getMonth d = Some month /\ getDate d = Some day
    /\ mm = padStart 2 "0" (String_of_int (month + 1))
    /\ dd = padStart 2 "0" (String_of_int day)
    /\ isTwoDigits mm = true /\ isTwoDigits dd = true
    /\ formatDate d = (String_of_int year ++ "-" ++ mm ++ "-" ++ dd)%string.

(** The string of a day has the shape YYYY-MM-DD provided its year has
    four digits. *)
Definition isoWhenFourDigitYear (d : Date) : Prop :=
  forall year, getFullYear d = Some year -> 1000 <= year <= 9999 ->
               isISODate (formatDate d) = true.

(** The claim about the generator as it is worded: the days are picked as
    above and every string has the shape YYYY-MM-DD. *)
Definition yieldsISODates (daysBack : Z) (startDate : Date) : Prop :=
  exists days,
    picksBusinessDays daysBack startDate days
    /\ Forall (fun s => isISODate s = true) (workDaysGenerator daysBack startDate).

(** The page [a] has its four history columns and its three cursor
    columns, all its rows convert, and its cursor row reads [pageIndex],
    [pageTotal] and [pageSize]; merging its rows into [imoexDay] gives
    [imoexDay']. *)
Definition pageReads (a : Page) (imoexDay imoexDay' : DaySnapshot)
    (pageIndex pageTotal pageSize : Z) : Prop :=
  exists idxName idxVol idxDate idxClose idxPageIndex idxPageTotal idxPageSize
         pageData others,
    indexOf "SECID" (columns (history a)) = Some idxName
    /\ indexOf "VOLUME" (columns (history a)) = Some idxVol
    /\ indexOf "TRADEDATE" (columns (history a)) = Some idxDate
    /\ indexOf "CLOSE" (columns (history a)) = Some idxClose
    /\ mergeRows idxName idxVol idxClose (data (history a)) imoexDay = Merged imoexDay'
    /\ indexOf "INDEX" (columns (history_cursor a)) = Some idxPageIndex
    /\ indexOf "TOTAL" (columns (history_cursor a)) = Some idxPageTotal
    /\ indexOf "PAGESIZE" (columns (history_cursor a)) = Some idxPageSize
    /\ data (history_cursor a) = pageData :: others
    /\ nth_error pageData idxPageIndex = Some pageIndex
    /\ nth_error pageData idxPageTotal = Some pageTotal
    /\ nth_error pageData idxPageSize = Some pageSize.

(** One of the four history columns is missing. *)
Definition lacksHistoryColumn (a : Page) : Prop :=
  indexOf "SECID" (columns (history a)) = None
  \/ indexOf "VOLUME" (columns (history a)) = None
  \/ indexOf "TRADEDATE" (columns (history a)) = None
  \/ indexOf "CLOSE" (columns (history a)) = None.

(** A history row and a page in the layout used by the examples. *)
Definition row (name : string) (vol close : Z) : list Cell :=
  [CStr "2025-10-31"; CStr name; CNum (Number vol); CNum (Number close)].

Definition page (rows : list (list Cell)) (index total pagesize : Z) : Page :=
  {| history := {| columns := ["TRADEDATE"; "SECID"; "VOLUME"; "CLOSE"]%string;
                   data := rows |};
     history_cursor := {| columns := ["INDEX"; "TOTAL"; "PAGESIZE"]%string;
                          data := [[index; total; pagesize]] |} |}.

(** Three pages of a day with five rows, two to a page. *)
Definition page1 : Page := page [row "AAA" 10 2; row "BBB" 20 3] 0 5 2.
Definition page2 : Page := page [row "CCC" 30 4; row "DDD" 40 5] 2 5 2.
Definition page3 : Page := page [row "EEE" 50 6] 4 5 2.

(** A day that fits on one page. *)
Definition onlyPage : Page := page [row "AAA" 10 2] 0 1 100.

(** The same without its CLOSE column. *)
Definition noClosePage : Page :=
  {| history := {| columns := ["TRADEDATE"; "SECID"; "VOLUME"]%string;
                   data := [[CStr "2025-10-31"; CStr "AAA"; CNum (Number 10)]] |};
     history_cursor := {| columns := ["INDEX"; "TOTAL"; "PAGESIZE"]%string;
                          data := [[0; 1; 100]] |} |}.

(** A volume and a price, both integers, whose product needs more than 53
    bits. *)
Definition heavyPage : Page := page [row "AAA" 6666666667333333 3] 0 1 100.

(** The claim about the reported turnover as it is worded: it is the
    integer part of the exact product of the row's VOLUME and CLOSE
    divided by a million. *)
Definition reportsExactMillions (volumeCell closeCell : Cell) (e : Hot.Entry) : Prop :=
  exists n,
    exact_millions (exact_mul (ToNumber volumeCell) (ToNumber closeCell)) = Some n
    /\ Hot.turnover e = Number n.

(** The caches the module can come to hold: it starts empty and changes
    only through calls of [getHotStocks]. *)
Inductive reachable : Cache -> Prop :=
| reachable_initial : reachable []
| reachable_call daysBack today now cacheImoexData responses :
    reachable cacheImoexData ->
    reachable (cacheAfter (getHotStocks daysBack today now cacheImoexData responses)).

(** The latest day before [d] that is neither a Saturday nor a Sunday. *)
Definition previousBusinessDay (d : Date) : Date :=
  if WeekDay d =? 1 then d - 3
  else if WeekDay d =? 0 then d - 2
  else d - 1.

(** The [n] latest business days before [d], the latest first. *)
Fixpoint businessDaysBefore (n : nat) (d : Date) : list Date :=
  match n with
  | O => []
  | S k => previousBusinessDay d :: businessDaysBefore k (previousBusinessDay d)
  end.

(** The security has an average and it is not zero. *)
Definition reportable (averageVolume : AverageVolume) (secId : Cell) : bool :=
  match JsMap.get secId averageVolume with
  | Some avgData => negb (average avgData =? 0)
  | None => false
  end.

(** [ratio >= threshold] on an entry. *)
Definition reachesThreshold (threshold : double) (e : Hot.Entry) : bool :=
  SFleb threshold (Hot.ratio e).

(** Three days; AAA trades one share on the first and nothing after, BBB
    is listed on the first day only. *)
Definition thinDays : WindowDataset :=
  [ ("2025-10-31", [sec "AAA" 1 0; sec "BBB" 7 0]);
    ("2025-10-30", [sec "AAA" 0 0]);
    ("2025-10-29", [sec "AAA" 0 0]) ]%string.

(** The pages [pages], asked for from the offset [start] on, are the
    whole of a day: each reads well, each but the last has
    [INDEX + PAGESIZE < TOTAL] and a [PAGESIZE] that is not negative, and
    the last has [INDEX + PAGESIZE >= TOTAL]. [offsets] are the offsets
    they are asked at, and the rows take [imoexDay] to [imoexDay']. *)
Inductive pagedDay : Z -> list Page -> DaySnapshot -> DaySnapshot -> list Z -> Prop :=
| paged_last start a imoexDay imoexDay' pageIndex pageTotal pageSize :
    pageReads a imoexDay imoexDay' pageIndex pageTotal pageSize ->
    pageIndex + pageSize >= pageTotal ->
    pagedDay start [a] imoexDay imoexDay' [start]
| paged_more start a pages imoexDay imoexDay1 imoexDay' offsets
             pageIndex pageTotal pageSize :
    pageReads a imoexDay imoexDay1 pageIndex pageTotal pageSize ->
    0 <= pageSize ->
    pageIndex + pageSize < pageTotal ->
    pagedDay (start + pageSize) pages imoexDay1 imoexDay' offsets ->
    pagedDay start (a :: pages) imoexDay imoexDay' (start :: offsets).

(** The trace of a load, however it ends. *)
Definition outcomeTrace {A : Type} (o : Outcome A) : list Event :=
  match o with
  | Returned _ _ trace | Awaiting trace => trace
  end.

(** A request for one of [dates] at an offset that is not negative; an
    alert is no request. *)
Definition requestWithin (dates : list string) (ev : Event) : Prop :=
  match ev with
  | Fetch date start => In date dates /\ 0 <= start
  | Alert _ => True
  end.

(** One of the three cursor columns is missing. *)
Definition lacksCursorColumn (a : Page) : Prop :=
  indexOf "INDEX" (columns (history_cursor a)) = None
  \/ indexOf "TOTAL" (columns (history_cursor a)) = None
  \/ indexOf "PAGESIZE" (columns (history_cursor a)) = None.

(** The record line 76 makes of a row whose VOLUME converts to [v]. *)
Definition recordOf (idxVol idxClose : nat) (row : list Cell) (v : Z) : SecurityRecord :=
  {| volume := v;
     turnover := fmul (ToNumber (nth idxVol row CUndefined))
                      (ToNumber (nth idxClose row CUndefined)) |}.

(** The answers [pages], in order, are well-paged days for the dates
    [dates], one after the other; entering the days into [imoexData]
    gives [imoexData'], and [requested] are the requests this takes. *)
Inductive pagedWindow
  : list string -> list Page -> WindowDataset -> WindowDataset -> list Event -> Prop :=
| window_done imoexData : pagedWindow [] [] imoexData imoexData []
| window_day date dates pages offsets imoexDay morePages imoexData imoexData' requested :
    pagedDay 0 pages [] imoexDay offsets ->
    pagedWindow dates morePages (JsMap.set date imoexDay imoexData) imoexData' requested ->
    pagedWindow (date :: dates) (pages ++ morePages) imoexData imoexData'
      (map (Fetch date) offsets ++ requested).

(** No alert in a trace. *)
Definition silent (trace : list Event) : Prop :=
  Forall (fun ev => match ev with Fetch _ _ => True | Alert _ => False end) trace.

(** Tactics for the closed examples: a list of entries has no key twice,
    a window is a map of maps. *)
Ltac no_duplicates :=
  unfold isMap; simpl;
  repeat (constructor; [simpl; intuition discriminate|]); constructor.

Ltac map_of_maps :=
  split; [no_duplicates | repeat (constructor; [no_duplicates|]); constructor].

(** The SECID under which a row is stored. *)
Definition rowKey (idxName : nat) (row : list Cell) : Cell :=
  mapKey (nth idxName row CUndefined).

(** Of the keys [keys], in order, those that are not among [seen], each
    once, where it first occurs. *)
Fixpoint firstSeen (seen keys : list Cell) : list Cell :=
  match keys with
  | [] => []
  | k :: rest =>
      if in_dec eq_dec k seen then firstSeen seen rest
      else k :: firstSeen (seen ++ [k]) rest
  end.

(** A day with one record whose turnover is seven and a half millions. *)
Definition paidPage : Page :=
  page [[CStr "2025-10-31"; CStr "AAA"; CNum (Number 3000000); CStr "2.5"]] 0 1 100.

(** The claim about the ratio as it is worded, at one pair of
    arguments: [divideBigInt] gives the quotient rounded to one decimal
    place. *)
Definition roundsToOneDecimal (numerator denominator : Z) : Prop :=
  divideBigInt numerator denominator
  = Some (RatioArithmetic numerator denominator).

(** Rounding to 53 bits, as [SpecFloat] does it inside its operations,
    written out on integers. [inexact lx] tells that something of the
    value lies below the last bit of its mantissa. *)
Definition inexact (lx : location) : bool :=
  match lx with loc_Exact => false | _ => true end.

(** The mantissa [mx] moved [n] bits to the right, with the bit that
    went last and whether anything lies below it. *)
Definition shifted (mx : Z) (lx : location) (n : Z) : shr_record :=
  match n with
  | Zpos _ =>
      {| shr_m := mx / 2 ^ n;
         shr_r := Z.odd (mx / 2 ^ (n - 1));
         shr_s := inexact lx || negb (mx mod 2 ^ (n - 1) =? 0) |}
  | _ => shr_record_of_loc mx lx
  end.

(** The same rounded to the nearest integer, the even one when two are
    as near. *)
Definition rounded (mx : Z) (lx : location) (n : Z) : Z :=
  round_nearest_even (shr_m (shifted mx lx n)) (loc_of_shr_record (shifted mx lx n)).

(** Tactics for the arithmetic of one binade: the exponents of the powers
    of two are evaluated, then the goal is linear. *)
Ltac norm_pow :=
  repeat match goal with
         | |- context [2 ^ ?e] =>
             lazymatch e with
             | Zpos _ => fail
             | _ => let v := eval vm_compute in e in change e with v
             end
         | H : context [2 ^ ?e] |- _ =>
             lazymatch e with
             | Zpos _ => fail
             | _ => let v := eval vm_compute in e in change e with v in H
             end
         end.

Ltac binade :=
  match goal with
  | Hx : _ \/ _, Hy : _ \/ _ |- _ =>
      destruct Hx as [[-> Hx]|[-> Hx]]; destruct Hy as [[-> [Hy Ty]]|[-> [Hy Ty]]];
      (split; [lia|]); norm_pow;
      Z.div_mod_to_equations; lia
  end.


(* ===================================================================== *)
(** * Facts about maps *)
(* ===================================================================== *)

Section MapFacts.
Context {K V : Type} `{EqDec K}.
Implicit Types (k : K) (v : V) (m : list (K * V)).

Lemma get_set_same k v m : JsMap.get k (JsMap.set k v m) = Some v.
Proof.
  induction m as [|[k' v'] m IH]; simpl.
  - destruct (eq_dec k k); congruence.
  - destruct (eq_dec k k') as [->|N]; simpl.
    + destruct (eq_dec k' k'); congruence.
    + destruct (eq_dec k k'); [contradiction | exact IH].
Qed.

Lemma get_set_other k k0 v m :
  k0 <> k -> JsMap.get k0 (JsMap.set k v m) = JsMap.get k0 m.
Proof.
  intros N. induction m as [|[k' v'] m IH]; simpl.
  - destruct (eq_dec k0 k); [contradiction | reflexivity].
  - destruct (eq_dec k k') as [->|N']; simpl.
    + destruct (eq_dec k0 k'); [contradiction | reflexivity].
    + destruct (eq_dec k0 k'); [reflexivity | exact IH].
Qed.

Lemma set_set k v1 v2 m : JsMap.set k v2 (JsMap.set k v1 m) = JsMap.set k v2 m.
Proof.
  induction m as [|[k' v'] m IH]; simpl.
  - destruct (eq_dec k k); congruence.
  - destruct (eq_dec k k') as [->|N]; simpl.
    + destruct (eq_dec k' k'); congruence.
    + destruct (eq_dec k k'); [contradiction | now rewrite IH].
Qed.

Lemma has_true k m : JsMap.has k m = true <-> exists v, JsMap.get k m = Some v.
Proof.
  unfold JsMap.has. destruct (JsMap.get k m) as [v|].
  - split; [eauto | reflexivity].
  - split; [discriminate | intros [v E]; discriminate].
Qed.

Lemma has_false k m : JsMap.has k m = false <-> JsMap.get k m = None.
Proof.
  unfold JsMap.has. destruct (JsMap.get k m); split; congruence.
Qed.

Lemma get_In k v m : JsMap.get k m = Some v -> In (k, v) m.
Proof.
  induction m as [|[k' v'] m IH]; simpl; [discriminate|].
  destruct (eq_dec k k') as [->|N].
  - intros [= ->]. now left.
  - intros E. right. auto.
Qed.

Lemma set_values (P : V -> Prop) k v m :
  P v -> Forall (fun e => P (snd e)) m ->
  Forall (fun e => P (snd e)) (JsMap.set k v m).
Proof.
  intros Pv. induction m as [|[k' v'] m IH]; simpl; intros F.
  - constructor; [exact Pv | constructor].
  - inversion F; subst. destruct (eq_dec k k').
    + constructor; assumption.
    + constructor; [assumption | auto].
Qed.

Lemma keys_set k k0 v m :
  In k0 (JsMap.keys (JsMap.set k v m)) <-> k0 = k \/ In k0 (JsMap.keys m).
Proof.
  unfold JsMap.keys. induction m as [|[k' v'] m IH]; simpl.
  - intuition congruence.
  - destruct (eq_dec k k') as [->|N]; simpl; [intuition congruence|].
    rewrite IH. intuition congruence.
Qed.

(** [set] keeps a map a map. *)
Lemma set_isMap k v m : isMap m -> isMap (JsMap.set k v m).
Proof.
  unfold isMap. induction m as [|[k' v'] m IH]; simpl; intros D.
  - constructor; [intros [] | constructor].
  - inversion D as [|? ? Nin D']; subst.
    destruct (eq_dec k k') as [->|N]; simpl.
    + constructor; assumption.
    + constructor; [|now apply IH].
      intros I. apply (keys_set k k' v m) in I as [E|I]; [congruence | contradiction].
Qed.

End MapFacts.

(* ===================================================================== *)
(** * Ratio arithmetic *)
(* ===================================================================== *)

Lemma allFrom_spec n f : forall lo,
  allFrom lo n f = true -> forall q, lo <= q < lo + Z.of_nat n -> f q = true.
Proof.
  induction n as [|n IH]; intros lo A q R; [lia|].
  simpl in A. apply andb_true_iff in A as [A1 A2].
  destruct (Z.eq_dec q lo) as [->|N]; [exact A1|].
  apply (IH (lo + 1)); [exact A2 | lia].
Qed.

Lemma allBelow_spec n f :
  allBelow n f = true -> forall q, 0 <= q < n -> f q = true.
Proof.
  unfold allBelow. intros A q R.
  apply (allFrom_spec _ _ _ A). rewrite Z2Nat.id; lia.
Qed.

Lemma roundsAsSpecified_sound q :
  roundsAsSpecified q = true ->
  roundOneDecimal (fdiv (Number q) (Number 100)) = tenths ((q + 5) / 10).
Proof.
  unfold roundsAsSpecified.
  destruct (roundOneDecimal _); destruct (tenths _); try discriminate.
  - intros E. apply Bool.eqb_prop in E. now subst.
  - intros E. apply andb_true_iff in E as [E E3].
    apply andb_true_iff in E as [E E2].
    apply Bool.eqb_prop in E. apply Pos.eqb_eq in E2. apply Z.eqb_eq in E3.
    now subst.
Qed.

Lemma divideBigInt_unfold a b :
  b <> 0 ->
  divideBigInt a b
  = Some (roundOneDecimal (fdiv (Number (Z.quot (a * 100) b)) (Number 100))).
Proof.
  intros N. unfold divideBigInt, bigint_div.
  destruct (Z.eqb_spec b 0); [contradiction | reflexivity].
Qed.

(** ** Rounding to 53 bits *)

Lemma digits2_size p : digits2_pos p = Pos.size p.
Proof. induction p; simpl; congruence. Qed.

(** A positive integer from [2^(d-1)] up to [2^d] has [d] binary digits. *)
Lemma digits2_range p d :
  0 < d -> 2 ^ (d - 1) <= Zpos p < 2 ^ d -> Zpos (digits2_pos p) = d.
Proof.
  intros Hd [Lo Hi]. rewrite digits2_size.
  pose proof (Pos.size_gt p) as G. pose proof (Pos.size_le p) as L.
  apply Pos2Z.pos_lt_pos in G. apply Pos2Z.pos_le_pos in L.
  rewrite Pos2Z.inj_pow in G, L. change (Zpos p~0) with (2 * Zpos p) in L.
  assert (A : d - 1 < Zpos (Pos.size p)).
  { apply (Z.pow_lt_mono_r_iff 2); lia. }
  assert (B : Zpos (Pos.size p) < d + 1).
  { apply (Z.pow_lt_mono_r_iff 2); try lia.
    replace (2 ^ (d + 1)) with (2 * 2 ^ d) by (rewrite Z.pow_add_r; lia). lia. }
  lia.
Qed.

(** One step to the right: the bit that leaves is kept, and what was kept
    before goes below it. *)
Lemma shr_1_nonneg m r s :
  0 <= m ->
  shr_1 {| shr_m := m; shr_r := r; shr_s := s |}
  = {| shr_m := m / 2; shr_r := Z.odd m; shr_s := r || s |}.
Proof.
  intros Hm. destruct m as [|p|p]; [reflexivity| |lia].
  destruct p as [p|p|]; simpl shr_1.
  - assert (E : Z.pos p~1 / 2 = Z.pos p)
      by (rewrite Pos2Z.inj_xI; symmetry; apply Z.div_unique with (r := 1); lia).
    now rewrite E.
  - assert (E : Z.pos p~0 / 2 = Z.pos p)
      by (rewrite Pos2Z.inj_xO; symmetry; apply Z.div_unique with (r := 0); lia).
    now rewrite E.
  - reflexivity.
Qed.

Lemma iter_pos_nat {A} (f : A -> A) p : forall x,
  iter_pos f p x = Nat.iter (Pos.to_nat p) f x.
Proof.
  induction p as [p IH|p IH|]; intros x; simpl iter_pos.
  - rewrite !IH, Pos2Nat.inj_xI.
    replace (S (2 * Pos.to_nat p)) with (Pos.to_nat p + (Pos.to_nat p + 1))%nat by lia.
    rewrite !Nat.iter_add. reflexivity.
  - rewrite !IH, Pos2Nat.inj_xO.
    replace (2 * Pos.to_nat p)%nat with (Pos.to_nat p + Pos.to_nat p)%nat by lia.
    rewrite Nat.iter_add. reflexivity.
  - reflexivity.
Qed.

Lemma shr_iter_nat k : forall m r s,
  0 <= m ->
  Nat.iter (S k) shr_1 {| shr_m := m; shr_r := r; shr_s := s |}
  = {| shr_m := m / 2 ^ (Z.of_nat k + 1);
       shr_r := Z.odd (m / 2 ^ Z.of_nat k);
       shr_s := (r || s) || negb (m mod 2 ^ Z.of_nat k =? 0) |}.
Proof.
  induction k as [|k IH]; intros m r s Hm.
  - change (Nat.iter 1 shr_1 ?x) with (shr_1 x). rewrite shr_1_nonneg by exact Hm.
    change (2 ^ Z.of_nat 0) with 1. rewrite Z.div_1_r, Z.mod_1_r.
    change (2 ^ (Z.of_nat 0 + 1)) with 2. simpl. now rewrite orb_false_r.
  - change (Nat.iter (S (S k)) shr_1 ?x) with (shr_1 (Nat.iter (S k) shr_1 x)).
    rewrite IH by exact Hm.
    assert (P : 0 < 2 ^ Z.of_nat k) by (apply Z.pow_pos_nonneg; lia).
    rewrite shr_1_nonneg by (apply Z.div_pos; [lia | apply Z.pow_pos_nonneg; lia]).
    replace (Z.of_nat (S k)) with (Z.of_nat k + 1) by lia.
    f_equal.
    + rewrite Z.div_div by lia. f_equal.
      rewrite (Z.pow_add_r 2 (Z.of_nat k + 1) 1) by lia. reflexivity.
    + replace (2 ^ (Z.of_nat k + 1)) with (2 ^ Z.of_nat k * 2)
        by (rewrite Z.pow_add_r by lia; reflexivity).
      rewrite Z.rem_mul_r by lia.
      rewrite Zmod_odd.
      pose proof (Z.mod_pos_bound m (2 ^ Z.of_nat k) P).
      destruct (Z.odd (m / 2 ^ Z.of_nat k)); destruct r; destruct s;
        destruct (Z.eqb_spec (m mod 2 ^ Z.of_nat k) 0);
        match goal with
        | |- context [Z.eqb ?a 0] => destruct (Z.eqb_spec a 0)
        end; simpl; try reflexivity; lia.
Qed.

(** After [p] steps: the quotient by [2^p], the bit that went last, and
    whether anything lies below it. *)
Lemma shr_iter p m r s :
  0 <= m ->
  iter_pos shr_1 p {| shr_m := m; shr_r := r; shr_s := s |}
  = {| shr_m := m / 2 ^ Zpos p;
       shr_r := Z.odd (m / 2 ^ (Zpos p - 1));
       shr_s := (r || s) || negb (m mod 2 ^ (Zpos p - 1) =? 0) |}.
Proof.
  intros Hm. rewrite iter_pos_nat.
  destruct (Pos2Nat.is_succ p) as [k E]. rewrite E.
  rewrite shr_iter_nat by exact Hm.
  assert (Z.of_nat k = Zpos p - 1) by lia.
  replace (Z.of_nat k + 1) with (Zpos p) by lia.
  replace (Z.of_nat k) with (Zpos p - 1) by lia. reflexivity.
Qed.

(** A mantissa of [d >= 53] digits is cut to 53 by moving it [d - 53]
    bits to the right, as long as the exponent stays above the
    subnormal range. *)
Lemma shr_fexp_normal mx ex lx d :
  2 ^ (d - 1) <= mx < 2 ^ d -> 53 <= d -> -1074 <= ex + (d - 53) ->
  shr_fexp 53 1024 mx ex lx = (shifted mx lx (d - 53), ex + (d - 53)).
Proof.
  intros R Hd He.
  assert (P : 0 < mx).
  { assert (0 < 2 ^ (d - 1)) by (apply Z.pow_pos_nonneg; lia). lia. }
  destruct mx as [|p|p]; try lia.
  unfold shr_fexp, Zdigits2. rewrite (digits2_range p d) by (try lia; exact R).
  unfold fexp, emin.
  replace (Z.max (d + ex - 53) (3 - 1024 - 53) - ex) with (d - 53) by lia.
  unfold shr, shifted.
  destruct (d - 53) as [|n|n] eqn:En; try lia.
  - now rewrite Z.add_0_r.
  - f_equal.
    destruct lx as [|[ | | ]]; simpl shr_record_of_loc; rewrite shr_iter by lia;
      reflexivity.
Qed.

Lemma shifted_range mx lx d :
  2 ^ (d - 1) <= mx < 2 ^ d -> 53 <= d ->
  2 ^ 52 <= shr_m (shifted mx lx (d - 53)) < 2 ^ 53.
Proof.
  intros R Hd. unfold shifted.
  destruct (d - 53) as [|n|n] eqn:En; try lia.
  - assert (d = 53) by lia. subst d. destruct lx as [|[ | | ]]; exact R.
  - cbn [shr_m]. rewrite <- En.
    assert (Pn : 0 < 2 ^ (d - 53)) by (apply Z.pow_pos_nonneg; lia).
    assert (E1 : 2 ^ (d - 1) = 2 ^ (d - 53) * 2 ^ 52)
      by (rewrite <- Z.pow_add_r by lia; f_equal; lia).
    assert (E2 : 2 ^ d = 2 ^ (d - 53) * 2 ^ 53)
      by (rewrite <- Z.pow_add_r by lia; f_equal; lia).
    split.
    + apply Z.div_le_lower_bound; lia.
    + apply Z.div_lt_upper_bound; lia.
Qed.

Lemma round_nearest_even_range m l :
  m <= round_nearest_even m l <= m + 1.
Proof.
  destruct l as [|[ | | ]]; simpl; try lia. destruct (Z.even m); lia.
Qed.

(** Rounding in the normal range: the result has the rounded mantissa,
    carried to the next binade when the rounding takes it to [2^53]. *)
Lemma binary_round_aux_normal mx ex lx d :
  2 ^ (d - 1) <= mx < 2 ^ d -> 53 <= d ->
  -1074 <= ex + (d - 53) -> ex + (d - 53) + 1 <= 971 ->
  2 ^ 52 <= rounded mx lx (d - 53) <= 2 ^ 53
  /\ binary_round_aux 53 1024 false mx ex lx
     = if rounded mx lx (d - 53) <? 2 ^ 53
       then S754_finite false (Z.to_pos (rounded mx lx (d - 53))) (ex + (d - 53))
       else S754_finite false (Z.to_pos (2 ^ 52)) (ex + (d - 53) + 1).
Proof.
  intros R Hd Hlo Hhi.
  pose proof (shifted_range mx lx d R Hd) as S.
  pose proof (round_nearest_even_range (shr_m (shifted mx lx (d - 53)))
                (loc_of_shr_record (shifted mx lx (d - 53)))) as N.
  fold (rounded mx lx (d - 53)) in N.
  split; [lia|].
  unfold binary_round_aux.
  rewrite (shr_fexp_normal mx ex lx d R Hd Hlo).
  fold (rounded mx lx (d - 53)).
  set (M := rounded mx lx (d - 53)) in *.
  destruct (Z.ltb_spec M (2 ^ 53)) as [Lt|Ge].
  - rewrite (shr_fexp_normal M (ex + (d - 53)) loc_Exact 53) by lia.
    change (53 - 53) with 0. cbn [shifted shr_record_of_loc shr_m].
    destruct M as [|p|p]; try lia.
    rewrite Z.add_0_r.
    destruct (Z.leb_spec (ex + (d - 53)) (1024 - 53)); [reflexivity | lia].
  - assert (EM : M = 2 ^ 53) by lia. rewrite EM.
    rewrite (shr_fexp_normal (2 ^ 53) (ex + (d - 53)) loc_Exact 54) by lia.
    change (54 - 53) with 1. cbn [shifted shr_m].
    change (2 ^ 53 / 2 ^ 1) with (2 ^ 52).
    change (2 ^ 52) with (Z.pos (Z.to_pos (2 ^ 52))) at 1. cbv iota.
    destruct (Z.leb_spec (ex + (d - 53) + 1) (1024 - 53)); [reflexivity | lia].
Qed.

Lemma iter_xO p d : Zpos (Pos.iter xO p d) = Zpos p * 2 ^ Zpos d.
Proof.
  induction d as [|d IH] using Pos.peano_ind.
  - simpl. lia.
  - rewrite Pos.iter_succ, Pos2Z.inj_xO, IH, Pos2Z.inj_succ, Z.pow_succ_r by lia. lia.
Qed.

Lemma rounded_exact m : rounded m loc_Exact 0 = m.
Proof. reflexivity. Qed.

(** A positive integer below [2^53] is a Number: its mantissa is the
    integer shifted to 53 bits. *)
Lemma Number_binade q k :
  0 <= k <= 52 -> 2 ^ k <= q < 2 ^ (k + 1) ->
  Number q = S754_finite false (Z.to_pos (q * 2 ^ (52 - k))) (k - 52)
  /\ 2 ^ 52 <= q * 2 ^ (52 - k) < 2 ^ 53.
Proof.
  intros Hk R.
  assert (P : 0 < 2 ^ k) by (apply Z.pow_pos_nonneg; lia).
  assert (T : 0 < 2 ^ (52 - k)) by (apply Z.pow_pos_nonneg; lia).
  assert (E1 : 2 ^ 52 = 2 ^ k * 2 ^ (52 - k))
    by (rewrite <- Z.pow_add_r by lia; f_equal; lia).
  assert (E2 : 2 ^ 53 = 2 ^ (k + 1) * 2 ^ (52 - k))
    by (rewrite <- Z.pow_add_r by lia; f_equal; lia).
  assert (B : 2 ^ 52 <= q * 2 ^ (52 - k) < 2 ^ 53) by nia.
  split; [|exact B].
  destruct q as [|p|p]; try lia.
  unfold Number, binary_normalize, binary_round.
  rewrite (digits2_range p (k + 1)) by (try lia; replace (k + 1 - 1) with k by lia; exact R).
  unfold fexp, emin.
  replace (Z.max (k + 1 + 0 - 53) (3 - 1024 - 53)) with (k - 52) by lia.
  unfold shl_align.
  destruct (k - 52 - 0) as [|d|d] eqn:Ed; try lia.
  - assert (k = 52) by lia. subst k. change (2 ^ (52 - 52)) with 1 in *.
    rewrite Z.mul_1_r in *.
    destruct (binary_round_aux_normal (Z.pos p) 0 loc_Exact 53) as [_ ->]; try lia.
    change (53 - 53) with 0. rewrite rounded_exact.
    destruct (Z.ltb_spec (Z.pos p) (2 ^ 53)); [|lia]. reflexivity.
  - assert (Ek : 52 - k = Z.pos d) by lia.
    rewrite Ek in *.
    pose proof (iter_xO p d) as I.
    destruct (binary_round_aux_normal (Z.pos (Pos.iter xO p d)) (k - 52) loc_Exact 53)
      as [_ ->]; try lia.
    change (53 - 53) with 0. rewrite rounded_exact, I.
    destruct (Z.ltb_spec (Z.pos p * 2 ^ Z.pos d) (2 ^ 53)); [|lia].
    rewrite Z.add_0_r. reflexivity.
Qed.

Lemma Number_100 : Number 100 = S754_finite false 7036874417766400 (-46).
Proof. reflexivity. Qed.

Lemma Number_10 : Number 10 = S754_finite false 5629499534213120 (-49).
Proof. reflexivity. Qed.

Lemma div_eucl_eq a b : Z.div_eucl a b = (a / b, a mod b).
Proof. unfold Z.div, Z.modulo. now destruct (Z.div_eucl a b). Qed.

(** Division of a Number by 100: the mantissa of the quotient is the
    integer nearest to 32/25 or 16/25 of the mantissa divided. *)
Lemma fdiv_100 m e :
  2 ^ 52 <= Zpos m < 2 ^ 53 -> -1000 <= e <= 900 ->
  exists M E,
    fdiv (S754_finite false m e) (Number 100) = S754_finite false M E
    /\ 2 ^ 52 <= Zpos M < 2 ^ 53
    /\ (E = e - 7 /\ Z.abs (25 * Zpos M - 32 * Zpos m) <= 12
        \/ E = e - 6 /\ Z.abs (25 * Zpos M - 16 * Zpos m) <= 12).
Proof.
  intros R He. rewrite Number_100. unfold fdiv, SFdiv, SFdiv_core_binary.
  unfold Zdigits2. rewrite (digits2_range m 53) by (try lia; exact R).
  change (Z.pos (digits2_pos 7036874417766400)) with 53.
  unfold fexp, emin.
  replace (Z.min (Z.max (53 + e - (53 + -46) - 53) (3 - 1024 - 53)) (e - -46))
    with (e - 7) by lia.
  replace (e - -46 - (e - 7)) with 53 by lia.
  rewrite Z.shiftl_mul_pow2 by lia.
  rewrite div_eucl_eq.
  set (a := Z.pos m * 2 ^ 53).
  set (b := Z.pos 7036874417766400).
  pose proof (Z.div_mod a b ltac:(subst b; lia)) as D.
  pose proof (Z.mod_pos_bound a b ltac:(subst b; lia)) as Rr.
  assert (Rq : 2 ^ 52 <= a / b < 2 ^ 54).
  { subst a b. split.
    - apply Z.div_le_lower_bound; lia.
    - apply Z.div_lt_upper_bound; lia. }
  change (xorb false false) with false.
  change (new_location b (a mod b))
    with (if a mod b =? 0 then loc_Exact
          else loc_Inexact (Z.compare (2 * (a mod b)) b)).
  set (lz := if a mod b =? 0 then loc_Exact
             else loc_Inexact (Z.compare (2 * (a mod b)) b)).
  destruct (Z.ltb_spec (a / b) (2 ^ 53)) as [Small|Big].
  - destruct (binary_round_aux_normal (a / b) (e - 7) lz 53) as [RM ->]; try lia.
    change (53 - 53) with 0 in *.
    assert (N : Z.abs (25 * rounded (a / b) lz 0 - 32 * Z.pos m) <= 12).
    { unfold rounded, shifted, lz. subst a b.
      destruct (Z.eqb_spec ((Z.pos m * 2 ^ 53) mod 7036874417766400) 0) as [Z0|NZ];
        cbn [shr_record_of_loc shr_m loc_of_shr_record round_nearest_even].
      - lia.
      - destruct (Z.compare_spec (2 * ((Z.pos m * 2 ^ 53) mod 7036874417766400))
                    7036874417766400) as [C|C|C];
          cbn [shr_record_of_loc shr_m loc_of_shr_record round_nearest_even];
          lia. }
    destruct (Z.ltb_spec (rounded (a / b) lz 0) (2 ^ 53)) as [L|G].
    + exists (Z.to_pos (rounded (a / b) lz 0)), (e - 7 + 0).
      split; [reflexivity|]. rewrite Z2Pos.id by lia.
      split; [lia|]. left. split; lia.
    + exists (Z.to_pos (2 ^ 52)), (e - 7 + 0 + 1).
      split; [reflexivity|]. rewrite Z2Pos.id by lia.
      split; [lia|]. right. split; lia.
  - destruct (binary_round_aux_normal (a / b) (e - 7) lz 54) as [RM ->]; try lia.
    change (54 - 53) with 1 in *.
    assert (N : Z.abs (25 * rounded (a / b) lz 1 - 16 * Z.pos m) <= 12).
    { unfold rounded, shifted, lz. cbn [shr_m loc_of_shr_record].
      change (2 ^ (1 - 1)) with 1. rewrite Z.div_1_r, Z.mod_1_r.
      change (0 =? 0) with true. cbn [negb]. rewrite orb_false_r.
      change (2 ^ 1) with 2.
      rewrite <- Z.negb_even, Zeven_mod.
      subst a b.
      destruct (Z.eqb_spec ((Z.pos m * 2 ^ 53) mod 7036874417766400) 0) as [Z0|NZ];
        cbn [inexact];
        destruct (Z.eqb_spec (((Z.pos m * 2 ^ 53) / 7036874417766400) mod 2) 0)
          as [Ev|Od];
        cbn [negb round_nearest_even];
        try rewrite Zeven_mod;
        repeat match goal with
               | |- context [Z.eqb ?x 0] => destruct (Z.eqb_spec x 0)
               | |- context [Z.compare ?x ?y] => destruct (Z.compare_spec x y)
               end;
        cbn [inexact round_nearest_even loc_of_shr_record];
        clear RM; Z.div_mod_to_equations; lia. }
    destruct (Z.ltb_spec (rounded (a / b) lz 1) (2 ^ 53)) as [L|G].
    + exists (Z.to_pos (rounded (a / b) lz 1)), (e - 7 + 1).
      split; [reflexivity|]. rewrite Z2Pos.id by lia.
      split; [lia|]. right. split; lia.
    + exfalso. lia.
Qed.

(** Multiplication of a Number by 10: the mantissa of the product is the
    integer nearest to 5/4 or 5/8 of the mantissa multiplied, the even
    one when two are as near. *)
Lemma fmul_10 m e :
  2 ^ 52 <= Zpos m < 2 ^ 53 -> -1000 <= e <= 900 ->
  exists M E,
    fmul (S754_finite false m e) (Number 10) = S754_finite false M E
    /\ 2 ^ 52 <= Zpos M < 2 ^ 53
    /\ (E = e + 3 /\ Z.abs (4 * Zpos M - 5 * Zpos m) <= 2
        /\ (Z.abs (4 * Zpos M - 5 * Zpos m) = 2 -> Zpos M mod 2 = 0)
        \/ E = e + 4 /\ Z.abs (8 * Zpos M - 5 * Zpos m) <= 4
           /\ (Z.abs (8 * Zpos M - 5 * Zpos m) = 4 -> Zpos M mod 2 = 0)).
Proof.
  intros R He. rewrite Number_10. unfold fmul, SFmul.
  change (xorb false false) with false.
  rewrite Pos2Z.inj_mul.
  set (P := Z.pos m * Z.pos 5629499534213120).
  assert (RP : 2 ^ 104 <= P < 2 ^ 106) by (subst P; lia).
  destruct (Z.ltb_spec P (2 ^ 105)) as [Small|Big].
  - destruct (binary_round_aux_normal P (e + -49) loc_Exact 105) as [RM ->]; try lia.
    change (105 - 53) with 52 in *.
    assert (N : Z.abs (4 * rounded P loc_Exact 52 - 5 * Z.pos m) <= 2
                /\ (Z.abs (4 * rounded P loc_Exact 52 - 5 * Z.pos m) = 2 ->
                    rounded P loc_Exact 52 mod 2 = 0)).
    { clear RM. unfold rounded, shifted. cbn [shr_m loc_of_shr_record inexact orb].
      change (52 - 1) with 51.
      rewrite <- Z.negb_even, Zeven_mod. subst P.
      repeat match goal with
             | |- context [Z.eqb ?x 0] => destruct (Z.eqb_spec x 0)
             end;
        cbn [negb round_nearest_even loc_of_shr_record];
        try rewrite Zeven_mod;
        repeat match goal with
               | |- context [Z.eqb ?x 0] => destruct (Z.eqb_spec x 0)
               end;
        Z.div_mod_to_equations; lia. }
    destruct N as [N T].
    destruct (Z.ltb_spec (rounded P loc_Exact 52) (2 ^ 53)) as [L|G].
    + exists (Z.to_pos (rounded P loc_Exact 52)), (e + -49 + 52).
      split; [reflexivity|]. rewrite Z2Pos.id by lia.
      split; [lia|]. left. split; [lia|]. split; assumption.
    + exists (Z.to_pos (2 ^ 52)), (e + -49 + 52 + 1).
      split; [reflexivity|]. rewrite Z2Pos.id by lia.
      split; [lia|]. right. split; [lia|]. split; [lia|]. intros _. reflexivity.
  - destruct (binary_round_aux_normal P (e + -49) loc_Exact 106) as [RM ->]; try lia.
    change (106 - 53) with 53 in *.
    assert (N : Z.abs (8 * rounded P loc_Exact 53 - 5 * Z.pos m) <= 4
                /\ (Z.abs (8 * rounded P loc_Exact 53 - 5 * Z.pos m) = 4 ->
                    rounded P loc_Exact 53 mod 2 = 0)).
    { clear RM. unfold rounded, shifted. cbn [shr_m loc_of_shr_record inexact orb].
      change (53 - 1) with 52.
      rewrite <- Z.negb_even, Zeven_mod. subst P.
      repeat match goal with
             | |- context [Z.eqb ?x 0] => destruct (Z.eqb_spec x 0)
             end;
        cbn [negb round_nearest_even loc_of_shr_record];
        try rewrite Zeven_mod;
        repeat match goal with
               | |- context [Z.eqb ?x 0] => destruct (Z.eqb_spec x 0)
               end;
        Z.div_mod_to_equations; lia. }
    destruct N as [N T].
    destruct (Z.ltb_spec (rounded P loc_Exact 53) (2 ^ 53)) as [L|G].
    + exists (Z.to_pos (rounded P loc_Exact 53)), (e + -49 + 53).
      split; [reflexivity|]. rewrite Z2Pos.id by lia.
      split; [lia|]. right. split; [lia|]. split; assumption.
    + exfalso. lia.
Qed.

(** ** The rounding of line 48 *)

(** The arithmetic of the rounding, binade by binade. [q] hundredths lie in
    the binade [k]; [Mx] and [Ex] are what the division by 100 can give
    for it, [My] and [Ey] what the multiplication by 10 can give after
    that. The integer nearest to the product, a half going up, is then
    the number of tenths nearest to [q] hundredths, a half going up. *)
Lemma round_binades k q Mx Ex My Ey :
  0 <= k <= 52 ->
  2 ^ k <= q < 2 ^ (k + 1) -> q < 5 * 2 ^ 50 ->
  2 ^ 52 <= Mx < 2 ^ 53 -> 2 ^ 52 <= My < 2 ^ 53 ->
  (Ex = k - 52 - 7 /\ Z.abs (25 * Mx - 32 * (q * 2 ^ (52 - k))) <= 12
   \/ Ex = k - 52 - 6 /\ Z.abs (25 * Mx - 16 * (q * 2 ^ (52 - k))) <= 12) ->
  (Ey = Ex + 3 /\ Z.abs (4 * My - 5 * Mx) <= 2
   /\ (Z.abs (4 * My - 5 * Mx) = 2 -> My mod 2 = 0)
   \/ Ey = Ex + 4 /\ Z.abs (8 * My - 5 * Mx) <= 4
      /\ (Z.abs (8 * My - 5 * Mx) = 4 -> My mod 2 = 0)) ->
  Ey < 0 /\ (2 * My + 2 ^ (- Ey)) / 2 ^ (- Ey + 1) = (q + 5) / 10.
Proof.
  intros Hk Rq Bq Rx Ry Hx Hy.
  assert (C : k = 0 \/ k = 1 \/ k = 2 \/ k = 3 \/ k = 4 \/ k = 5 \/ k = 6 \/ k = 7
            \/ k = 8 \/ k = 9 \/ k = 10 \/ k = 11 \/ k = 12 \/ k = 13 \/ k = 14
            \/ k = 15 \/ k = 16 \/ k = 17 \/ k = 18 \/ k = 19 \/ k = 20 \/ k = 21
            \/ k = 22 \/ k = 23 \/ k = 24 \/ k = 25 \/ k = 26 \/ k = 27 \/ k = 28
            \/ k = 29 \/ k = 30 \/ k = 31 \/ k = 32 \/ k = 33 \/ k = 34 \/ k = 35
            \/ k = 36 \/ k = 37 \/ k = 38 \/ k = 39 \/ k = 40 \/ k = 41 \/ k = 42
            \/ k = 43 \/ k = 44 \/ k = 45 \/ k = 46 \/ k = 47 \/ k = 48 \/ k = 49
            \/ k = 50 \/ k = 51 \/ k = 52) by lia.
  clear Hk.
  repeat (destruct C as [->|C]; [binade|]).
  subst k. binade.
Qed.

(** [Math.round] of a positive Number with a fraction. *)
Lemma Math_round_negative m e :
  e < 0 ->
  Math_round (S754_finite false m e)
  = Number ((2 * Zpos m + 2 ^ (- e)) / 2 ^ (- e + 1)).
Proof.
  intros He. destruct e as [|p|p]; try lia.
  unfold Math_round. cbn [cond_Zopp].
  change (- Z.neg p) with (Z.pos p).
  rewrite Pos2Z.inj_xO.
  change (Z.pow_pos 2 p) with (2 ^ Z.pos p).
  change (Z.pow_pos 2 (p + 1)) with (2 ^ Z.pos (p + 1)).
  rewrite Pos2Z.inj_add.
  destruct (Z.eqb_spec ((2 * Z.pos m + 2 ^ Z.pos p) / 2 ^ (Z.pos p + 1)) 0) as [->|N];
    reflexivity.
Qed.

(** Up to [5 * 2^50] hundredths the steps of line 47 and 48 come to the
    nearest tenth, a half going up. *)
Theorem rounds_half_up q :
  0 <= q < 5 * 2 ^ 50 ->
  Math_round (fmul (fdiv (Number q) (Number 100)) (Number 10)) = Number ((q + 5) / 10).
Proof.
  intros [Lo Hi].
  destruct (Z.eq_dec q 0) as [->|NZ]; [reflexivity|].
  assert (Pq : 0 < q) by lia.
  destruct (Z.log2_spec q Pq) as [L U].
  set (k := Z.log2 q) in *.
  assert (Hk : 0 <= k <= 52).
  { split; [apply Z.log2_nonneg|].
    assert (k < 53); [|lia].
    apply (Z.pow_lt_mono_r_iff 2); lia. }
  replace (Z.succ k) with (k + 1) in U by lia.
  destruct (Number_binade q k Hk (conj L U)) as [-> Rm].
  destruct (fdiv_100 (Z.to_pos (q * 2 ^ (52 - k))) (k - 52))
    as (Mx & Ex & -> & Rx & Hx); [rewrite Z2Pos.id by lia; exact Rm | lia |].
  rewrite Z2Pos.id in Hx by lia.
  destruct (fmul_10 Mx Ex) as (My & Ey & -> & Ry & Hy); [exact Rx | lia |].
  destruct (round_binades k q (Z.pos Mx) Ex (Z.pos My) Ey Hk (conj L U) Hi Rx Ry Hx Hy)
    as [Ne E].
  rewrite (Math_round_negative My Ey Ne), E. reflexivity.
Qed.

(** The fourteen quotients from [5 * 2^50] on still round as they
    should; the next one does not. *)
Lemma rounds_last_fourteen : allFrom 5629499534213120 14 roundsAsSpecified = true.
Proof. vm_compute. reflexivity. Qed.

Lemma rounds_as_specified q :
  0 <= q < 5629499534213134 ->
  roundOneDecimal (fdiv (Number q) (Number 100)) = tenths ((q + 5) / 10).
Proof.
  intros [Lo Hi].
  destruct (Z.lt_ge_cases q (5 * 2 ^ 50)) as [Small|Big].
  - unfold roundOneDecimal, tenths. now rewrite rounds_half_up by lia.
  - apply roundsAsSpecified_sound.
    apply (allFrom_spec _ _ _ rounds_last_fourteen). lia.
Qed.

(** C5. [divideBigInt] is a function of its arguments, and multiplying
    the numerator and the denominator by the same positive integer does
    not change its result. *)
Theorem divideBigInt_scale_invariant (a b k : Z) :
  0 <= a -> 0 < b -> 0 < k ->
  divideBigInt (k * a) (k * b) = divideBigInt a b.
Proof.
  intros Ha Hb Hk.
  rewrite !divideBigInt_unfold by lia.
  replace (k * a * 100) with (k * (a * 100)) by ring.
  rewrite Z.quot_mul_cancel_l by lia.
  reflexivity.
Qed.

Lemma divideBigInt_scale_invariant_witness :
  divideBigInt (7 * 150) (7 * 100) = divideBigInt 150 100.
Proof. apply (divideBigInt_scale_invariant 150 100 7); lia. Defined.

(** C6 (as amended). For a non-negative numerator and a positive
    denominator whose quotient, a hundred times the numerator divided by
    the denominator with the fraction dropped, is below 5629499534213134
    hundredths, [divideBigInt] gives that quotient rounded to the nearest
    tenth, a half going up, as the Number nearest to it.
    [divideBigInt(150, 100)] is 1.5 and [divideBigInt(1, 3)] is 0.3. *)
Theorem divideBigInt_rounds_to_one_decimal :
  (forall a b, 0 <= a -> 0 < b -> Z.quot (a * 100) b < 5629499534213134 ->
     divideBigInt a b = Some (RatioArithmetic a b))
  /\ divideBigInt 150 100 = Some (tenths 15)
  /\ tenths 15 = S754_finite false 6755399441055744 (-52)
  /\ 6755399441055744 * 2 = 3 * 2 ^ 52
  /\ divideBigInt 1 3 = Some (tenths 3)
  /\ tenths 3 = S754_finite false 5404319552844595 (-54)
  /\ Z.abs (5404319552844595 * 10 - 3 * 2 ^ 54) <= 5.
Proof.
  split.
  - intros a b Ha Hb Hq. rewrite divideBigInt_unfold by lia.
    unfold RatioArithmetic. f_equal.
    apply rounds_as_specified.
    split; [|exact Hq].
    apply Z.quot_pos; lia.
  - repeat split; try (vm_compute; reflexivity).
    vm_compute. discriminate.
Qed.

Lemma divideBigInt_rounds_to_one_decimal_witness :
  0 <= 1 /\ 0 < 3 /\ Z.quot (1 * 100) 3 < 5629499534213134
  /\ divideBigInt 1 3 = Some (RatioArithmetic 1 3).
Proof.
  assert (A : 0 <= 1) by lia.
  assert (B : 0 < 3) by lia.
  assert (C : Z.quot (1 * 100) 3 < 5629499534213134) by (vm_compute; reflexivity).
  exact (conj A (conj B (conj C
           (proj1 divideBigInt_rounds_to_one_decimal 1 3 A B C)))).
Defined.

(** C6, the claim as worded, fails at the first quotient past that
    bound: 5629499534213134 hundredths is 56294995342131.34, which rounds
    to 56294995342131.3, and [divideBigInt] gives 56294995342131.4. *)
Lemma divideBigInt_large_quotient :
  Z.quot (5629499534213134 * 100) 100 = 5629499534213134
  /\ divideBigInt 5629499534213134 100 = Some (tenths 562949953421314)
  /\ RatioArithmetic 5629499534213134 100 = tenths 562949953421313
  /\ ~ roundsToOneDecimal 5629499534213134 100.
Proof.
  split; [reflexivity|]. split; [vm_compute; reflexivity|].
  split; [vm_compute; reflexivity|].
  unfold roundsToOneDecimal. vm_compute. discriminate.
Qed.

(* ===================================================================== *)
(** * Average volume *)
(* ===================================================================== *)

Lemma notin_get_None {K V : Type} `{EqDec K} (k : K) (m : list (K * V)) :
  ~ In k (JsMap.keys m) -> JsMap.get k m = None.
Proof.
  induction m as [|[k' v'] m IH]; simpl; [reflexivity|].
  intros N. destruct (eq_dec k k') as [->|D]; [tauto|].
  apply IH. tauto.
Qed.

Lemma addVolume_eq av k r :
  addVolume av k r
  = Some (JsMap.set k {| tallyVolume := tallyVolume (tallyOf k av) + volume r;
                         tallyCount := tallyCount (tallyOf k av) + 1 |} av).
Proof.
  unfold addVolume, tallyOf.
  destruct (JsMap.has k av) eqn:Hh; simpl.
  - apply has_true in Hh as [t Ht]. now rewrite Ht.
  - apply has_false in Hh. rewrite Hh, get_set_same, set_set. reflexivity.
Qed.

Lemma occCount_nonneg k l : 0 <= occCount k l.
Proof.
  induction l as [|[k' r] l IH]; simpl; [lia|].
  destruct (eq_dec k k'); lia.
Qed.

Lemma occCount_zero_volume k l : occCount k l = 0 -> occVolume k l = 0.
Proof.
  induction l as [|[k' r] l IH]; simpl; [reflexivity|].
  pose proof (occCount_nonneg k l).
  destruct (eq_dec k k'); intros E; [lia|]. rewrite IH; lia.
Qed.

Lemma occCount_In k l : 1 <= occCount k l <-> exists r, In (k, r) l.
Proof.
  induction l as [|[k' r'] l IH]; simpl.
  - split; [lia | intros [r []]].
  - pose proof (occCount_nonneg k l).
    destruct (eq_dec k k') as [->|N].
    + split; [intros _; exists r'; now left | lia].
    + rewrite Z.add_0_l, IH. split; intros [r I].
      * exists r. now right.
      * destruct I as [E|I]; [congruence | eauto].
Qed.

Lemma occ_app k l1 l2 :
  occVolume k (l1 ++ l2) = occVolume k l1 + occVolume k l2
  /\ occCount k (l1 ++ l2) = occCount k l1 + occCount k l2.
Proof.
  induction l1 as [|[k' r] l1 [IHv IHc]]; simpl; [lia|].
  rewrite IHv, IHc. lia.
Qed.

(** The tallies after one pass over a list of entries. *)
Lemma sumDay_tally dayData : forall av,
  exists av', sumDay dayData av = Some av'
    /\ forall k, JsMap.get k av'
         = if occCount k dayData =? 0 then JsMap.get k av
           else Some {| tallyVolume := tallyVolume (tallyOf k av) + occVolume k dayData;
                        tallyCount := tallyCount (tallyOf k av) + occCount k dayData |}.
Proof.
  induction dayData as [|[k0 r0] rest IH]; intros av; simpl.
  - exists av. split; [reflexivity|]. intros k. reflexivity.
  - rewrite addVolume_eq.
    destruct (IH (JsMap.set k0
                    {| tallyVolume := tallyVolume (tallyOf k0 av) + volume r0;
                       tallyCount := tallyCount (tallyOf k0 av) + 1 |} av))
      as (av' & E & G).
    exists av'. split; [exact E|]. intros k. rewrite G. clear G E.
    pose proof (occCount_nonneg k rest) as P.
    pose proof (occCount_zero_volume k rest) as Z0.
    unfold tallyOf.
    destruct (eq_dec k k0) as [->|N].
    + rewrite get_set_same. cbn [tallyVolume tallyCount].
      repeat match goal with
             | |- context [Z.eqb ?x 0] => destruct (Z.eqb_spec x 0)
             end; try lia; f_equal; f_equal; lia.
    + rewrite get_set_other by exact N. rewrite !Z.add_0_l. reflexivity.
Qed.

Lemma sumDay_app l1 l2 av :
  sumDay (l1 ++ l2) av
  = match sumDay l1 av with Some av' => sumDay l2 av' | None => None end.
Proof.
  revert av. induction l1 as [|[k r] l1 IH]; intros av; simpl; [reflexivity|].
  destruct (addVolume av k r); [apply IH | reflexivity].
Qed.

Lemma sumWindow_visited imoexData av :
  sumWindow imoexData av = sumDay (visited imoexData) av.
Proof.
  revert av. unfold visited.
  induction imoexData as [|[date dayData] rest IH]; intros av; simpl; [reflexivity|].
  rewrite sumDay_app. destruct (sumDay dayData av); [apply IH | reflexivity].
Qed.

Lemma setAverages_get sums :
  Forall (fun e => tallyCount (snd e) <> 0) sums ->
  exists avgs, setAverages sums = Some avgs
    /\ (forall k, JsMap.get k avgs = option_map averageOf (JsMap.get k sums))
    /\ avgs = map (fun e => (fst e, averageOf (snd e))) sums.
Proof.
  induction sums as [|[k0 t0] rest IH]; intros F; simpl.
  - exists []. repeat split.
  - inversion F as [|? ? Hc F']; subst. simpl in Hc.
    destruct (IH F') as (avgs & E & G & M).
    unfold bigint_div. destruct (Z.eqb_spec (tallyCount t0) 0); [contradiction|].
    rewrite E. eexists. split; [reflexivity|]. split.
    + intros k. simpl. destruct (eq_dec k k0); [reflexivity | apply G].
    + simpl. now rewrite M.
Qed.

(** Every tally of the summed window has counted at least one record. *)
Lemma sumDay_counts dayData : forall av av',
  Forall (fun e => 1 <= tallyCount (snd e)) av ->
  sumDay dayData av = Some av' ->
  Forall (fun e => 1 <= tallyCount (snd e)) av'.
Proof.
  induction dayData as [|[k0 r0] rest IH]; intros av av' F; simpl.
  - now intros [= <-].
  - rewrite addVolume_eq. apply IH.
    apply (set_values (fun t => 1 <= tallyCount t)); [|exact F].
    simpl. unfold tallyOf. destruct (JsMap.get k0 av) as [t|] eqn:G; simpl; [|lia].
    apply get_In in G. rewrite Forall_forall in F.
    specialize (F _ G). simpl in F. lia.
Qed.

Lemma isMap_occ k (dayData : DaySnapshot) :
  isMap dayData ->
  occVolume k dayData = volumeOn k dayData
  /\ occCount k dayData = if JsMap.has k dayData then 1 else 0.
Proof.
  unfold isMap, volumeOn, JsMap.has.
  induction dayData as [|[k' r] rest IH]; simpl; intros D; [split; reflexivity|].
  inversion D as [|? ? Nin D']; subst.
  destruct (eq_dec k k') as [->|N].
  - apply notin_get_None in Nin.
    assert (C : occCount k' rest = 0).
    { destruct (IH D') as [_ C]. now rewrite Nin in C. }
    rewrite C, (occCount_zero_volume _ _ C). split; lia.
  - rewrite !Z.add_0_l. apply IH, D'.
Qed.

Lemma visited_cons date dayData (rest : WindowDataset) :
  visited ((date, dayData) :: rest) = dayData ++ visited rest.
Proof. reflexivity. Qed.

Lemma visited_occ k imoexData :
  Forall (fun day => isMap (snd day)) imoexData ->
  occVolume k (visited imoexData) = windowVolume k imoexData
  /\ occCount k (visited imoexData) = daysWith k imoexData.
Proof.
  induction imoexData as [|[date dayData] rest IH]; intros F;
    [split; reflexivity|].
  inversion F as [|? ? Hd F']; subst. simpl in Hd.
  rewrite visited_cons.
  destruct (occ_app k dayData (visited rest)) as [Ev Ec].
  destruct (isMap_occ k dayData Hd) as [Dv Dc].
  destruct (IH F') as [Rv Rc].
  rewrite Ev, Ec, Dv, Dc, Rv, Rc. split; reflexivity.
Qed.

Lemma daysWith_observed k imoexData date dayData :
  In (date, dayData) imoexData -> JsMap.has k dayData = true ->
  1 <= daysWith k imoexData.
Proof.
  assert (P : forall l, 0 <= daysWith k l).
  { induction l as [|[d x] l IH]; simpl; [lia|].
    destruct (JsMap.has k x); lia. }
  induction imoexData as [|[d x] rest IH]; simpl; [tauto|].
  intros [E|I] Hh.
  - inversion E; subst. rewrite Hh. pose proof (P rest). lia.
  - specialize (IH I Hh). destruct (JsMap.has k x); lia.
Qed.

(** The whole of [computeAverageVolume] in one equation. *)
Lemma computeAverageVolume_total imoexData :
  exists sums,
    sumWindow imoexData [] = Some sums
    /\ Forall (fun e => 1 <= tallyCount (snd e)) sums
    /\ computeAverageVolume imoexData
       = Some (map (fun e => (fst e, averageOf (snd e))) sums)
    /\ (forall k, JsMap.get k (map (fun e => (fst e, averageOf (snd e))) sums)
                  = option_map averageOf (JsMap.get k sums))
    /\ (forall k, JsMap.get k sums
          = if occCount k (visited imoexData) =? 0 then None
            else Some {| tallyVolume := occVolume k (visited imoexData);
                         tallyCount := occCount k (visited imoexData) |}).
Proof.
  destruct (sumDay_tally (visited imoexData) []) as (sums & E0 & G).
  assert (E : sumWindow imoexData [] = Some sums)
    by (rewrite sumWindow_visited; exact E0).
  assert (C : Forall (fun e => 1 <= tallyCount (snd e)) sums)
    by (apply (sumDay_counts (visited imoexData) [] sums); [constructor | exact E0]).
  assert (C' : Forall (fun e => tallyCount (snd e) <> 0) sums).
  { eapply Forall_impl; [|exact C]. simpl. intros; lia. }
  destruct (setAverages_get sums C') as (avgs & Es & Gs & Ms).
  exists sums. repeat split; try assumption.
  - unfold computeAverageVolume. rewrite E, Es. now rewrite Ms.
  - intros k. rewrite <- Ms. apply Gs.
Qed.

(** C7. For a window that is a map of maps and a security seen on at
    least one of its days, the entry [computeAverageVolume] makes for it
    holds the sum of its volumes over the days where it appears, the
    number of those days, and as [average] the truncated integer quotient
    of the two; days without the security add nothing to either. In a
    window of ten days where the security trades 100 and 300 on two days,
    the average is 200. *)
Theorem computeAverageVolume_average (imoexData : WindowDataset) (secId : Cell) :
  isDataset imoexData ->
  (exists date dayData,
      In (date, dayData) imoexData /\ JsMap.has secId dayData = true) ->
  (exists averageVolume e,
      computeAverageVolume imoexData = Some averageVolume
      /\ JsMap.get secId averageVolume = Some e
      /\ totalVolume e = windowVolume secId imoexData
      /\ count e = daysWith secId imoexData
      /\ 1 <= count e
      /\ average e
         = Z.quot (windowVolume secId imoexData) (daysWith secId imoexData))
  /\ (exists averageVolume e,
         List.length tenDays = 10%nat /\ isDataset tenDays
         /\ daysWith (CStr "AAA") tenDays = 2
         /\ computeAverageVolume tenDays = Some averageVolume
         /\ JsMap.get (CStr "AAA") averageVolume = Some e
         /\ totalVolume e = 100 + 300 /\ count e = 2 /\ average e = 200).
Proof.
  intros [_ Hd] (date & dayData & I & Hh). split.
  - destruct (computeAverageVolume_total imoexData) as (sums & _ & _ & E & G & T).
    destruct (visited_occ secId imoexData Hd) as [Ev Ec].
    pose proof (daysWith_observed _ _ _ _ I Hh) as P.
    eexists. eexists. split; [exact E|].
    rewrite G, T, Ev, Ec.
    destruct (Z.eqb_spec (daysWith secId imoexData) 0); [lia|].
    simpl. repeat split; try reflexivity. simpl. exact P.
  - eexists. eexists.
    split; [reflexivity|]. split.
    + split.
      * unfold isMap. simpl.
        repeat (constructor; [simpl; intuition discriminate|]). constructor.
      * repeat (constructor;
                [unfold isMap; simpl;
                 repeat (constructor; [simpl; intuition discriminate|]);
                 constructor|]).
        constructor.
    + split; [reflexivity|]. split; [vm_compute; reflexivity|].
      split; [vm_compute; reflexivity|]. repeat split.
Qed.

Lemma computeAverageVolume_average_witness :
  exists averageVolume e,
    computeAverageVolume tenDays = Some averageVolume
    /\ JsMap.get (CStr "AAA") averageVolume = Some e
    /\ totalVolume e = windowVolume (CStr "AAA") tenDays
    /\ count e = daysWith (CStr "AAA") tenDays
    /\ 1 <= count e
    /\ average e
       = Z.quot (windowVolume (CStr "AAA") tenDays) (daysWith (CStr "AAA") tenDays).
Proof.
  refine (proj1 (computeAverageVolume_average tenDays (CStr "AAA") _ _)).
  - split.
    + unfold isMap. simpl.
      repeat (constructor; [simpl; intuition discriminate|]). constructor.
    + repeat (constructor;
              [unfold isMap; simpl;
               repeat (constructor; [simpl; intuition discriminate|]);
               constructor|]).
      constructor.
  - exists "2025-10-30"%string, [sec "BBB" 9 0; sec "AAA" 100 0].
    split; [simpl; tauto | reflexivity].
Defined.

(** C10. Whatever the window, [computeAverageVolume] finishes without a
    division by zero and every entry of its map has counted at least one
    record. *)
Theorem computeAverageVolume_counts_positive (imoexData : WindowDataset) :
  exists averageVolume,
    computeAverageVolume imoexData = Some averageVolume
    /\ Forall (fun e => 1 <= count (snd e)) averageVolume
    /\ Forall (fun e => bigint_div (totalVolume (snd e)) (count (snd e))
                        = Some (average (snd e))) averageVolume.
Proof.
  destruct (computeAverageVolume_total imoexData) as (sums & _ & C & E & _ & _).
  eexists. split; [exact E|]. split.
  - rewrite Forall_map. eapply Forall_impl; [|exact C]. simpl. auto.
  - rewrite Forall_map. eapply Forall_impl; [|exact C]. simpl.
    intros [k t] P. simpl in *. unfold bigint_div.
    destruct (Z.eqb_spec (tallyCount t) 0); [lia | reflexivity].
Qed.

(* ===================================================================== *)
(** * Hot stocks *)
(* ===================================================================== *)

Lemma listAt_set {V : Type} (d date : string) (l : list V) hs :
  listAt d (JsMap.set date l hs) = if string_dec d date then l else listAt d hs.
Proof.
  unfold listAt. destruct (string_dec d date) as [->|N].
  - now rewrite get_set_same.
  - now rewrite get_set_other.
Qed.

Lemma pushEntry_eq hs date e :
  pushEntry hs date e = Some (JsMap.set date (listAt date hs ++ [e]) hs).
Proof.
  unfold pushEntry, listAt.
  destruct (JsMap.has date hs) eqn:Hh; simpl.
  - apply has_true in Hh as [arr Ha]. now rewrite Ha.
  - apply has_false in Hh. rewrite Hh, get_set_same, set_set. reflexivity.
Qed.

Lemma hotStep_spec avgs date hs k r :
  exists hs', hotStep avgs date hs k r = Some hs'
    /\ forall d, listAt d hs'
                 = listAt d hs ++ if string_dec d date then emitted avgs k r else [].
Proof.
  unfold hotStep, emitted.
  destruct (JsMap.has k avgs) eqn:Hh; simpl.
  - apply has_true in Hh as [a Ha]. rewrite Ha.
    destruct (Z.eqb_spec (average a) 0) as [E|N].
    + exists hs. split; [reflexivity|]. intros d.
      destruct (string_dec d date); now rewrite app_nil_r.
    + rewrite (divideBigInt_unfold _ _ N), pushEntry_eq.
      eexists. split; [reflexivity|]. intros d. rewrite listAt_set.
      destruct (string_dec d date) as [->|D]; [reflexivity | now rewrite app_nil_r].
  - apply has_false in Hh. rewrite Hh.
    exists hs. split; [reflexivity|]. intros d.
    destruct (string_dec d date); now rewrite app_nil_r.
Qed.

Lemma hotDay_spec avgs date dayData : forall hs,
  exists hs', hotDay avgs date dayData hs = Some hs'
    /\ forall d, listAt d hs'
                 = listAt d hs
                   ++ if string_dec d date then emittedByDay avgs dayData else [].
Proof.
  induction dayData as [|[k r] rest IH]; intros hs; simpl.
  - exists hs. split; [reflexivity|]. intros d.
    destruct (string_dec d date); now rewrite app_nil_r.
  - destruct (hotStep_spec avgs date hs k r) as (hs1 & E1 & G1). rewrite E1.
    destruct (IH hs1) as (hs' & E & G). exists hs'. split; [exact E|].
    intros d. rewrite G, G1, <- app_assoc.
    destruct (string_dec d date); reflexivity.
Qed.

Lemma hotWindow_spec avgs imoexData : forall hs,
  exists hs', hotWindow avgs imoexData hs = Some hs'
    /\ forall d, listAt d hs' = listAt d hs ++ reportFor avgs d imoexData.
Proof.
  induction imoexData as [|[date dayData] rest IH]; intros hs; simpl.
  - exists hs. split; [reflexivity|]. intros d. now rewrite app_nil_r.
  - destruct (hotDay_spec avgs date dayData hs) as (hs1 & E1 & G1). rewrite E1.
    destruct (IH hs1) as (hs' & E & G). exists hs'. split; [exact E|].
    intros d. rewrite G, G1, <- app_assoc. reflexivity.
Qed.

(** [computeHotStocks] never throws, and under each date it lists, in the
    order of the window, what the records of that date emit. *)
Lemma computeHotStocks_report imoexData avgs :
  exists hotStocks, computeHotStocks imoexData avgs = Some hotStocks
    /\ forall d, listAt d hotStocks = reportFor avgs d imoexData.
Proof.
  destruct (hotWindow_spec avgs imoexData []) as (hs & E & G).
  exists hs. split; [exact E|]. intros d. now rewrite G.
Qed.

Lemma In_emitted avgs k r e :
  In e (emitted avgs k r) <->
  exists a ratio, JsMap.get k avgs = Some a /\ average a <> 0
    /\ divideBigInt (volume r) (average a) = Some ratio
    /\ e = hotEntry k ratio r.
Proof.
  unfold emitted. split.
  - destruct (JsMap.get k avgs) as [a|]; [|intros []].
    destruct (Z.eqb_spec (average a) 0) as [E|N]; [intros []|].
    destruct (divideBigInt (volume r) (average a)) as [ratio|] eqn:D; [|intros []].
    intros [<-|[]]. exists a, ratio.
    split; [reflexivity|]. split; [exact N|]. split; [exact D | reflexivity].
  - intros (a & ratio & G & N & D & ->). rewrite G.
    destruct (Z.eqb_spec (average a) 0); [contradiction|].
    rewrite D. now left.
Qed.

Lemma In_reportFor avgs date imoexData e :
  In e (reportFor avgs date imoexData) <->
  exists dayData k r,
    In (date, dayData) imoexData /\ In (k, r) dayData /\ In e (emitted avgs k r).
Proof.
  unfold reportFor, emittedByDay. rewrite in_flat_map. split.
  - intros ([d dayData] & I & Hin). simpl in Hin.
    destruct (string_dec date d) as [->|]; [|destruct Hin].
    apply in_flat_map in Hin as ([k r] & Ik & He).
    exists dayData, k, r. repeat split; assumption.
  - intros (dayData & k & r & I & Ik & He).
    exists (date, dayData). split; [exact I|]. simpl.
    destruct (string_dec date date); [|congruence].
    apply in_flat_map. exists (k, r). split; assumption.
Qed.

Lemma In_visited date dayData k r (imoexData : WindowDataset) :
  In (date, dayData) imoexData -> In (k, r) dayData -> In (k, r) (visited imoexData).
Proof.
  intros I Ik. unfold visited. apply in_concat.
  exists dayData. split; [|exact Ik].
  change dayData with (snd (date, dayData)). now apply in_map.
Qed.

(** C1. For every window and the averages computed from it,
    [computeHotStocks] returns a report in which a record of the window
    has its entry under its date exactly when the average of its security
    is not zero; the entry carries the ratio [divideBigInt] gives, whatever
    that ratio is, and nothing else is reported. *)
Theorem computeHotStocks_reports_nonzero_averages (imoexData : WindowDataset) :
  exists averageVolume hotStocks,
    computeAverageVolume imoexData = Some averageVolume
    /\ computeHotStocks imoexData averageVolume = Some hotStocks
    /\ (forall date dayData secId stockData,
          In (date, dayData) imoexData -> In (secId, stockData) dayData ->
          exists avgData,
            JsMap.get secId averageVolume = Some avgData
            /\ ((exists ratio,
                    In (hotEntry secId ratio stockData) (listAt date hotStocks))
                <-> average avgData <> 0)
            /\ (average avgData <> 0 ->
                exists ratio,
                  divideBigInt (volume stockData) (average avgData) = Some ratio
                  /\ In (hotEntry secId ratio stockData) (listAt date hotStocks)))
    /\ (forall date e,
          In e (listAt date hotStocks) ->
          exists dayData stockData avgData ratio,
            In (date, dayData) imoexData
            /\ In (Hot.secId e, stockData) dayData
            /\ JsMap.get (Hot.secId e) averageVolume = Some avgData
            /\ average avgData <> 0
            /\ e = hotEntry (Hot.secId e) ratio stockData).
Proof.
  destruct (computeAverageVolume_total imoexData) as (sums & _ & _ & E & G & T).
  destruct (computeHotStocks_report imoexData
              (map (fun e => (fst e, averageOf (snd e))) sums)) as (hs & Eh & R).
  eexists. exists hs. split; [exact E|]. split; [exact Eh|]. split.
  - intros date dayData secId stockData I Ik.
    assert (P : 1 <= occCount secId (visited imoexData)).
    { apply occCount_In. exists stockData. eapply In_visited; eassumption. }
    specialize (T secId).
    destruct (Z.eqb_spec (occCount secId (visited imoexData)) 0); [lia|].
    eexists. split; [rewrite G, T; reflexivity|].
    assert (Fwd : average (averageOf
                     {| tallyVolume := occVolume secId (visited imoexData);
                        tallyCount := occCount secId (visited imoexData) |}) <> 0 ->
                  exists ratio,
                    divideBigInt (volume stockData)
                      (average (averageOf
                         {| tallyVolume := occVolume secId (visited imoexData);
                            tallyCount := occCount secId (visited imoexData) |}))
                    = Some ratio
                    /\ In (hotEntry secId ratio stockData) (listAt date hs)).
    { intros N. eexists. split; [apply divideBigInt_unfold; exact N|].
      rewrite R. apply In_reportFor. exists dayData, secId, stockData.
      split; [exact I|]. split; [exact Ik|].
      apply In_emitted. eexists. eexists.
      split; [rewrite G, T; reflexivity|]. split; [exact N|].
      split; [apply divideBigInt_unfold; exact N | reflexivity]. }
    split; [|exact Fwd]. split.
    + intros (ratio & Hin). rewrite R in Hin.
      apply In_reportFor in Hin as (dayData' & k' & r' & _ & _ & He).
      apply In_emitted in He as (a & ratio' & Ga & Na & _ & Heq).
      assert (k' = secId) by (apply (f_equal Hot.secId) in Heq; simpl in Heq; congruence).
      subst k'. rewrite G, T in Ga. inversion Ga; subst a. exact Na.
    + intros N. destruct (Fwd N) as (ratio & _ & Hin). eauto.
  - intros date e Hin. rewrite R in Hin.
    apply In_reportFor in Hin as (dayData & k & r & I & Ik & He).
    apply In_emitted in He as (a & ratio & Ga & Na & _ & ->).
    exists dayData, r, a, ratio. simpl.
    split; [exact I|]. split; [exact Ik|]. split; [exact Ga|].
    split; [exact Na | reflexivity].
Qed.

(** The scenario of the specification: 100 against an average of 250 is
    reported as 0.4, and 400 as 1.6. *)
Example twoDays_report :
  exists averageVolume,
    computeAverageVolume twoDays = Some averageVolume
    /\ option_map average (JsMap.get (CStr "AAA") averageVolume) = Some 250
    /\ computeHotStocks twoDays averageVolume
       = Some [ ("2025-10-31"%string,
                 [{| Hot.secId := CStr "AAA"; Hot.ratio := tenths 4;
                     Hot.turnover := S754_zero false |}]);
                ("2025-10-30"%string,
                 [{| Hot.secId := CStr "AAA"; Hot.ratio := tenths 16;
                     Hot.turnover := S754_zero false |}]) ].
Proof. eexists. split; [reflexivity|]. split; vm_compute; reflexivity. Qed.

(** The older copy with its default threshold of 1.5 drops the first of
    the two entries. *)
Example twoDays_thresholded :
  exists averageVolume,
    computeAverageVolume twoDays = Some averageVolume
    /\ Thresholded.computeHotStocks twoDays averageVolume (tenths 15)
       = Some [ ("2025-10-30"%string,
                 [{| Hot.secId := CStr "AAA"; Hot.ratio := tenths 16;
                     Hot.turnover := S754_zero false |}]) ].
Proof. eexists. split; [reflexivity|]. vm_compute. reflexivity. Qed.

(* ===================================================================== *)
(** * Business days *)
(* ===================================================================== *)

Lemma WeekDay_yesterday (d : Z) : WeekDay (d - 1) = (WeekDay d + 6) mod 7.
Proof.
  unfold WeekDay.
  rewrite Zplus_mod_idemp_l.
  replace (d - 1 + 4) with (d + 4 + 6 + (-1) * 7) by lia.
  apply Z_mod_plus_full.
Qed.

Lemma isValid_true (d : Date) : firstDay <= d -> isValid d = true.
Proof. unfold isValid. intros H. now apply Z.leb_le. Qed.

Lemma isValid_false (d : Date) : d < firstDay -> isValid d = false.
Proof. unfold isValid. intros H. now apply Z.leb_gt. Qed.

Lemma getDay_valid (d : Date) : firstDay <= d -> getDay d = Some (WeekDay d).
Proof. intros H. unfold getDay. now rewrite isValid_true. Qed.

Lemma getDay_Some (d : Date) w : getDay d = Some w -> firstDay <= d /\ w = WeekDay d.
Proof.
  unfold getDay, isValid. destruct (Z.leb_spec firstDay d); [|discriminate].
  intros [= <-]. auto.
Qed.

(** Inside the range [setDate], asked for the day before, lands on it. *)
Lemma setDate_yesterday (d : Date) :
  firstDay < d -> setDate d (plus (getDate d) (-1)) = d - 1.
Proof.
  intros H. unfold setDate, getDate, plus.
  rewrite isValid_true by lia.
  replace (d - DateFromTime d + (DateFromTime d + -1)) with (d - 1)
    by (unfold Date in *; lia).
  now rewrite isValid_true by lia.
Qed.

(** On the first day, and on the invalid Date, it gives the invalid
    Date. *)
Lemma setDate_first (d : Date) :
  d <= firstDay -> setDate d (plus (getDate d) (-1)) = invalidDate.
Proof.
  intros H. unfold setDate, getDate, plus.
  destruct (Z.leb_spec firstDay d) as [V|V].
  - rewrite isValid_true by exact V.
    replace (d - DateFromTime d + (DateFromTime d + -1)) with (d - 1)
      by (unfold Date in *; lia).
    now rewrite isValid_false by lia.
  - now rewrite isValid_false by exact V.
Qed.

Lemma two_digits_checked : allBelow 32 padsToTwoDigits = true.
Proof. vm_compute. reflexivity. Qed.

Lemma years_checked : allBelow 10000 yearHasFourDigits = true.
Proof. vm_compute. reflexivity. Qed.

Lemma day_of_year_range (doe : Z) :
  0 <= doe < 146097 ->
  let yoe := (doe - doe / 1460 + doe / 36524 - doe / 146096) / 365 in
  0 <= doe - (365 * yoe + yoe / 4 - yoe / 100) <= 365.
Proof. intros R yoe. subst yoe. Z.div_mod_to_equations. lia. Qed.

Lemma month_day_range (doy : Z) :
  0 <= doy <= 365 ->
  let mp := (5 * doy + 2) / 153 in
  0 <= mp <= 11 /\ 1 <= doy - (153 * mp + 2) / 5 + 1 <= 31.
Proof. intros R mp. subst mp. Z.div_mod_to_equations. lia. Qed.

Lemma civil_fields (d : Z) :
  0 <= MonthFromTime d <= 11 /\ 1 <= DateFromTime d <= 31.
Proof.
  unfold MonthFromTime, DateFromTime, civil. cbn [fst snd].
  pose proof (Z.mod_pos_bound (d + 719468) 146097 ltac:(lia)) as R.
  pose proof (day_of_year_range _ R) as Y. cbv zeta in Y.
  pose proof (month_day_range _ Y) as [M D]. cbv zeta in M, D.
  split; [|exact D].
  match goal with
  | |- context [Z.ltb ?mp 10] => destruct (Z.ltb_spec mp 10); lia
  end.
Qed.

Lemma isTwoDigits_shape s :
  isTwoDigits s = true ->
  exists a b, s = String a (String b EmptyString)
              /\ isDigit a = true /\ isDigit b = true.
Proof.
  unfold isTwoDigits.
  destruct s as [|a [|b [|c s]]]; simpl; try discriminate.
  intros E. apply andb_true_iff in E as [Ea Eb]. eauto.
Qed.

Lemma isFourDigits_shape s :
  isFourDigits s = true ->
  exists a b c d, s = String a (String b (String c (String d EmptyString)))
    /\ isDigit a = true /\ isDigit b = true /\ isDigit c = true /\ isDigit d = true.
Proof.
  unfold isFourDigits.
  destruct s as [|a [|b [|c [|d [|e s]]]]]; simpl; try discriminate.
  intros E. apply andb_true_iff in E as [E Ed]. apply andb_true_iff in E as [E Ec].
  apply andb_true_iff in E as [Ea Eb]. exists a, b, c, d. auto.
Qed.

(** The month and the day of a valid Date are always written with two
    digits. *)
Lemma formatDate_fields (d : Date) : firstDay <= d -> writtenFromFields d.
Proof.
  intros V. destruct (civil_fields d) as [Rm Rd].
  exists (YearFromTime d), (MonthFromTime d), (DateFromTime d).
  eexists. eexists.
  unfold getFullYear, getMonth, getDate, formatDate.
  unfold getFullYear, getMonth, getDate. rewrite (isValid_true d V).
  split; [reflexivity|]. split; [reflexivity|]. split; [reflexivity|].
  split; [reflexivity|]. split; [reflexivity|]. split; [|split].
  - apply (allBelow_spec 32 padsToTwoDigits two_digits_checked). lia.
  - apply (allBelow_spec 32 padsToTwoDigits two_digits_checked). lia.
  - reflexivity.
Qed.

(** With a year of four digits the string is an ISO date. *)
Lemma formatDate_iso (d : Date) : firstDay <= d -> isoWhenFourDigitYear d.
Proof.
  intros V year Ey Ry.
  destruct (formatDate_fields d V)
    as (year' & month & day & mm & dd & Ey' & _ & _ & _ & _ & Hm & Hd & ->).
  rewrite Ey in Ey'. injection Ey' as <-.
  pose proof (allBelow_spec _ _ years_checked year ltac:(lia)) as Y.
  unfold yearHasFourDigits in Y.
  destruct (Z.ltb_spec year 1000); [lia|]. simpl in Y.
  apply isFourDigits_shape in Y as (a & b & c & e & -> & Ha & Hb & Hc & He).
  apply isTwoDigits_shape in Hm as (m1 & m2 & -> & Hm1 & Hm2).
  apply isTwoDigits_shape in Hd as (d1 & d2 & -> & Hd1 & Hd2).
  unfold isISODate. simpl.
  rewrite Ha, Hb, Hc, He, Hm1, Hm2, Hd1, Hd2. reflexivity.
Qed.

(** The invalid Date is written with its three NaN fields. *)
Lemma formatDate_invalid (d : Date) :
  d < firstDay -> formatDate d = "NaN-NaN-NaN"%string.
Proof.
  intros V. unfold formatDate, getFullYear, getMonth, getDate.
  rewrite (isValid_false d V). reflexivity.
Qed.

(** One turn of the loop. *)
Lemma workDaysLoop_step daysBack current i :
  workDaysLoop daysBack current i
  = if i <=? daysBack then
      if isWeekend (getDay (setDate current (plus (getDate current) (-1))))
      then workDaysLoop daysBack (setDate current (plus (getDate current) (-1))) i
      else formatDate (setDate current (plus (getDate current) (-1)))
             :: workDaysLoop daysBack (setDate current (plus (getDate current) (-1)))
                  (i + 1)
    else [].
Proof.
  funelim (workDaysLoop daysBack current i);
    repeat match goal with
           | H : _ = left _ |- _ => clear H
           | H : _ = right _ |- _ => clear H
           end.
  - destruct (Z.leb_spec i daysBack); [lia | reflexivity].
  - destruct (Z.leb_spec i daysBack); [|lia].
    match goal with
    | He : isWeekend _ = true |- _ => now rewrite He
    end.
  - destruct (Z.leb_spec i daysBack); [|lia].
    destruct (isWeekend (getDay (setDate current (plus (getDate current) (-1)))));
      [congruence | reflexivity].
Qed.

Lemma previousBusinessDay_latest (d : Z) :
  d - 3 <= previousBusinessDay d < d
  /\ WeekDay (previousBusinessDay d) <> 0
  /\ WeekDay (previousBusinessDay d) <> 6
  /\ forall x, previousBusinessDay d < x < d -> WeekDay x = 0 \/ WeekDay x = 6.
Proof.
  unfold previousBusinessDay, WeekDay, Date in *.
  destruct (Z.eqb_spec ((d + 4) mod 7) 1) as [E1|N1];
    [|destruct (Z.eqb_spec ((d + 4) mod 7) 0) as [E0|N0]].
  - split; [lia|]. split; [Z.div_mod_to_equations; lia|].
    split; [Z.div_mod_to_equations; lia|].
    intros x Hx. assert (C : x = d - 1 \/ x = d - 2) by lia.
    destruct C; subst x; Z.div_mod_to_equations; lia.
  - split; [lia|]. split; [Z.div_mod_to_equations; lia|].
    split; [Z.div_mod_to_equations; lia|].
    intros x Hx. assert (x = d - 1) by lia. subst x.
    Z.div_mod_to_equations; lia.
  - split; [lia|]. split; [Z.div_mod_to_equations; lia|].
    split; [Z.div_mod_to_equations; lia|].
    intros x Hx. lia.
Qed.

Lemma workDaysLoop_skip daysBack current i :
  i <= daysBack -> firstDay < current ->
  WeekDay (current - 1) = 0 \/ WeekDay (current - 1) = 6 ->
  workDaysLoop daysBack current i = workDaysLoop daysBack (current - 1) i.
Proof.
  intros Hi V Hw. rewrite workDaysLoop_step.
  destruct (Z.leb_spec i daysBack); [|lia].
  rewrite (setDate_yesterday current V).
  rewrite (getDay_valid (current - 1)) by (unfold Date in *; lia).
  unfold isWeekend. destruct Hw as [-> | ->]; reflexivity.
Qed.

Lemma workDaysLoop_take daysBack current i :
  i <= daysBack -> firstDay < current ->
  WeekDay (current - 1) <> 0 -> WeekDay (current - 1) <> 6 ->
  workDaysLoop daysBack current i
  = formatDate (current - 1) :: workDaysLoop daysBack (current - 1) (i + 1).
Proof.
  intros Hi V N0 N6. rewrite workDaysLoop_step.
  destruct (Z.leb_spec i daysBack); [|lia].
  rewrite (setDate_yesterday current V).
  rewrite (getDay_valid (current - 1)) by (unfold Date in *; lia).
  unfold isWeekend.
  destruct (Z.eqb_spec (WeekDay (current - 1)) 0); [contradiction|].
  destruct (Z.eqb_spec (WeekDay (current - 1)) 6); [contradiction|].
  reflexivity.
Qed.

(** One yield of the generator, three days or more above the first day:
    it yields the latest business day before [current] and goes on from
    there. *)
Lemma workDaysLoop_yield daysBack current i :
  i <= daysBack -> firstDay + 3 <= current ->
  workDaysLoop daysBack current i
  = formatDate (previousBusinessDay current)
      :: workDaysLoop daysBack (previousBusinessDay current) (i + 1).
Proof.
  intros Hi V. unfold previousBusinessDay.
  destruct (Z.eqb_spec (WeekDay current) 1) as [E1|N1];
    [|destruct (Z.eqb_spec (WeekDay current) 0) as [E0|N0]].
  - rewrite (workDaysLoop_skip daysBack current i Hi)
      by (try lia; left; unfold WeekDay, Date in *; Z.div_mod_to_equations; lia).
    rewrite (workDaysLoop_skip daysBack (current - 1) i Hi)
      by (try (unfold Date in *; lia);
          right; unfold WeekDay, Date in *; Z.div_mod_to_equations; lia).
    rewrite (workDaysLoop_take daysBack (current - 1 - 1) i Hi)
      by (try (unfold Date in *; lia);
          unfold WeekDay, Date in *; Z.div_mod_to_equations; lia).
    replace (current - 1 - 1 - 1) with (current - 3) by (unfold Date in *; lia).
    reflexivity.
  - rewrite (workDaysLoop_skip daysBack current i Hi)
      by (try lia; right; unfold WeekDay, Date in *; Z.div_mod_to_equations; lia).
    rewrite (workDaysLoop_take daysBack (current - 1) i Hi)
      by (try (unfold Date in *; lia);
          unfold WeekDay, Date in *; Z.div_mod_to_equations; lia).
    replace (current - 1 - 1) with (current - 2) by (unfold Date in *; lia).
    reflexivity.
  - apply workDaysLoop_take; [exact Hi | lia | |];
      unfold WeekDay, Date in *; Z.div_mod_to_equations; lia.
Qed.

(** As long as the walk stays above the first day the loop yields the
    latest business days, one after the other. *)
Lemma workDaysLoop_closed daysBack : forall n current i,
  Z.of_nat n = Z.max 0 (daysBack + 1 - i) ->
  firstDay + 3 * Z.of_nat n <= current ->
  workDaysLoop daysBack current i = map formatDate (businessDaysBefore n current).
Proof.
  induction n as [|n IH]; intros current i Hn V.
  - rewrite workDaysLoop_step. destruct (Z.leb_spec i daysBack); [lia | reflexivity].
  - rewrite workDaysLoop_yield by lia. simpl. f_equal.
    destruct (previousBusinessDay_latest current) as (B & _).
    apply IH; lia.
Qed.

(** From the first day on, and on the invalid Date, every turn yields the
    string of the invalid Date. *)
Lemma workDaysLoop_invalid daysBack : forall n current i,
  Z.of_nat n = Z.max 0 (daysBack + 1 - i) ->
  current <= firstDay ->
  workDaysLoop daysBack current i = repeat "NaN-NaN-NaN"%string n.
Proof.
  induction n as [|n IH]; intros current i Hn V.
  - rewrite workDaysLoop_step. destruct (Z.leb_spec i daysBack); [lia | reflexivity].
  - rewrite workDaysLoop_step. destruct (Z.leb_spec i daysBack); [|lia].
    rewrite (setDate_first current V).
    change (isWeekend (getDay invalidDate)) with false. cbv iota.
    change (formatDate invalidDate) with "NaN-NaN-NaN"%string.
    simpl repeat. f_equal. apply IH; [lia|].
    unfold invalidDate. lia.
Qed.

Lemma businessDaysBefore_length n : forall d, List.length (businessDaysBefore n d) = n.
Proof. induction n as [|n IH]; intros d; simpl; [reflexivity | now rewrite IH]. Qed.

Lemma businessDaysBefore_range n : forall d,
  Forall (fun x => d - 3 * Z.of_nat n <= x < d) (businessDaysBefore n d).
Proof.
  induction n as [|n IH]; intros d; simpl businessDaysBefore; [constructor|].
  destruct (previousBusinessDay_latest d) as (B & _).
  constructor; [lia|].
  eapply Forall_impl; [|apply IH]. cbv beta. intros x Hx. unfold Date in *. lia.
Qed.

Lemma businessDaysBefore_decreasing n : forall d, decreasing (businessDaysBefore n d).
Proof.
  induction n as [|n IH]; intros d; simpl businessDaysBefore; [constructor|].
  constructor; [apply IH|].
  eapply Forall_impl; [|apply businessDaysBefore_range]. cbv beta. intros; unfold Date in *; lia.
Qed.

Lemma businessDaysBefore_weekdays n : forall d,
  Forall (fun x => WeekDay x <> 0 /\ WeekDay x <> 6) (businessDaysBefore n d).
Proof.
  induction n as [|n IH]; intros d; simpl businessDaysBefore; [constructor|].
  destruct (previousBusinessDay_latest d) as (_ & N0 & N6 & _).
  constructor; [auto | apply IH].
Qed.

Lemma businessDaysBefore_snoc n : forall d,
  exists last,
    businessDaysBefore (S n) d = businessDaysBefore n d ++ [last]
    /\ d - 3 * Z.of_nat (S n) <= last < d /\ WeekDay last <> 0 /\ WeekDay last <> 6.
Proof.
  induction n as [|n IH]; intros d.
  - exists (previousBusinessDay d). split; [reflexivity|].
    destruct (previousBusinessDay_latest d) as (L & N0 & N6 & _).
    split; [lia | auto].
  - destruct (IH (previousBusinessDay d)) as (last & E & L & N0 & N6).
    exists last. split.
    + change (businessDaysBefore (S (S n)) d)
        with (previousBusinessDay d :: businessDaysBefore (S n) (previousBusinessDay d)).
      rewrite E. reflexivity.
    + destruct (previousBusinessDay_latest d) as (L' & _). repeat split; try assumption;
      unfold Date in *; lia.
Qed.

(** C4 (as amended). For every [daysBack >= 0] and every start that is a
    valid Date far enough above the first day a Date can hold for the
    walk to stay in range (three days for each date to yield are enough),
    on a host where [setDate] lands on the day before, the generator yields
    [daysBack + 1] strings; they are the [formatDate] of days that go
    strictly down, lie strictly before the start day and are never a
    Saturday or a Sunday. Each string is the year, a dash, the month on
    two digits, a dash and the day on two digits, taken from the local
    calendar fields of its day; it has the shape YYYY-MM-DD whenever the
    year is between 1000 and 9999. *)
Theorem workDaysGenerator_business_days (daysBack : Z) (startDate : Date) :
  0 <= daysBack ->
  firstDay + 3 * (daysBack + 1) < startDate <= lastDay ->
  exists days,
    picksBusinessDays daysBack startDate days
    /\ Forall writtenFromFields days
    /\ Forall isoWhenFourDigitYear days.
Proof.
  intros Hd [Hlo Hhi].
  set (n := Z.to_nat (daysBack + 1)).
  assert (Hn : Z.of_nat n = daysBack + 1) by (subst n; lia).
  assert (V : Forall (fun x => firstDay <= x) (businessDaysBefore n startDate)).
  { eapply Forall_impl; [|apply businessDaysBefore_range]. cbv beta. intros x Hx. unfold Date in *. lia. }
  exists (businessDaysBefore n startDate). split; [|split].
  - unfold picksBusinessDays, workDaysGenerator.
    split; [apply workDaysLoop_closed; lia|].
    split; [rewrite businessDaysBefore_length; exact Hn|].
    split; [apply businessDaysBefore_decreasing|].
    split.
    + eapply Forall_impl; [|apply businessDaysBefore_range]. cbv beta. intros; unfold Date in *; lia.
    + pose proof (businessDaysBefore_weekdays n startDate) as W.
      rewrite Forall_forall in *. intros x Hx.
      exists (WeekDay x). split; [apply getDay_valid, V, Hx|]. apply W, Hx.
  - eapply Forall_impl; [|exact V]. apply formatDate_fields.
  - eapply Forall_impl; [|exact V]. apply formatDate_iso.
Qed.

Lemma workDaysGenerator_business_days_witness :
  exists days,
    picksBusinessDays 2 20394 days
    /\ Forall writtenFromFields days
    /\ Forall isoWhenFourDigitYear days.
Proof.
  apply (workDaysGenerator_business_days 2 20394); unfold firstDay, lastDay; lia.
Defined.

(** Started on Sunday 2 November 2025 with [daysBack = 2]. *)
Example workDaysGenerator_sunday :
  workDaysGenerator 2 20394 = ["2025-10-31"; "2025-10-30"; "2025-10-29"]%string.
Proof. reflexivity. Qed.

(** C4, the claim as worded, fails for a start in the year 999: the year
    is not padded, so the string has nine characters. It fails again for
    a start on the first day a Date can hold: the day before is out of
    range, and what is yielded is the string of the invalid Date. *)
Lemma workDaysGenerator_year_999 :
  (workDaysGenerator 0 (-354648) = ["999-01-02"%string]
   /\ ~ yieldsISODates 0 (-354648))
  /\ (workDaysGenerator 0 firstDay = ["NaN-NaN-NaN"%string]
      /\ ~ yieldsISODates 0 firstDay).
Proof.
  split; (split; [reflexivity|]); intros (days & _ & F).
  - change (workDaysGenerator 0 (-354648)) with ["999-01-02"%string] in F.
    inversion F as [|? ? Bad _]; subst. discriminate Bad.
  - change (workDaysGenerator 0 firstDay) with ["NaN-NaN-NaN"%string] in F.
    inversion F as [|? ? Bad _]; subst. discriminate Bad.
Qed.

(* ===================================================================== *)
(** * Loading a day *)
(* ===================================================================== *)

(** The loop only ever adds to the trace. *)
Lemma pageLoop_trace_extends responses : forall date page imoexDay trace,
  exists more,
    dayTrace (pageLoop responses date page imoexDay trace) = trace ++ more.
Proof.
  induction responses as [|r rest IH]; intros date page imoexDay trace.
  - destruct page as [start|]; simpl; [|exists []; now rewrite app_nil_r].
    destruct (start <? 0); simpl; [exists []; now rewrite app_nil_r | eauto].
  - destruct page as [start|]; simpl; [|exists []; now rewrite app_nil_r].
    destruct (start <? 0); simpl; [exists []; now rewrite app_nil_r|].
    destruct r as [|a].
    + destruct (IH date (Some start) imoexDay
                  (trace ++ [Fetch date start; Alert DataError])) as [more ->].
      rewrite <- app_assoc. eauto.
    + repeat match goal with
             | |- context [match ?x with _ => _ end] =>
                 lazymatch x with
                 | pageLoop _ _ _ _ _ => fail
                 | _ => destruct x
                 end
             end;
        simpl;
        try (eexists; reflexivity);
        match goal with
        | |- context [pageLoop rest ?d ?p ?day ?tr] =>
            destruct (IH d p day tr) as [more ->];
            rewrite <- app_assoc; eexists; reflexivity
        end.
Qed.

(** While the loop runs, the first thing it does is to request the page at
    the current offset. *)
Lemma pageLoop_next_request responses date start imoexDay trace :
  0 <= start ->
  exists more,
    dayTrace (pageLoop responses date (Some start) imoexDay trace)
    = trace ++ Fetch date start :: more.
Proof.
  intros Hs.
  destruct responses as [|r rest]; simpl;
    destruct (Z.ltb_spec start 0); try lia; [eexists; reflexivity|].
  destruct r as [|a].
  - destruct (pageLoop_trace_extends rest date (Some start) imoexDay
                (trace ++ [Fetch date start; Alert DataError])) as [more ->].
    rewrite <- app_assoc. simpl. eauto.
  - repeat match goal with
           | |- context [match ?x with _ => _ end] =>
               lazymatch x with
               | pageLoop _ _ _ _ _ => fail
               | _ => destruct x
               end
           end;
      simpl;
      try (eexists; reflexivity);
      match goal with
      | |- context [pageLoop rest ?d ?p ?day ?tr] =>
          destruct (pageLoop_trace_extends rest d p day tr) as [more ->];
          rewrite <- app_assoc; simpl; eexists; reflexivity
      end.
Qed.

Lemma pageLoop_reads a rest date start imoexDay imoexDay' trace i t s :
  0 <= start ->
  pageReads a imoexDay imoexDay' i t s ->
  pageLoop (Reply a :: rest) date (Some start) imoexDay trace
  = pageLoop rest date (if t <=? i + s then Some (-1) else Some (start + s))
      imoexDay' (trace ++ [Fetch date start]).
Proof.
  intros Hs (idxName & idxVol & idxDate & idxClose & iI & iT & iS & pageData & others
             & E1 & E2 & E3 & E4 & M & C1 & C2 & C3 & D & N1 & N2 & N3).
  simpl. destruct (Z.ltb_spec start 0); [lia|].
  rewrite E1, E2, E3, E4, M, C1, C2, C3, D, N1, N2, N3.
  unfold nextPage, cursorAtEnd. destruct (t <=? i + s); reflexivity.
Qed.

Lemma pageLoop_stopped responses date imoexDay trace :
  pageLoop responses date (Some (-1)) imoexDay trace = DayDone imoexDay responses trace.
Proof. destruct responses; reflexivity. Qed.

(** C3. A page that reads well ends the loop of its date when its cursor
    row has [INDEX + PAGESIZE >= TOTAL]: no further request is made for
    the date. Otherwise the loop goes on with the offset raised by
    [PAGESIZE], and its next request is for that offset. Three pages with
    [PAGESIZE = 2] and [TOTAL = 5] are read with exactly three requests,
    at the offsets 0, 2 and 4, and the snapshot holds the five rows. *)
Theorem pageLoop_follows_cursor :
  (forall a rest date start imoexDay imoexDay' trace pageIndex pageTotal pageSize,
      0 <= start -> 0 <= pageSize ->
      pageReads a imoexDay imoexDay' pageIndex pageTotal pageSize ->
      (pageIndex + pageSize >= pageTotal ->
       pageLoop (Reply a :: rest) date (Some start) imoexDay trace
       = DayDone imoexDay' rest (trace ++ [Fetch date start]))
      /\ (pageIndex + pageSize < pageTotal ->
          pageLoop (Reply a :: rest) date (Some start) imoexDay trace
          = pageLoop rest date (Some (start + pageSize)) imoexDay'
              (trace ++ [Fetch date start])
          /\ exists more,
               dayTrace (pageLoop (Reply a :: rest) date (Some start) imoexDay trace)
               = trace ++ Fetch date start :: Fetch date (start + pageSize) :: more))
  /\ pageLoop [Reply page1; Reply page2; Reply page3; Reply onlyPage]
       "2025-10-31" (Some 0) [] []
     = DayDone
         [ (CStr "AAA", {| volume := 10; turnover := Number 20 |});
           (CStr "BBB", {| volume := 20; turnover := Number 60 |});
           (CStr "CCC", {| volume := 30; turnover := Number 120 |});
           (CStr "DDD", {| volume := 40; turnover := Number 200 |});
           (CStr "EEE", {| volume := 50; turnover := Number 300 |}) ]
         [Reply onlyPage]
         [Fetch "2025-10-31" 0; Fetch "2025-10-31" 2; Fetch "2025-10-31" 4].
Proof.
  split.
  - intros a rest date start imoexDay imoexDay' trace i t s Hs Hp R.
    rewrite (pageLoop_reads _ rest date start _ _ trace _ _ _ Hs R).
    split; intros C.
    + destruct (Z.leb_spec t (i + s)); [|lia]. apply pageLoop_stopped.
    + destruct (Z.leb_spec t (i + s)); [lia|]. split; [reflexivity|].
      destruct (pageLoop_next_request rest date (start + s) imoexDay'
                  (trace ++ [Fetch date start]) ltac:(lia)) as [more ->].
      rewrite <- app_assoc. simpl. eauto.
  - vm_compute. reflexivity.
Qed.

Lemma pageLoop_follows_cursor_witness :
  pageLoop [Reply page1] "2025-10-31" (Some 0) [] []
  = pageLoop [] "2025-10-31" (Some (0 + 2))
      [ (CStr "AAA", {| volume := 10; turnover := Number 20 |});
        (CStr "BBB", {| volume := 20; turnover := Number 60 |}) ]
      ([] ++ [Fetch "2025-10-31" 0]).
Proof.
  assert (R : pageReads page1 []
                [ (CStr "AAA", {| volume := 10; turnover := Number 20 |});
                  (CStr "BBB", {| volume := 20; turnover := Number 60 |}) ] 0 5 2).
  { exists 1%nat, 2%nat, 0%nat, 3%nat, 0%nat, 1%nat, 2%nat.
    eexists. eexists.
    split; [reflexivity|]. split; [reflexivity|]. split; [reflexivity|].
    split; [reflexivity|]. split; [vm_compute; reflexivity|].
    split; [reflexivity|]. split; [reflexivity|]. split; [reflexivity|].
    split; [reflexivity|]. split; [reflexivity|]. split; reflexivity. }
  exact (proj1 (proj2 (proj1 pageLoop_follows_cursor page1 [] "2025-10-31"%string
                         0 _ _ [] 0 5 2 ltac:(lia) ltac:(lia) R)
                 ltac:(lia))).
Defined.

(** A page without one of its history columns makes [loadData] return
    [undefined] at once: the rest of the script is not read. *)
Lemma pageLoop_missing_column a rest date start imoexDay trace :
  0 <= start -> lacksHistoryColumn a ->
  pageLoop (Reply a :: rest) date (Some start) imoexDay trace
  = DayAbort rest (trace ++ [Fetch date start; Alert CannotFindAllIndexes]).
Proof.
  intros Hs L. simpl. destruct (Z.ltb_spec start 0); [lia|].
  destruct L as [L|[L|[L|L]]]; rewrite L;
    repeat match goal with
           | |- context [match indexOf ?n ?c with _ => _ end] =>
               destruct (indexOf n c)
           end; reflexivity.
Qed.

Lemma datesLoop_missing_column a rest date more imoexData trace :
  lacksHistoryColumn a ->
  datesLoop (date :: more) (Reply a :: rest) imoexData trace
  = Returned None rest (trace ++ [Fetch date 0; Alert CannotFindAllIndexes]).
Proof.
  intros L. cbn [datesLoop].
  rewrite (pageLoop_missing_column a rest date 0 [] trace ltac:(lia) L).
  reflexivity.
Qed.

(** A failed request is followed by the same request. *)
Lemma pageLoop_failure rest date start imoexDay trace :
  0 <= start ->
  pageLoop (Failure :: rest) date (Some start) imoexDay trace
  = pageLoop rest date (Some start) imoexDay
      (trace ++ [Fetch date start; Alert DataError])
  /\ exists more,
       dayTrace (pageLoop (Failure :: rest) date (Some start) imoexDay trace)
       = trace ++ Fetch date start :: Alert DataError :: Fetch date start :: more.
Proof.
  intros Hs. simpl. destruct (Z.ltb_spec start 0); [lia|].
  split; [reflexivity|].
  destruct (pageLoop_next_request rest date start imoexDay
              (trace ++ [Fetch date start; Alert DataError]) Hs) as [more ->].
  rewrite <- app_assoc. simpl. eauto.
Qed.

(** C2, at the failing input. The first request of the only date fails
    and the second one is answered: [loadData] asks for the same page
    again and returns the whole dataset, where the claim has it abort
    without a retry. A missing CLOSE column does make it return
    [undefined]. *)
Theorem loadData_retries_failed_fetch :
  loadData 0 20394 [Failure; Reply onlyPage]
  = Returned
      (Some [("2025-10-31"%string,
              [(CStr "AAA", {| volume := 10; turnover := Number 20 |})])])
      []
      [Fetch "2025-10-31" 0; Alert DataError; Fetch "2025-10-31" 0]
  /\ loadData 0 20394 [Reply noClosePage; Reply onlyPage]
     = Returned None [Reply onlyPage]
         [Fetch "2025-10-31" 0; Alert CannotFindAllIndexes].
Proof. split; vm_compute; reflexivity. Qed.

(** As long as the requests fail, the load neither returns nor gives up:
    after [n] failures it is waiting for the answer to its request number
    [n + 1], for the same page. *)
Lemma loadData_keeps_asking (n : nat) :
  exists trace,
    loadData 0 20394 (repeat Failure n) = Awaiting trace
    /\ requests trace = repeat ("2025-10-31"%string, 0) (S n).
Proof.
  unfold loadData.
  change (workDaysGenerator 0 20394) with ["2025-10-31"%string].
  cbn [datesLoop].
  assert (G : forall trace,
             exists trace',
               pageLoop (repeat Failure n) "2025-10-31" (Some 0) [] trace
               = DayAwait trace'
               /\ requests trace'
                  = requests trace ++ repeat ("2025-10-31"%string, 0) (S n)).
  { induction n as [|n IH]; intros trace.
    - eexists. split; [reflexivity|].
      induction trace as [|[d s|x] trace IHt]; simpl; [reflexivity| |exact IHt].
      now rewrite IHt.
    - destruct (IH (trace ++ [Fetch "2025-10-31" 0; Alert DataError]))
        as (trace' & E & R).
      exists trace'. split; [exact E|]. rewrite R.
      assert (A : forall t1 t2, requests (t1 ++ t2) = requests t1 ++ requests t2).
      { induction t1 as [|[d s|x] t1 IHt]; intros t2; simpl;
          [reflexivity | now rewrite IHt | apply IHt]. }
      rewrite A, <- app_assoc. reflexivity. }
  destruct (G []) as (trace' & E & R). rewrite E. eauto.
Qed.

(* ===================================================================== *)
(** * Volume and turnover of a record *)
(* ===================================================================== *)

Lemma has_set_keeps {K V : Type} `{EqDec K} (k k0 : K) (v : V) m :
  JsMap.has k m = true -> JsMap.has k (JsMap.set k0 v m) = true.
Proof.
  intros Hh. apply has_true. destruct (eq_dec k k0) as [->|N].
  - rewrite get_set_same. eauto.
  - rewrite get_set_other by exact N. now apply has_true.
Qed.

Lemma mergeRows_keeps idxName idxVol idxClose rows : forall imoexDay imoexDay' k,
  mergeRows idxName idxVol idxClose rows imoexDay = Merged imoexDay' ->
  JsMap.has k imoexDay = true -> JsMap.has k imoexDay' = true.
Proof.
  induction rows as [|row rest IH]; intros imoexDay imoexDay' k; simpl.
  - now intros [= <-].
  - destruct (BigInt (nth idxVol row CUndefined)) as [v|]; [|discriminate].
    intros M Hh. eapply IH; [exact M|]. now apply has_set_keeps.
Qed.

Lemma mergeRows_app idxName idxVol idxClose rows1 rows2 : forall imoexDay,
  mergeRows idxName idxVol idxClose (rows1 ++ rows2) imoexDay
  = match mergeRows idxName idxVol idxClose rows1 imoexDay with
    | Merged imoexDay1 => mergeRows idxName idxVol idxClose rows2 imoexDay1
    | MergeThrew imoexDay1 => MergeThrew imoexDay1
    end.
Proof.
  induction rows1 as [|row rest IH]; intros imoexDay; simpl; [reflexivity|].
  destruct (BigInt (nth idxVol row CUndefined)); [apply IH | reflexivity].
Qed.

Lemma mergeRows_other idxName idxVol idxClose rows key : forall imoexDay imoexDay',
  mergeRows idxName idxVol idxClose rows imoexDay = Merged imoexDay' ->
  Forall (fun r => rowKey idxName r <> key) rows ->
  JsMap.get key imoexDay' = JsMap.get key imoexDay.
Proof.
  induction rows as [|row rest IH]; intros imoexDay imoexDay'; simpl.
  - now intros [= <-].
  - destruct (BigInt (nth idxVol row CUndefined)); [|discriminate].
    intros M F. inversion F as [|? ? N F']; subst.
    rewrite (IH _ _ M F'). apply get_set_other. unfold rowKey in N. congruence.
Qed.

(** A row that is merged is stored as its own record when its turn
    comes, whatever stood under its SECID, and the record is still there
    at the end of the page unless a later row has the same SECID. *)
Lemma mergeRows_row idxName idxVol idxClose before row after imoexDay imoexDay' :
  mergeRows idxName idxVol idxClose (before ++ row :: after) imoexDay
  = Merged imoexDay' ->
  exists v imoexDay1,
    BigInt (nth idxVol row CUndefined) = Some v
    /\ mergeRows idxName idxVol idxClose (before ++ [row]) imoexDay = Merged imoexDay1
    /\ JsMap.get (rowKey idxName row) imoexDay1 = Some (recordOf idxVol idxClose row v)
    /\ mergeRows idxName idxVol idxClose after imoexDay1 = Merged imoexDay'
    /\ (Forall (fun r => rowKey idxName r <> rowKey idxName row) after ->
        JsMap.get (rowKey idxName row) imoexDay'
        = Some (recordOf idxVol idxClose row v)).
Proof.
  rewrite !mergeRows_app.
  destruct (mergeRows idxName idxVol idxClose before imoexDay) as [day0|day0];
    [|discriminate].
  simpl. destruct (BigInt (nth idxVol row CUndefined)) as [v|]; [|discriminate].
  intros M. exists v. eexists. split; [reflexivity|]. split; [reflexivity|].
  split; [apply get_set_same|]. split; [exact M|].
  intros F. rewrite (mergeRows_other _ _ _ _ _ _ _ M F). apply get_set_same.
Qed.

(** [BigInt] of an integer Number is that integer, exactly. *)
Lemma BigInt_exact s m e v :
  BigInt (CNum (S754_finite s m e)) = Some v ->
  match e with
  | Zneg k => v * Z.pow_pos 2 k = cond_Zopp s (Zpos m)
  | _ => v = cond_Zopp s (Zpos m * 2 ^ e)
  end.
Proof.
  simpl. destruct e as [|p|k].
  - now intros [= <-].
  - now intros [= <-].
  - destruct (Z.eqb_spec (Z.pos m mod Z.pow_pos 2 k) 0) as [E|]; [|discriminate].
    intros [= <-].
    assert (P : 0 < Z.pow_pos 2 k) by (rewrite Z.pow_pos_fold; lia).
    pose proof (Z.div_mod (Z.pos m) (Z.pow_pos 2 k) ltac:(lia)) as D.
    rewrite E in D. destruct s; simpl; lia.
Qed.

Lemma computeHotStocks_turnover imoexData averageVolume hotStocks date e :
  computeHotStocks imoexData averageVolume = Some hotStocks ->
  In e (listAt date hotStocks) ->
  exists dayData stockData,
    In (date, dayData) imoexData
    /\ In (Hot.secId e, stockData) dayData
    /\ Hot.turnover e = Math_trunc (fdiv (turnover stockData) (Number 1000000)).
Proof.
  intros E Hin.
  destruct (computeHotStocks_report imoexData averageVolume) as (hs & E' & R).
  rewrite E in E'. inversion E'; subst hs. rewrite R in Hin.
  apply In_reportFor in Hin as (dayData & k & r & I & Ik & He).
  apply In_emitted in He as (a & ratio & _ & _ & _ & ->).
  exists dayData, r. simpl. split; [exact I|]. split; [exact Ik | reflexivity].
Qed.

(** C9 (as amended). Every row that is merged is stored under its SECID,
    when its turn comes and whatever stood there, as a record whose
    [volume] is the row's VOLUME as an exact integer and whose [turnover]
    is the product of VOLUME and CLOSE taken on Numbers, that is rounded
    to binary64; the record is still there at the end of the page unless
    a later row has the same SECID. The turnover of every reported entry
    is [Math.trunc] of the Number quotient of the stored turnover by
    [1e6]. *)
Theorem record_volume_exact_turnover_number :
  (forall idxName idxVol idxClose before row imoexDay imoexDay1,
      mergeRows idxName idxVol idxClose (before ++ [row]) imoexDay
      = Merged imoexDay1 ->
      exists v,
        BigInt (nth idxVol row CUndefined) = Some v
        /\ JsMap.get (rowKey idxName row) imoexDay1
           = Some {| volume := v;
                     turnover := fmul (ToNumber (nth idxVol row CUndefined))
                                      (ToNumber (nth idxClose row CUndefined)) |})
  /\ (forall idxName idxVol idxClose before row after imoexDay imoexDay',
        mergeRows idxName idxVol idxClose (before ++ row :: after) imoexDay
        = Merged imoexDay' ->
        Forall (fun r => rowKey idxName r <> rowKey idxName row) after ->
        exists v,
          BigInt (nth idxVol row CUndefined) = Some v
          /\ JsMap.get (rowKey idxName row) imoexDay'
             = Some {| volume := v;
                       turnover := fmul (ToNumber (nth idxVol row CUndefined))
                                        (ToNumber (nth idxClose row CUndefined)) |})
  /\ (forall s m e v,
        BigInt (CNum (S754_finite s m e)) = Some v ->
        match e with
        | Zneg k => v * Z.pow_pos 2 k = cond_Zopp s (Zpos m)
        | _ => v = cond_Zopp s (Zpos m * 2 ^ e)
        end)
  /\ (forall imoexData averageVolume hotStocks date e,
        computeHotStocks imoexData averageVolume = Some hotStocks ->
        In e (listAt date hotStocks) ->
        exists dayData stockData,
          In (date, dayData) imoexData
          /\ In (Hot.secId e, stockData) dayData
          /\ Hot.turnover e
             = Math_trunc (fdiv (turnover stockData) (Number 1000000))).
Proof.
  split; [|split; [|split]].
  - intros idxName idxVol idxClose before row imoexDay imoexDay1 M.
    destruct (mergeRows_row _ _ _ _ _ [] _ _ M) as (v & day1 & B & _ & _ & _ & L).
    exists v. split; [exact B | exact (L (Forall_nil _))].
  - intros idxName idxVol idxClose before row after imoexDay imoexDay' M F.
    destruct (mergeRows_row _ _ _ _ _ _ _ _ M) as (v & day1 & B & _ & _ & _ & L).
    exists v. split; [exact B | exact (L F)].
  - apply BigInt_exact.
  - apply computeHotStocks_turnover.
Qed.

(** A second row for AAA replaces the record of the first; and a volume
    of 3000000 at a close of 2.5 is reported as 7 millions. *)
Lemma record_volume_exact_turnover_number_witness :
  (exists v,
      BigInt (nth 2 (row "AAA" 30 4) CUndefined) = Some v
      /\ JsMap.get (rowKey 1 (row "AAA" 30 4))
           [ (CStr "AAA", {| volume := 30; turnover := Number 120 |});
             (CStr "BBB", {| volume := 20; turnover := Number 60 |}) ]
         = Some {| volume := v;
                   turnover := fmul (ToNumber (nth 2 (row "AAA" 30 4) CUndefined))
                                    (ToNumber (nth 3 (row "AAA" 30 4) CUndefined)) |})
  /\ (exists v,
        BigInt (nth 2 (row "AAA" 30 4) CUndefined) = Some v
        /\ JsMap.get (rowKey 1 (row "AAA" 30 4))
             [ (CStr "AAA", {| volume := 30; turnover := Number 120 |});
               (CStr "BBB", {| volume := 20; turnover := Number 60 |});
               (CStr "CCC", {| volume := 30; turnover := Number 120 |}) ]
           = Some {| volume := v;
                     turnover := fmul (ToNumber (nth 2 (row "AAA" 30 4) CUndefined))
                                      (ToNumber (nth 3 (row "AAA" 30 4) CUndefined)) |})
  /\ (exists dayData stockData,
        In ("2025-10-31"%string, dayData)
          [("2025-10-31"%string,
            [(CStr "AAA", {| volume := 3000000; turnover := Number 7500000 |})])]
        /\ In (CStr "AAA", stockData) dayData
        /\ Number 7 = Math_trunc (fdiv (turnover stockData) (Number 1000000))).
Proof.
  split; [|split].
  - apply (proj1 record_volume_exact_turnover_number 1%nat 2%nat 3%nat
             [row "AAA" 10 2; row "BBB" 20 3] (row "AAA" 30 4) []).
    vm_compute. reflexivity.
  - apply (proj1 (proj2 record_volume_exact_turnover_number) 1%nat 2%nat 3%nat
             [row "AAA" 10 2; row "BBB" 20 3] (row "AAA" 30 4) [row "CCC" 30 4] []).
    + vm_compute. reflexivity.
    + constructor; [|constructor]. vm_compute. discriminate.
  - refine (proj2 (proj2 (proj2 record_volume_exact_turnover_number))
              [("2025-10-31"%string,
                [(CStr "AAA", {| volume := 3000000; turnover := Number 7500000 |})])]
              [(CStr "AAA", {| totalVolume := 3000000; count := 1; average := 3000000 |})]
              _ "2025-10-31"%string
              {| Hot.secId := CStr "AAA"; Hot.ratio := Number 1;
                 Hot.turnover := Number 7 |} _ _).
    + vm_compute. reflexivity.
    + vm_compute. left. reflexivity.
Defined.

(** The same through a whole call: the answer holds the close as the
    text 2.5, and the report shows 7 millions. *)
Example paidPage_report :
  getHotStocks 0 20394 20394 [] [Reply paidPage]
  = {| settled :=
         Fulfilled [("2025-10-31"%string,
                     [{| Hot.secId := CStr "AAA"; Hot.ratio := Number 1;
                         Hot.turnover := Number 7 |}])];
       cacheAfter :=
         [("hotStocks_0_2025-11-02"%string,
           [("2025-10-31"%string,
             [{| Hot.secId := CStr "AAA"; Hot.ratio := Number 1;
                 Hot.turnover := Number 7 |}])])];
       unread := [];
       events := [Fetch "2025-10-31" 0] |}.
Proof. vm_compute. reflexivity. Qed.

(** C9, the claim as worded, fails: for a volume of 6666666667333333 at a
    close of 3 the exact product is 20000000001999999, which is 20000000001
    millions, while the Number product is 20000000002000000 and the entry
    reports 20000000002. *)
Lemma turnover_rounded_before_truncation :
  exists imoexData averageVolume e,
    loadData 0 20394 [Reply heavyPage]
    = Returned (Some imoexData) [] [Fetch "2025-10-31" 0]
    /\ computeAverageVolume imoexData = Some averageVolume
    /\ computeHotStocks imoexData averageVolume = Some [("2025-10-31"%string, [e])]
    /\ Hot.turnover e = Number 20000000002
    /\ exact_millions (exact_mul (Number 6666666667333333) (Number 3))
       = Some 20000000001
    /\ ~ reportsExactMillions (CNum (Number 6666666667333333)) (CNum (Number 3)) e.
Proof.
  eexists. eexists. eexists.
  split; [vm_compute; reflexivity|].
  split; [vm_compute; reflexivity|].
  split; [vm_compute; reflexivity|].
  split; [vm_compute; reflexivity|].
  split; [vm_compute; reflexivity|].
  intros (n & En & Et).
  vm_compute in En. inversion En; subst n.
  vm_compute in Et. discriminate Et.
Qed.

(* ===================================================================== *)
(** * The cache *)
(* ===================================================================== *)

Lemma getHotStocks_hit daysBack today now cacheImoexData responses :
  JsMap.has (cacheKeyOf daysBack today) cacheImoexData = true ->
  getHotStocks daysBack today now cacheImoexData responses
  = readCache (cacheKeyOf daysBack today) cacheImoexData responses [].
Proof. intros Hh. unfold getHotStocks. cbv zeta. now rewrite Hh. Qed.

Lemma getHotStocks_miss daysBack today now cacheImoexData responses :
  JsMap.has (cacheKeyOf daysBack today) cacheImoexData = false ->
  getHotStocks daysBack today now cacheImoexData responses
  = match loadData daysBack now responses with
    | Awaiting trace =>
        {| settled := Pending; cacheAfter := cacheImoexData;
           unread := []; events := trace |}
    | Returned None rest trace =>
        {| settled := Rejected; cacheAfter := cacheImoexData;
           unread := rest; events := trace |}
    | Returned (Some moexData) rest trace =>
        match computeAverageVolume moexData with
        | None =>
            {| settled := Rejected; cacheAfter := cacheImoexData;
               unread := rest; events := trace |}
        | Some averageVolume =>
            match computeHotStocks moexData averageVolume with
            | None =>
                {| settled := Rejected; cacheAfter := cacheImoexData;
                   unread := rest; events := trace |}
            | Some hotStocks =>
                {| settled := Fulfilled hotStocks;
                   cacheAfter := [(cacheKeyOf daysBack today, hotStocks)];
                   unread := rest; events := trace |}
            end
        end
    end.
Proof.
  intros Hh. unfold getHotStocks. cbv zeta. rewrite Hh. cbn [negb].
  destruct (loadData daysBack now responses) as [[moexData|] rest trace|trace];
    try reflexivity.
  destruct (computeAverageVolume moexData) as [averageVolume|]; try reflexivity.
  destruct (computeHotStocks moexData averageVolume) as [hotStocks|];
    try reflexivity.
  unfold readCache, JsMap.clear. rewrite get_set_same. reflexivity.
Qed.

Lemma getHotStocks_cache_shape daysBack today now cacheImoexData responses :
  cacheAfter (getHotStocks daysBack today now cacheImoexData responses)
  = cacheImoexData
  \/ exists hotStocks,
       JsMap.has (cacheKeyOf daysBack today) cacheImoexData = false
       /\ settled (getHotStocks daysBack today now cacheImoexData responses)
          = Fulfilled hotStocks
       /\ cacheAfter (getHotStocks daysBack today now cacheImoexData responses)
          = [(cacheKeyOf daysBack today, hotStocks)].
Proof.
  destruct (JsMap.has (cacheKeyOf daysBack today) cacheImoexData) eqn:Hh.
  - left. rewrite (getHotStocks_hit _ _ _ _ _ Hh). unfold readCache.
    destruct (JsMap.get _ cacheImoexData); reflexivity.
  - rewrite (getHotStocks_miss _ _ _ _ _ Hh).
    destruct (loadData daysBack now responses) as [[moexData|] rest trace|trace];
      [|now left|now left].
    destruct (computeAverageVolume moexData) as [averageVolume|]; [|now left].
    destruct (computeHotStocks moexData averageVolume) as [hotStocks|]; [|now left].
    right. exists hotStocks. auto.
Qed.

Lemma reachable_single_slot cacheImoexData :
  reachable cacheImoexData -> (List.length cacheImoexData <= 1)%nat.
Proof.
  induction 1 as [|daysBack today now c responses R IH]; simpl; [lia|].
  destruct (getHotStocks_cache_shape daysBack today now c responses)
    as [->|(hs & _ & _ & ->)]; simpl; lia.
Qed.

(** C8. When a call of [getHotStocks] has returned its result, the next
    call with the same [daysBack] on the same calendar day makes no
    request at all, whatever the network would answer, and returns that
    same result from the cache, which it leaves as it is. A call that
    misses and succeeds leaves the cache with exactly the new entry, and
    no cache the module can reach holds more than one entry. *)
Theorem getHotStocks_second_call_is_cached
    (daysBack : Z) (today now now' : Date) (cacheImoexData : Cache)
    (responses responses' : list Response) (out : HotStocks) :
  settled (getHotStocks daysBack today now cacheImoexData responses) = Fulfilled out ->
  let first := getHotStocks daysBack today now cacheImoexData responses in
  let second := getHotStocks daysBack today now' (cacheAfter first) responses' in
  settled second = Fulfilled out
  /\ events second = []
  /\ requests (events second) = []
  /\ unread second = responses'
  /\ cacheAfter second = cacheAfter first
  /\ (JsMap.has (cacheKeyOf daysBack today) cacheImoexData = false ->
      cacheAfter first = [(cacheKeyOf daysBack today, out)])
  /\ (forall c, reachable c -> (List.length c <= 1)%nat).
Proof.
  intros F first second.
  assert (G : JsMap.get (cacheKeyOf daysBack today) (cacheAfter first) = Some out
              /\ (JsMap.has (cacheKeyOf daysBack today) cacheImoexData = false ->
                  cacheAfter first = [(cacheKeyOf daysBack today, out)])).
  { subst first. revert F.
    destruct (JsMap.has (cacheKeyOf daysBack today) cacheImoexData) eqn:Hh.
    - rewrite (getHotStocks_hit _ _ _ _ _ Hh). unfold readCache.
      destruct (JsMap.get _ cacheImoexData) as [hs|] eqn:Hg;
        cbn [settled cacheAfter]; [|discriminate].
      intros [= ->]. split; [exact Hg | discriminate].
    - rewrite (getHotStocks_miss _ _ _ _ _ Hh).
      destruct (loadData daysBack now responses) as [[moexData|] rest trace|trace];
        cbn [settled]; try discriminate.
      destruct (computeAverageVolume moexData) as [averageVolume|];
        cbn [settled]; try discriminate.
      destruct (computeHotStocks moexData averageVolume) as [hotStocks|];
        cbn [settled cacheAfter]; try discriminate.
      intros [= ->]. split; [|reflexivity].
      cbn [JsMap.get].
      destruct (eq_dec (cacheKeyOf daysBack today) (cacheKeyOf daysBack today));
        [reflexivity | congruence]. }
  destruct G as [G Miss].
  assert (S2 : second = {| settled := Fulfilled out; cacheAfter := cacheAfter first;
                           unread := responses'; events := [] |}).
  { subst second.
    assert (Hh : JsMap.has (cacheKeyOf daysBack today) (cacheAfter first) = true)
      by (apply has_true; eauto).
    rewrite (getHotStocks_hit _ _ _ _ _ Hh). unfold readCache. now rewrite G. }
  rewrite S2. cbn [settled cacheAfter unread events requests].
  repeat split; try assumption.
  apply reachable_single_slot.
Qed.

Lemma getHotStocks_second_call_is_cached_witness :
  let first := getHotStocks 0 20394 20394 [] [Reply onlyPage] in
  let second := getHotStocks 0 20394 20395 (cacheAfter first) [Failure] in
  settled second
  = Fulfilled [("2025-10-31"%string,
                [{| Hot.secId := CStr "AAA"; Hot.ratio := tenths 10;
                    Hot.turnover := S754_zero false |}])]
  /\ events second = []
  /\ requests (events second) = []
  /\ unread second = [Failure]
  /\ cacheAfter second = cacheAfter first
  /\ (JsMap.has (cacheKeyOf 0 20394) ([] : Cache) = false ->
      cacheAfter first
      = [(cacheKeyOf 0 20394,
          [("2025-10-31"%string,
            [{| Hot.secId := CStr "AAA"; Hot.ratio := tenths 10;
                Hot.turnover := S754_zero false |}])])])
  /\ (forall c, reachable c -> (List.length c <= 1)%nat).
Proof.
  apply (getHotStocks_second_call_is_cached 0 20394 20394 20395 []
           [Reply onlyPage] [Failure]).
  vm_compute. reflexivity.
Defined.

(** A page without CLOSE: the call is rejected and the cache stays as it
    was. *)
Example getHotStocks_missing_close :
  getHotStocks 0 20394 20394 [] [Reply noClosePage; Reply onlyPage]
  = {| settled := Rejected; cacheAfter := [];
       unread := [Reply onlyPage];
       events := [Fetch "2025-10-31" 0; Alert CannotFindAllIndexes] |}.
Proof. vm_compute. reflexivity. Qed.

(** The older copy asks the network again on every call. *)
Example thresholded_call_fetches_again :
  Thresholded.getHotStocks 0 (tenths 15) 20394 [Reply onlyPage]
  = Returned (Some []) [] [Fetch "2025-10-31" 0]
  /\ Thresholded.getHotStocks 0 (tenths 15) 20394 []
     = Awaiting [Fetch "2025-10-31" 0].
Proof. split; vm_compute; reflexivity. Qed.

(* ===================================================================== *)
(** * What [loadData] returns is a map of maps *)
(* ===================================================================== *)

Lemma mergeRows_isMap idxName idxVol idxClose rows : forall imoexDay,
  isMap imoexDay ->
  match mergeRows idxName idxVol idxClose rows imoexDay with
  | Merged imoexDay' | MergeThrew imoexDay' => isMap imoexDay'
  end.
Proof.
  induction rows as [|row rest IH]; intros imoexDay D; simpl; [exact D|].
  destruct (BigInt (nth idxVol row CUndefined)); [|exact D].
  apply IH. now apply set_isMap.
Qed.

Lemma pageLoop_isMap responses : forall date page imoexDay trace imoexDay' rest trace',
  isMap imoexDay ->
  pageLoop responses date page imoexDay trace = DayDone imoexDay' rest trace' ->
  isMap imoexDay'.
Proof.
  induction responses as [|r more IH];
    intros date page imoexDay trace imoexDay' rest trace' D.
  - destruct page as [start|]; simpl; [|now intros [= <- _ _]].
    destruct (start <? 0); [now intros [= <- _ _] | discriminate].
  - destruct page as [start|]; simpl; [|now intros [= <- _ _]].
    destruct (start <? 0); [now intros [= <- _ _]|].
    destruct r as [|a]; [now apply IH|].
    destruct (indexOf "SECID" _) as [idxName|]; [|discriminate].
    destruct (indexOf "VOLUME" _) as [idxVol|]; [|discriminate].
    destruct (indexOf "TRADEDATE" _) as [idxDate|]; [|discriminate].
    destruct (indexOf "CLOSE" _) as [idxClose|]; [|discriminate].
    pose proof (mergeRows_isMap idxName idxVol idxClose (data (history a)) imoexDay D)
      as M.
    destruct (mergeRows idxName idxVol idxClose (data (history a)) imoexDay)
      as [day1|day1]; [|now apply IH].
    destruct (indexOf "INDEX" _); [|discriminate].
    destruct (indexOf "TOTAL" _); [|discriminate].
    destruct (indexOf "PAGESIZE" _); [|discriminate].
    destruct (data (history_cursor a)); now apply IH.
Qed.

Lemma datesLoop_isDataset dates : forall responses imoexData trace ds rest trace',
  isDataset imoexData ->
  datesLoop dates responses imoexData trace = Returned (Some ds) rest trace' ->
  isDataset ds.
Proof.
  induction dates as [|date more IH];
    intros responses imoexData trace ds rest trace' D; simpl.
  - now intros [= <- _ _].
  - destruct (pageLoop responses date (Some 0) [] trace)
      as [imoexDay rest1 trace1| |] eqn:P; try discriminate.
    apply IH. destruct D as [Dm Dd]. split.
    + now apply set_isMap.
    + apply (set_values (fun day : DaySnapshot => isMap day)).
      * eapply pageLoop_isMap; [|exact P]. constructor.
      * rewrite Forall_forall in Dd |- *. intros [d x] I. exact (Dd _ I).
Qed.

(** The dataset [loadData] returns has each date once and, under a date,
    each security once. *)
Lemma loadData_isDataset daysBack now responses ds rest trace :
  loadData daysBack now responses = Returned (Some ds) rest trace ->
  isDataset ds.
Proof.
  unfold loadData. apply datesLoop_isDataset.
  split; [constructor | constructor].
Qed.

(* ===================================================================== *)
(** * More on business days *)
(* ===================================================================== *)

(** X1. From a start far enough above the first day a Date can hold
    (three days for each date to yield are enough), on a host where
    [setDate] lands on the day before, the generator yields, latest first, the
    [daysBack + 1] latest business days before the start day: each date
    is the latest day before the previous one (before the start day for
    the first) that is neither a Saturday nor a Sunday, so that no working
    day in between is left out. With a negative [daysBack] it yields
    nothing, wherever it starts. *)
Theorem workDaysGenerator_latest_business_days :
  (forall daysBack startDate,
      0 <= daysBack ->
      firstDay + 3 * (daysBack + 1) < startDate <= lastDay ->
      workDaysGenerator daysBack startDate
      = map formatDate (businessDaysBefore (Z.to_nat (daysBack + 1)) startDate)
      /\ Forall (fun d => getDay d = Some (WeekDay d))
           (businessDaysBefore (Z.to_nat (daysBack + 1)) startDate))
  /\ (forall daysBack startDate, daysBack < 0 ->
        workDaysGenerator daysBack startDate = [])
  /\ (forall d,
        previousBusinessDay d < d
        /\ WeekDay (previousBusinessDay d) <> 0
        /\ WeekDay (previousBusinessDay d) <> 6
        /\ forall x, previousBusinessDay d < x < d -> WeekDay x = 0 \/ WeekDay x = 6).
Proof.
  split; [|split].
  - intros daysBack startDate Hd [Hlo Hhi]. split.
    + apply workDaysLoop_closed; lia.
    + eapply Forall_impl; [|apply businessDaysBefore_range]. cbv beta.
      intros x Hx. apply getDay_valid. unfold Date in *. lia.
  - intros daysBack startDate Hn. unfold workDaysGenerator.
    rewrite workDaysLoop_step. destruct (Z.leb_spec 0 daysBack); [lia | reflexivity].
  - intros d. destruct (previousBusinessDay_latest d) as (B & N0 & N6 & G).
    repeat split; try assumption; lia.
Qed.

Lemma workDaysGenerator_latest_business_days_witness :
  (workDaysGenerator 2 20394
   = map formatDate (businessDaysBefore (Z.to_nat (2 + 1)) 20394)
   /\ Forall (fun d => getDay d = Some (WeekDay d))
        (businessDaysBefore (Z.to_nat (2 + 1)) 20394))
  /\ workDaysGenerator (-1) 20394 = []
  /\ (WeekDay 20393 = 0 \/ WeekDay 20393 = 6).
Proof.
  assert (A : 0 <= 2) by lia.
  assert (B : firstDay + 3 * (2 + 1) < 20394 <= lastDay)
    by (unfold firstDay, lastDay; lia).
  assert (C : -1 < 0) by lia.
  assert (D : previousBusinessDay 20394 < 20393 < 20394)
    by (vm_compute; split; reflexivity).
  exact (conj (proj1 workDaysGenerator_latest_business_days 2 20394 A B)
           (conj (proj1 (proj2 workDaysGenerator_latest_business_days) (-1) 20394 C)
              (proj2 (proj2 (proj2 (proj2 (proj2 workDaysGenerator_latest_business_days)
                                             20394)))
                 20393 D))).
Defined.

(** X2. A call made on a Saturday, on the Sunday after it or on the
    Monday after that walks the same window: whenever the start day is a
    Saturday or a Sunday, starting one day later yields the same dates. *)
Theorem workDaysGenerator_same_after_weekend (daysBack : Z) (d : Date) :
  getDay d = Some 6 \/ getDay d = Some 0 ->
  workDaysGenerator daysBack (d + 1) = workDaysGenerator daysBack d.
Proof.
  intros Hw. unfold workDaysGenerator.
  assert (V : firstDay <= d)
    by (destruct Hw as [Hw|Hw]; apply getDay_Some in Hw; apply Hw).
  rewrite (workDaysLoop_step daysBack (d + 1) 0).
  rewrite (setDate_yesterday (d + 1)) by (unfold Date in *; lia).
  replace (d + 1 - 1) with d by (unfold Date in *; lia).
  assert (E : isWeekend (getDay d) = true).
  { unfold isWeekend. destruct Hw as [-> | ->]; reflexivity. }
  rewrite E. destruct (Z.leb_spec 0 daysBack); [reflexivity|].
  rewrite workDaysLoop_step. destruct (Z.leb_spec 0 daysBack); [lia | reflexivity].
Qed.

Lemma workDaysGenerator_same_after_weekend_witness :
  workDaysGenerator 2 (20394 + 1) = workDaysGenerator 2 20394.
Proof.
  apply (workDaysGenerator_same_after_weekend 2 20394).
  right. reflexivity.
Defined.

(** X3. From a start far enough above the first day a Date can hold
    (three days for each date to yield are enough), on a host where
    [setDate] lands on the day before, windows nest: the dates of a window of
    [daysBack + 1] are those of the window of [daysBack], in the same
    order, followed by one more, earlier, business day. *)
Theorem workDaysGenerator_extends (daysBack : Z) (startDate : Date) :
  0 <= daysBack ->
  firstDay + 3 * (daysBack + 2) < startDate <= lastDay ->
  exists last w,
    workDaysGenerator (daysBack + 1) startDate
    = workDaysGenerator daysBack startDate ++ [formatDate last]
    /\ last < startDate /\ getDay last = Some w /\ w <> 0 /\ w <> 6.
Proof.
  intros Hd [Hlo Hhi]. unfold workDaysGenerator.
  rewrite (workDaysLoop_closed (daysBack + 1) (S (Z.to_nat (daysBack + 1)))) by lia.
  rewrite (workDaysLoop_closed daysBack (Z.to_nat (daysBack + 1))) by lia.
  destruct (businessDaysBefore_snoc (Z.to_nat (daysBack + 1)) startDate)
    as (last & E & L & N0 & N6).
  exists last, (WeekDay last). rewrite E, map_app.
  split; [reflexivity|]. split; [lia|]. split; [|auto].
  apply getDay_valid. lia.
Qed.

Lemma workDaysGenerator_extends_witness :
  exists last w,
    workDaysGenerator (1 + 1) 20394
    = workDaysGenerator 1 20394 ++ [formatDate last]
    /\ last < 20394 /\ getDay last = Some w /\ w <> 0 /\ w <> 6.
Proof.
  apply (workDaysGenerator_extends 1 20394); unfold firstDay, lastDay; lia.
Defined.

(** X24. Started from an invalid Date the generator still yields
    [daysBack + 1] strings, and each of them is [NaN-NaN-NaN]: the Date
    stays invalid, its day of the week is NaN, which is no Saturday and
    no Sunday, and its fields are written as they read. *)
Theorem workDaysGenerator_invalid_start (daysBack : Z) (startDate : Date) :
  isValid startDate = false ->
  workDaysGenerator daysBack startDate
  = repeat "NaN-NaN-NaN"%string (Z.to_nat (daysBack + 1))
  /\ getDay startDate = None
  /\ setDate startDate (plus (getDate startDate) (-1)) = invalidDate
  /\ isValid invalidDate = false.
Proof.
  intros V.
  assert (L : startDate < firstDay) by (unfold isValid in V; lia).
  split; [|split; [|split]].
  - apply workDaysLoop_invalid; lia.
  - unfold getDay. now rewrite V.
  - apply setDate_first. lia.
  - reflexivity.
Qed.

Lemma workDaysGenerator_invalid_start_witness :
  workDaysGenerator 2 invalidDate
  = repeat "NaN-NaN-NaN"%string (Z.to_nat (2 + 1))
  /\ getDay invalidDate = None
  /\ setDate invalidDate (plus (getDate invalidDate) (-1)) = invalidDate
  /\ isValid invalidDate = false.
Proof. apply (workDaysGenerator_invalid_start 2 invalidDate). reflexivity. Defined.

(* ===================================================================== *)
(** * More on averages and reports *)
(* ===================================================================== *)

Lemma sumDay_isMap dayData : forall av av',
  isMap av -> sumDay dayData av = Some av' -> isMap av'.
Proof.
  induction dayData as [|[k r] rest IH]; intros av av' D; simpl.
  - now intros [= <-].
  - rewrite addVolume_eq. apply IH. now apply set_isMap.
Qed.

Lemma visited_In k r (imoexData : WindowDataset) :
  In (k, r) (visited imoexData) <->
  exists date dayData, In (date, dayData) imoexData /\ In (k, r) dayData.
Proof.
  split.
  - unfold visited. intros I. apply in_concat in I as (dayData & Id & Ik).
    apply in_map_iff in Id as ([date x] & E & Id). simpl in E. subst x.
    eauto.
  - intros (date & dayData & I & Ik). eapply In_visited; eassumption.
Qed.

Lemma keys_averages (sums : list (Cell * Tally)) :
  JsMap.keys (map (fun e => (fst e, averageOf (snd e))) sums) = JsMap.keys sums.
Proof.
  unfold JsMap.keys. rewrite map_map. reflexivity.
Qed.

(** X4. The map of averages has each security once, and it has an entry
    for a security exactly when the security appears on some day of the
    window. *)
Theorem computeAverageVolume_entries (imoexData : WindowDataset) :
  exists averageVolume,
    computeAverageVolume imoexData = Some averageVolume
    /\ isMap averageVolume
    /\ forall secId,
         JsMap.has secId averageVolume = true
         <-> exists date dayData stockData,
               In (date, dayData) imoexData /\ In (secId, stockData) dayData.
Proof.
  destruct (computeAverageVolume_total imoexData) as (sums & Es & _ & E & G & T).
  eexists. split; [exact E|]. split.
  - unfold isMap. rewrite keys_averages.
    rewrite sumWindow_visited in Es.
    apply (sumDay_isMap (visited imoexData) [] sums); [constructor | exact Es].
  - intros secId. rewrite has_true, G, T.
    pose proof (occCount_nonneg secId (visited imoexData)) as P.
    pose proof (occCount_In secId (visited imoexData)) as I.
    destruct (Z.eqb_spec (occCount secId (visited imoexData)) 0) as [E0|N0]; split.
    + intros [v Hv]. discriminate.
    + intros (date & dayData & r & Hd & Hk).
      assert (1 <= occCount secId (visited imoexData))
        by (apply I; exists r; eapply In_visited; eassumption).
      lia.
    + intros _. destruct (proj1 I ltac:(lia)) as [r Hr].
      apply visited_In in Hr as (date & dayData & Hd & Hk). eauto.
    + intros _. simpl. eauto.
Qed.

Lemma occVolume_nonneg k (entries : DaySnapshot) :
  Forall (fun e => 0 <= volume (snd e)) entries -> 0 <= occVolume k entries.
Proof.
  induction entries as [|[k' r] rest IH]; simpl; intros F; [lia|].
  inversion F as [|? ? Hr F']; subst. simpl in Hr. specialize (IH F').
  destruct (eq_dec k k'); lia.
Qed.

(** X5. The average of an entry is the mean of its volumes cut towards
    zero: it differs from the exact mean by less than one, that is
    [average * count] differs from [totalVolume] by less than [count];
    when no volume of the window is negative, the average is not negative
    and [average * count <= totalVolume]. *)
Theorem computeAverageVolume_truncates (imoexData : WindowDataset)
    (averageVolume : AverageVolume) (secId : Cell) (e : AverageEntry) :
  computeAverageVolume imoexData = Some averageVolume ->
  JsMap.get secId averageVolume = Some e ->
  Z.abs (totalVolume e - average e * count e) < count e
  /\ (Forall (fun r => 0 <= volume (snd r)) (visited imoexData) ->
      0 <= average e /\ average e * count e <= totalVolume e).
Proof.
  intros E G.
  destruct (computeAverageVolume_total imoexData) as (sums & _ & C & E' & G' & T).
  rewrite E in E'. inversion E'; subst averageVolume. clear E'.
  rewrite G', T in G.
  pose proof (occCount_nonneg secId (visited imoexData)) as P.
  destruct (Z.eqb_spec (occCount secId (visited imoexData)) 0) as [|N];
    [discriminate|].
  simpl in G. inversion G; subst e. clear G. unfold averageOf. simpl.
  set (t := occVolume secId (visited imoexData)) in *.
  set (c := occCount secId (visited imoexData)) in *.
  assert (Hc : 0 < c) by lia.
  pose proof (Z.quot_rem t c ltac:(lia)) as QR.
  pose proof (Z.rem_bound_abs t c ltac:(lia)) as RB.
  split.
  - replace (t - Z.quot t c * c) with (Z.rem t c) by lia. lia.
  - intros F. assert (Ht : 0 <= t) by (apply occVolume_nonneg, F).
    pose proof (Z.rem_bound_pos t c Ht Hc).
    pose proof (Z.quot_pos t c Ht Hc). lia.
Qed.

Lemma computeAverageVolume_truncates_witness :
  Z.abs (400 - 200 * 2) < 2
  /\ (Forall (fun r => 0 <= volume (snd r)) (visited tenDays) ->
      0 <= 200 /\ 200 * 2 <= 400).
Proof.
  refine (computeAverageVolume_truncates tenDays _ (CStr "AAA")
            {| totalVolume := 400; count := 2; average := 200 |} _ _).
  - vm_compute. reflexivity.
  - vm_compute. reflexivity.
Defined.

Lemma reportFor_absent avgs date (imoexData : WindowDataset) :
  ~ In date (JsMap.keys imoexData) -> reportFor avgs date imoexData = [].
Proof.
  unfold reportFor, JsMap.keys.
  induction imoexData as [|[d x] rest IH]; simpl; intros N; [reflexivity|].
  destruct (string_dec date d) as [->|D]; [tauto|].
  apply IH. tauto.
Qed.

Lemma reportFor_day avgs date dayData (imoexData : WindowDataset) :
  isMap imoexData -> In (date, dayData) imoexData ->
  reportFor avgs date imoexData = emittedByDay avgs dayData.
Proof.
  unfold isMap. induction imoexData as [|[d x] rest IH]; simpl; intros D I; [tauto|].
  inversion D as [|? ? Nin D']; subst.
  change (reportFor avgs date ((d, x) :: rest))
    with ((if string_dec date d then emittedByDay avgs x else [])
          ++ reportFor avgs date rest).
  destruct I as [E|I].
  - inversion E; subst. destruct (string_dec date date); [|congruence].
    rewrite (reportFor_absent avgs date rest Nin). apply app_nil_r.
  - destruct (string_dec date d) as [->|N].
    + exfalso. apply Nin. change d with (fst (d, dayData)). now apply in_map.
    + simpl. now apply IH.
Qed.

Lemma emittedByDay_secIds avgs (dayData : DaySnapshot) :
  map Hot.secId (emittedByDay avgs dayData)
  = filter (reportable avgs) (JsMap.keys dayData).
Proof.
  unfold emittedByDay, JsMap.keys.
  induction dayData as [|[k r] rest IH]; simpl; [reflexivity|].
  rewrite map_app, IH. unfold emitted, reportable.
  destruct (JsMap.get k avgs) as [a|]; [|reflexivity].
  destruct (Z.eqb_spec (average a) 0) as [E|N]; [reflexivity|].
  rewrite (divideBigInt_unfold _ _ N). reflexivity.
Qed.

(** X6. Under a date of a window that has each date once, the report
    lists the securities of that day whose average is known and not zero,
    once each, in the order of the day's map. *)
Theorem computeHotStocks_keeps_day_order (imoexData : WindowDataset)
    (averageVolume : AverageVolume) :
  isMap imoexData ->
  exists hotStocks,
    computeHotStocks imoexData averageVolume = Some hotStocks
    /\ forall date dayData,
         In (date, dayData) imoexData ->
         map Hot.secId (listAt date hotStocks)
         = filter (reportable averageVolume) (JsMap.keys dayData).
Proof.
  intros D.
  destruct (computeHotStocks_report imoexData averageVolume) as (hs & E & R).
  exists hs. split; [exact E|]. intros date dayData I.
  rewrite R, (reportFor_day _ _ _ _ D I). apply emittedByDay_secIds.
Qed.

Lemma computeHotStocks_keeps_day_order_witness :
  exists hotStocks,
    computeHotStocks twoDays
      [(CStr "AAA", {| totalVolume := 500; count := 2; average := 250 |})]
    = Some hotStocks
    /\ forall date dayData,
         In (date, dayData) twoDays ->
         map Hot.secId (listAt date hotStocks)
         = filter (reportable
                     [(CStr "AAA", {| totalVolume := 500; count := 2; average := 250 |})])
             (JsMap.keys dayData).
Proof.
  apply (computeHotStocks_keeps_day_order twoDays).
  unfold isMap. simpl.
  repeat (constructor; [simpl; intuition discriminate|]). constructor.
Defined.

Lemma hotStep_cases avgs date hs k r :
  hotStep avgs date hs k r = Some hs
  \/ exists e, hotStep avgs date hs k r
               = Some (JsMap.set date (listAt date hs ++ [e]) hs).
Proof.
  unfold hotStep.
  destruct (JsMap.has k avgs) eqn:Hh; simpl; [|now left].
  apply has_true in Hh as [a Ha]. rewrite Ha.
  destruct (Z.eqb_spec (average a) 0) as [E|N]; [now left|].
  rewrite (divideBigInt_unfold _ _ N), pushEntry_eq. right. eauto.
Qed.

Lemma hotStocks_invariant avgs (imoexData : WindowDataset) : forall hs hs',
  isMap hs -> Forall (fun e => snd e <> []) hs ->
  hotWindow avgs imoexData hs = Some hs' ->
  isMap hs' /\ Forall (fun e : string * list Hot.Entry => snd e <> []) hs'.
Proof.
  assert (Day : forall date dayData hs hs',
             isMap hs -> Forall (fun e => snd e <> []) hs ->
             hotDay avgs date dayData hs = Some hs' ->
             isMap hs' /\ Forall (fun e : string * list Hot.Entry => snd e <> []) hs').
  { intros date dayData.
    induction dayData as [|[k r] rest IH]; intros hs hs' D F; simpl.
    - intros [= <-]. auto.
    - destruct (hotStep_cases avgs date hs k r) as [-> | [e ->]].
      + now apply IH.
      + apply IH.
        * now apply set_isMap.
        * apply (set_values (fun l : list Hot.Entry => l <> [])); [|exact F].
          intros C. apply app_eq_nil in C as [_ C]. discriminate. }
  induction imoexData as [|[date dayData] rest IH]; intros hs hs' D F; simpl.
  - intros [= <-]. auto.
  - destruct (hotDay avgs date dayData hs) as [hs1|] eqn:E1; [|discriminate].
    destruct (Day _ _ _ _ D F E1) as [D1 F1]. now apply IH.
Qed.

(** X7. The report has each date once and never maps a date to an empty
    list: a date is a key of the report exactly when at least one record
    of that date is reported, so a day on which every security has a zero
    average is absent from the result. *)
Theorem computeHotStocks_no_empty_date (imoexData : WindowDataset)
    (averageVolume : AverageVolume) :
  exists hotStocks,
    computeHotStocks imoexData averageVolume = Some hotStocks
    /\ isMap hotStocks
    /\ Forall (fun e => snd e <> []) hotStocks
    /\ forall date,
         JsMap.has date hotStocks = true
         <-> exists dayData secId stockData,
               In (date, dayData) imoexData
               /\ In (secId, stockData) dayData
               /\ reportable averageVolume secId = true.
Proof.
  destruct (computeHotStocks_report imoexData averageVolume) as (hs & E & R).
  destruct (hotStocks_invariant averageVolume imoexData [] hs) as [D F];
    [constructor | constructor | exact E |].
  exists hs. split; [exact E|]. split; [exact D|]. split; [exact F|].
  intros date. split.
  - intros Hh. apply has_true in Hh as [l Hl].
    assert (Hne : l <> []).
    { apply get_In in Hl. rewrite Forall_forall in F. exact (F _ Hl). }
    assert (Hr : reportFor averageVolume date imoexData = l)
      by (rewrite <- R; unfold listAt; now rewrite Hl).
    destruct l as [|e l]; [congruence|].
    assert (Hin : In e (reportFor averageVolume date imoexData))
      by (rewrite Hr; now left).
    apply In_reportFor in Hin as (dayData & k & r & I & Ik & He).
    apply In_emitted in He as (a & ratio & Ga & Na & _ & _).
    exists dayData, k, r. split; [exact I|]. split; [exact Ik|].
    unfold reportable. rewrite Ga. now destruct (Z.eqb_spec (average a) 0).
  - intros (dayData & k & r & I & Ik & Hr).
    unfold reportable in Hr.
    destruct (JsMap.get k averageVolume) as [a|] eqn:Ga; [|discriminate].
    destruct (Z.eqb_spec (average a) 0) as [|Na]; [discriminate|].
    assert (Hin : In (hotEntry k (roundOneDecimal
                                    (fdiv (Number (Z.quot (volume r * 100) (average a)))
                                          (Number 100))) r)
                    (listAt date hs)).
    { rewrite R. apply In_reportFor. exists dayData, k, r.
      split; [exact I|]. split; [exact Ik|]. apply In_emitted.
      eexists. eexists. split; [exact Ga|]. split; [exact Na|].
      split; [apply divideBigInt_unfold; exact Na | reflexivity]. }
    unfold listAt in Hin. apply has_true.
    destruct (JsMap.get date hs) as [l|]; [eauto | destruct Hin].
Qed.

Lemma daysWith_nonneg k (imoexData : WindowDataset) : 0 <= daysWith k imoexData.
Proof.
  induction imoexData as [|[d x] rest IH]; simpl; [lia|].
  destruct (JsMap.has k x); lia.
Qed.

Lemma daysWith_zero_volume k (imoexData : WindowDataset) :
  daysWith k imoexData = 0 -> windowVolume k imoexData = 0.
Proof.
  induction imoexData as [|[d x] rest IH]; simpl; [reflexivity|].
  pose proof (daysWith_nonneg k rest) as P.
  unfold volumeOn, JsMap.has. destruct (JsMap.get k x); intros E; [lia|].
  rewrite IH; lia.
Qed.

(** The volume of a security that appears on one day only is the volume
    of that day. *)
Lemma windowVolume_single k r date dayData (imoexData : WindowDataset) :
  In (date, dayData) imoexData -> JsMap.get k dayData = Some r ->
  daysWith k imoexData = 1 -> windowVolume k imoexData = volume r.
Proof.
  induction imoexData as [|[d x] rest IH]; simpl; [tauto|].
  pose proof (daysWith_nonneg k rest) as P.
  intros [E|I] G C.
  - inversion E; subst. unfold volumeOn, JsMap.has in *. rewrite G in *.
    rewrite (daysWith_zero_volume k rest); lia.
  - assert (Q : 1 <= daysWith k rest).
    { eapply daysWith_observed; [exact I|]. apply has_true. eauto. }
    unfold volumeOn, JsMap.has in *.
    destruct (JsMap.get k x); [lia|]. rewrite (IH I G); lia.
Qed.

Lemma divideBigInt_same a : a <> 0 -> divideBigInt a a = Some (Number 1).
Proof.
  intros N. rewrite (divideBigInt_unfold _ _ N).
  rewrite Z.mul_comm, Z.quot_mul by exact N.
  vm_compute. reflexivity.
Qed.

(** The averages of a window that is a map of maps, in terms of the days. *)
Lemma computeAverageVolume_by_days (imoexData : WindowDataset) :
  isDataset imoexData ->
  exists averageVolume,
    computeAverageVolume imoexData = Some averageVolume
    /\ forall k, JsMap.get k averageVolume
         = if daysWith k imoexData =? 0 then None
           else Some {| totalVolume := windowVolume k imoexData;
                        count := daysWith k imoexData;
                        average := Z.quot (windowVolume k imoexData)
                                          (daysWith k imoexData) |}.
Proof.
  intros [_ Hd].
  destruct (computeAverageVolume_total imoexData) as (sums & _ & _ & E & G & T).
  eexists. split; [exact E|]. intros k.
  destruct (visited_occ k imoexData Hd) as [Ev Ec].
  rewrite G, T, Ev, Ec.
  destruct (daysWith k imoexData =? 0); reflexivity.
Qed.

Lemma In_get_day k r (dayData : DaySnapshot) :
  isMap dayData -> In (k, r) dayData -> JsMap.get k dayData = Some r.
Proof.
  unfold isMap. induction dayData as [|[k' r'] rest IH]; simpl; [tauto|].
  intros D [E|I].
  - inversion E; subst. destruct (eq_dec k k); congruence.
  - inversion D as [|? ? Nin D']; subst.
    destruct (eq_dec k k') as [->|N].
    + exfalso. apply Nin. change k' with (fst (k', r)). now apply in_map.
    + auto.
Qed.

(** X8. A security that appears on one day only of a window that is a
    map of maps is its own average: if its volume that day is not zero it
    is reported under that day with the ratio 1, and if it is zero the
    security is not reported at all. *)
Theorem seen_once_has_ratio_one (imoexData : WindowDataset) (secId : Cell)
    (date : string) (dayData : DaySnapshot) (stockData : SecurityRecord) :
  isDataset imoexData ->
  In (date, dayData) imoexData -> In (secId, stockData) dayData ->
  daysWith secId imoexData = 1 ->
  exists averageVolume hotStocks,
    computeAverageVolume imoexData = Some averageVolume
    /\ computeHotStocks imoexData averageVolume = Some hotStocks
    /\ (volume stockData <> 0 ->
        In (hotEntry secId (Number 1) stockData) (listAt date hotStocks))
    /\ (volume stockData = 0 ->
        forall d e, In e (listAt d hotStocks) -> Hot.secId e <> secId).
Proof.
  intros D I Ik C.
  destruct (computeAverageVolume_by_days imoexData D) as (avgs & E & G).
  destruct (computeHotStocks_report imoexData avgs) as (hs & Eh & R).
  exists avgs, hs. split; [exact E|]. split; [exact Eh|].
  assert (Gk : JsMap.get secId dayData = Some stockData).
  { destruct D as [_ Dd]. rewrite Forall_forall in Dd.
    apply (In_get_day _ _ _ (Dd _ I) Ik). }
  pose proof (windowVolume_single _ _ _ _ _ I Gk C) as V.
  specialize (G secId). rewrite C, V in G. simpl in G.
  rewrite Z.quot_1_r in G.
  split.
  - intros N. rewrite R. apply In_reportFor. exists dayData, secId, stockData.
    split; [exact I|]. split; [exact Ik|]. apply In_emitted.
    eexists. eexists. split; [exact G|]. simpl. split; [exact N|].
    split; [apply divideBigInt_same; exact N | reflexivity].
  - intros Z0 d e Hin Heq. rewrite R in Hin.
    apply In_reportFor in Hin as (dayData' & k & r & _ & _ & He).
    apply In_emitted in He as (a & ratio & Ga & Na & _ & ->).
    simpl in Heq. subst k. rewrite G in Ga. inversion Ga; subst a.
    simpl in Na. congruence.
Qed.

(** X9. Because the average is cut to an integer, a security whose
    volumes over the window sum to less than the number of days it appears
    on has the average 0 and is never reported, not even on the days when
    it traded. *)
Theorem thin_security_never_reported (imoexData : WindowDataset) (secId : Cell) :
  isDataset imoexData ->
  0 <= windowVolume secId imoexData < daysWith secId imoexData ->
  exists averageVolume hotStocks,
    computeAverageVolume imoexData = Some averageVolume
    /\ computeHotStocks imoexData averageVolume = Some hotStocks
    /\ option_map average (JsMap.get secId averageVolume) = Some 0
    /\ forall date e, In e (listAt date hotStocks) -> Hot.secId e <> secId.
Proof.
  intros D B.
  destruct (computeAverageVolume_by_days imoexData D) as (avgs & E & G).
  destruct (computeHotStocks_report imoexData avgs) as (hs & Eh & R).
  exists avgs, hs. split; [exact E|]. split; [exact Eh|].
  specialize (G secId).
  destruct (Z.eqb_spec (daysWith secId imoexData) 0); [lia|].
  rewrite Z.quot_small in G by exact B. split.
  - rewrite G. reflexivity.
  - intros date e Hin Heq. rewrite R in Hin.
    apply In_reportFor in Hin as (dayData' & k & r & _ & _ & He).
    apply In_emitted in He as (a & ratio & Ga & Na & _ & ->).
    simpl in Heq. subst k. rewrite G in Ga. inversion Ga; subst a.
    simpl in Na. congruence.
Qed.

Lemma seen_once_has_ratio_one_witness :
  exists averageVolume hotStocks,
    computeAverageVolume thinDays = Some averageVolume
    /\ computeHotStocks thinDays averageVolume = Some hotStocks
    /\ (7 <> 0 ->
        In (hotEntry (CStr "BBB") (Number 1) {| volume := 7; turnover := Number 0 |})
           (listAt "2025-10-31" hotStocks))
    /\ (7 = 0 ->
        forall d e, In e (listAt d hotStocks) -> Hot.secId e <> CStr "BBB").
Proof.
  apply (seen_once_has_ratio_one thinDays (CStr "BBB") "2025-10-31"%string
           [sec "AAA" 1 0; sec "BBB" 7 0] {| volume := 7; turnover := Number 0 |}).
  - map_of_maps.
  - simpl. tauto.
  - simpl. tauto.
  - reflexivity.
Defined.

Lemma thin_security_never_reported_witness :
  exists averageVolume hotStocks,
    computeAverageVolume thinDays = Some averageVolume
    /\ computeHotStocks thinDays averageVolume = Some hotStocks
    /\ option_map average (JsMap.get (CStr "AAA") averageVolume) = Some 0
    /\ forall date e, In e (listAt date hotStocks) -> Hot.secId e <> CStr "AAA".
Proof.
  apply (thin_security_never_reported thinDays (CStr "AAA")).
  - map_of_maps.
  - vm_compute. split; [discriminate | reflexivity].
Defined.

(* ===================================================================== *)
(** * The copy with a threshold *)
(* ===================================================================== *)

Lemma Thresholded_hotStep_spec threshold avgs date hs k r :
  exists hs', Thresholded.hotStep threshold avgs date hs k r = Some hs'
    /\ forall d, listAt d hs'
                 = listAt d hs
                   ++ if string_dec d date
                      then filter (reachesThreshold threshold) (emitted avgs k r)
                      else [].
Proof.
  unfold Thresholded.hotStep, emitted.
  destruct (JsMap.has k avgs) eqn:Hh; simpl.
  - apply has_true in Hh as [a Ha]. rewrite Ha.
    destruct (Z.eqb_spec (average a) 0) as [E|N].
    + exists hs. split; [reflexivity|]. intros d.
      destruct (string_dec d date); now rewrite app_nil_r.
    + rewrite (divideBigInt_unfold _ _ N). simpl. unfold reachesThreshold at 1.
      simpl.
      destruct (SFleb threshold _).
      * rewrite pushEntry_eq. eexists. split; [reflexivity|].
        intros d. rewrite listAt_set.
        destruct (string_dec d date) as [->|D];
          [reflexivity | now rewrite app_nil_r].
      * exists hs. split; [reflexivity|]. intros d.
        destruct (string_dec d date); now rewrite app_nil_r.
  - apply has_false in Hh. rewrite Hh.
    exists hs. split; [reflexivity|]. intros d.
    destruct (string_dec d date); now rewrite app_nil_r.
Qed.

Lemma Thresholded_hotDay_spec threshold avgs date dayData : forall hs,
  exists hs', Thresholded.hotDay threshold avgs date dayData hs = Some hs'
    /\ forall d, listAt d hs'
                 = listAt d hs
                   ++ if string_dec d date
                      then filter (reachesThreshold threshold)
                             (emittedByDay avgs dayData)
                      else [].
Proof.
  induction dayData as [|[k r] rest IH]; intros hs; simpl.
  - exists hs. split; [reflexivity|]. intros d.
    destruct (string_dec d date); now rewrite app_nil_r.
  - destruct (Thresholded_hotStep_spec threshold avgs date hs k r)
      as (hs1 & E1 & G1).
    rewrite E1. destruct (IH hs1) as (hs' & E & G). exists hs'.
    split; [exact E|]. intros d. rewrite G, G1, <- app_assoc.
    unfold emittedByDay. simpl. rewrite filter_app.
    destruct (string_dec d date); reflexivity.
Qed.

Lemma Thresholded_hotWindow_spec threshold avgs imoexData : forall hs,
  exists hs', Thresholded.hotWindow threshold avgs imoexData hs = Some hs'
    /\ forall d, listAt d hs'
                 = listAt d hs
                   ++ filter (reachesThreshold threshold) (reportFor avgs d imoexData).
Proof.
  induction imoexData as [|[date dayData] rest IH]; intros hs; simpl.
  - exists hs. split; [reflexivity|]. intros d. now rewrite app_nil_r.
  - destruct (Thresholded_hotDay_spec threshold avgs date dayData hs)
      as (hs1 & E1 & G1).
    rewrite E1. destruct (IH hs1) as (hs' & E & G). exists hs'.
    split; [exact E|]. intros d. rewrite G, G1, <- app_assoc.
    change (reportFor avgs d ((date, dayData) :: rest))
      with ((if string_dec d date then emittedByDay avgs dayData else [])
            ++ reportFor avgs d rest).
    rewrite filter_app. destruct (string_dec d date); reflexivity.
Qed.

(** X10. The older copy reports, under each date and in the same order,
    exactly those entries of the current report whose ratio is at least
    the threshold; with a threshold that is not a number (a call without
    one) it reports nothing. *)
Theorem Thresholded_report_is_filtered (imoexData : WindowDataset)
    (averageVolume : AverageVolume) (threshold : double) :
  exists hotStocks filtered,
    computeHotStocks imoexData averageVolume = Some hotStocks
    /\ Thresholded.computeHotStocks imoexData averageVolume threshold = Some filtered
    /\ (forall date,
          listAt date filtered
          = filter (reachesThreshold threshold) (listAt date hotStocks))
    /\ (threshold = NaN -> forall date, listAt date filtered = []).
Proof.
  destruct (computeHotStocks_report imoexData averageVolume) as (hs & E & R).
  destruct (Thresholded_hotWindow_spec threshold averageVolume imoexData [])
    as (hs' & E' & R').
  exists hs, hs'. split; [exact E|]. split; [exact E'|].
  assert (F : forall date,
             listAt date hs' = filter (reachesThreshold threshold) (listAt date hs)).
  { intros date. rewrite R', R. reflexivity. }
  split; [exact F|].
  intros -> date. rewrite F.
  induction (listAt date hs) as [|e l IH]; [reflexivity | exact IH].
Qed.

Lemma Thresholded_report_is_filtered_witness :
  exists hotStocks filtered,
    computeHotStocks twoDays
      [(CStr "AAA", {| totalVolume := 500; count := 2; average := 250 |})]
    = Some hotStocks
    /\ Thresholded.computeHotStocks twoDays
         [(CStr "AAA", {| totalVolume := 500; count := 2; average := 250 |})] NaN
       = Some filtered
    /\ (forall date,
          listAt date filtered = filter (reachesThreshold NaN) (listAt date hotStocks))
    /\ (forall date, listAt date filtered = []).
Proof.
  destruct (Thresholded_report_is_filtered twoDays
              [(CStr "AAA", {| totalVolume := 500; count := 2; average := 250 |})] NaN)
    as (hs & hs' & E & E' & F & N).
  exists hs, hs'. exact (conj E (conj E' (conj F (N eq_refl)))).
Defined.

(* ===================================================================== *)
(** * More on loading *)
(* ===================================================================== *)

Lemma pagedDay_shape start pages imoexDay imoexDay' offsets :
  0 <= start ->
  pagedDay start pages imoexDay imoexDay' offsets ->
  forall rest date trace,
    pageLoop (map Reply pages ++ rest) date (Some start) imoexDay trace
    = DayDone imoexDay' rest (trace ++ map (Fetch date) offsets).
Proof.
  intros Hs P. revert Hs.
  induction P as [start a day day' i t s R C
                 |start a pages day day1 day' offsets i t s R Hp C P IH];
    intros Hs rest date trace.
  - simpl map. simpl app.
    rewrite (pageLoop_reads a rest date start day day' trace i t s Hs R).
    destruct (Z.leb_spec t (i + s)); [|lia].
    now rewrite pageLoop_stopped.
  - simpl map. rewrite <- app_comm_cons.
    rewrite (pageLoop_reads a _ date start day day1 trace i t s Hs R).
    destruct (Z.leb_spec t (i + s)); [lia|].
    rewrite (IH ltac:(lia) rest date (trace ++ [Fetch date start])).
    now rewrite <- app_assoc.
Qed.

Lemma pagedDay_length start pages imoexDay imoexDay' offsets :
  pagedDay start pages imoexDay imoexDay' offsets ->
  List.length offsets = List.length pages.
Proof. induction 1; simpl; [reflexivity | now f_equal]. Qed.

(** X11. When the answers to the requests of a date are the pages of a
    well-paged day, the loop reads exactly these pages, one request each,
    asks for them at the offsets the cursors lead to, merges all their
    rows and leaves the answers that follow unread. *)
Theorem pageLoop_reads_paged_day (start : Z) (pages : list Page)
    (imoexDay imoexDay' : DaySnapshot) (offsets : list Z) :
  0 <= start ->
  pagedDay start pages imoexDay imoexDay' offsets ->
  forall rest date trace,
    pageLoop (map Reply pages ++ rest) date (Some start) imoexDay trace
    = DayDone imoexDay' rest (trace ++ map (Fetch date) offsets)
    /\ List.length offsets = List.length pages.
Proof.
  intros Hs P rest date trace. split.
  - now apply pagedDay_shape.
  - eapply pagedDay_length; exact P.
Qed.

Lemma page_reads_as_laid_out rows index total pagesize imoexDay imoexDay' :
  mergeRows 1 2 3 rows imoexDay = Merged imoexDay' ->
  pageReads (page rows index total pagesize) imoexDay imoexDay' index total pagesize.
Proof.
  intros M. exists 1%nat, 2%nat, 0%nat, 3%nat, 0%nat, 1%nat, 2%nat.
  exists [index; total; pagesize], [].
  split; [reflexivity|]. split; [reflexivity|]. split; [reflexivity|].
  split; [reflexivity|]. split; [exact M|].
  split; [reflexivity|]. split; [reflexivity|]. split; [reflexivity|].
  split; [reflexivity|]. split; [reflexivity|]. split; reflexivity.
Qed.

Lemma pageLoop_reads_paged_day_witness :
  pageLoop (map Reply [page1; page2; page3] ++ [Failure]) "2025-10-31" (Some 0) [] []
  = DayDone
      [ (CStr "AAA", {| volume := 10; turnover := Number 20 |});
        (CStr "BBB", {| volume := 20; turnover := Number 60 |});
        (CStr "CCC", {| volume := 30; turnover := Number 120 |});
        (CStr "DDD", {| volume := 40; turnover := Number 200 |});
        (CStr "EEE", {| volume := 50; turnover := Number 300 |}) ]
      [Failure] ([] ++ map (Fetch "2025-10-31") [0; 0 + 2; 0 + 2 + 2])
  /\ List.length [0; 0 + 2; 0 + 2 + 2] = List.length [page1; page2; page3].
Proof.
  apply (pageLoop_reads_paged_day 0 [page1; page2; page3] []); [lia|].
  eapply paged_more with (pageIndex := 0) (pageTotal := 5) (pageSize := 2);
    [apply page_reads_as_laid_out; vm_compute; reflexivity | lia | lia |].
  eapply paged_more with (pageIndex := 2) (pageTotal := 5) (pageSize := 2);
    [apply page_reads_as_laid_out; vm_compute; reflexivity | lia | lia |].
  eapply paged_last with (pageIndex := 4) (pageTotal := 5) (pageSize := 2);
    [apply page_reads_as_laid_out; vm_compute; reflexivity | lia].
Defined.

Lemma pageLoop_requests dates responses : forall date page imoexDay trace,
  In date dates ->
  Forall (requestWithin dates) trace ->
  Forall (requestWithin dates) (dayTrace (pageLoop responses date page imoexDay trace)).
Proof.
  induction responses as [|r rest IH]; intros date page imoexDay trace Hd F.
  - destruct page as [start|]; simpl; [|exact F].
    destruct (Z.ltb_spec start 0); simpl; [exact F|].
    apply Forall_app. split; [exact F|]. constructor; [|constructor].
    simpl. split; [exact Hd | lia].
  - destruct page as [start|]; simpl; [|exact F].
    destruct (Z.ltb_spec start 0) as [|Hs]; simpl; [exact F|].
    assert (F1 : forall notices,
               Forall (requestWithin dates)
                 (trace ++ Fetch date start :: map Alert notices)).
    { intros notices. apply Forall_app. split; [exact F|].
      constructor; [simpl; split; [exact Hd | lia]|].
      induction notices; simpl; constructor; simpl; auto. }
    pose proof (F1 []) as F0. pose proof (F1 [DataError]) as Fd.
    pose proof (F1 [CannotFindAllIndexes]) as Fc.
    pose proof (F1 [CannotFindAllIndexesForPage]) as Fp.
    simpl in F0, Fd, Fc, Fp.
    destruct r as [|a]; [now apply IH|].
    repeat match goal with
           | |- context [match ?x with _ => _ end] =>
               lazymatch x with
               | pageLoop _ _ _ _ _ => fail
               | _ => destruct x
               end
           end;
      simpl; try assumption; now apply IH.
Qed.

Lemma datesLoop_requests all dates : forall responses imoexData trace,
  incl dates all ->
  Forall (requestWithin all) trace ->
  Forall (requestWithin all) (outcomeTrace (datesLoop dates responses imoexData trace)).
Proof.
  induction dates as [|date more IH]; intros responses imoexData trace Hi F;
    simpl; [exact F|].
  assert (Hd : In date all) by (apply Hi; now left).
  pose proof (pageLoop_requests all responses date (Some 0) [] trace Hd F) as P.
  destruct (pageLoop responses date (Some 0) [] trace)
    as [imoexDay rest trace'|rest trace'|trace']; simpl in *; try exact P.
  apply IH; [|exact P]. intros d I. apply Hi. now right.
Qed.

(** X12. However a load goes, every request it makes is for a date of
    its window of business days and for an offset that is not negative. *)
Theorem loadData_requests_stay_in_window (daysBack : Z) (now : Date)
    (responses : list Response) :
  Forall (requestWithin (workDaysGenerator daysBack now))
    (outcomeTrace (loadData daysBack now responses)).
Proof.
  unfold loadData. apply datesLoop_requests; [apply incl_refl | constructor].
Qed.

Lemma datesLoop_keys dates : forall responses imoexData trace ds rest trace',
  datesLoop dates responses imoexData trace = Returned (Some ds) rest trace' ->
  forall d, In d (JsMap.keys ds) <-> In d (JsMap.keys imoexData) \/ In d dates.
Proof.
  induction dates as [|date more IH];
    intros responses imoexData trace ds rest trace'; simpl.
  - intros [= <- _ _] d. tauto.
  - destruct (pageLoop responses date (Some 0) [] trace)
      as [imoexDay rest1 trace1| |]; try discriminate.
    intros E d. rewrite (IH _ _ _ _ _ _ E d), keys_set.
    intuition congruence.
Qed.

(** X13. The dataset a load returns is a map of maps whose dates are
    exactly the dates of the window: none is missing and nothing else is
    there. *)
Theorem loadData_covers_window (daysBack : Z) (now : Date)
    (responses rest : list Response) (ds : WindowDataset) (trace : list Event) :
  loadData daysBack now responses = Returned (Some ds) rest trace ->
  isDataset ds
  /\ forall d, In d (JsMap.keys ds) <-> In d (workDaysGenerator daysBack now).
Proof.
  intros E. split; [eapply loadData_isDataset; exact E|].
  intros d. unfold loadData in E.
  rewrite (datesLoop_keys _ _ _ _ _ _ _ E d). simpl. tauto.
Qed.

Lemma loadData_covers_window_witness :
  isDataset [("2025-10-31"%string,
              [(CStr "AAA", {| volume := 10; turnover := Number 20 |})])]
  /\ forall d,
       In d (JsMap.keys [("2025-10-31"%string,
                          [(CStr "AAA", {| volume := 10; turnover := Number 20 |})])])
       <-> In d (workDaysGenerator 0 20394).
Proof.
  apply (loadData_covers_window 0 20394 [Failure; Reply onlyPage] [] _
           [Fetch "2025-10-31" 0; Alert DataError; Fetch "2025-10-31" 0]).
  vm_compute. reflexivity.
Defined.

Lemma keys_set_new (k : Cell) (v : SecurityRecord) (m : DaySnapshot) :
  JsMap.keys (JsMap.set k v m)
  = JsMap.keys m ++ (if in_dec eq_dec k (JsMap.keys m) then [] else [k]).
Proof.
  unfold JsMap.keys. induction m as [|[k' v'] rest IH]; simpl; [reflexivity|].
  destruct (eq_dec k k') as [E|N]; simpl.
  - subst k'. destruct (eq_dec k k) as [_|C]; [|contradiction].
    now rewrite app_nil_r.
  - rewrite IH. destruct (eq_dec k' k) as [C|N']; [congruence|].
    destruct (in_dec eq_dec k (map fst rest)); reflexivity.
Qed.

(** Where the keys of the day stand after a merge. *)
Lemma mergeRows_keys idxName idxVol idxClose rows : forall imoexDay imoexDay',
  mergeRows idxName idxVol idxClose rows imoexDay = Merged imoexDay' ->
  JsMap.keys imoexDay'
  = JsMap.keys imoexDay ++ firstSeen (JsMap.keys imoexDay) (map (rowKey idxName) rows).
Proof.
  induction rows as [|row rest IH]; intros imoexDay imoexDay'; simpl.
  - intros [= <-]. now rewrite app_nil_r.
  - destruct (BigInt (nth idxVol row CUndefined)) as [v|]; [|discriminate].
    intros M. rewrite (IH _ _ M), keys_set_new. fold (rowKey idxName row).
    destruct (in_dec eq_dec (rowKey idxName row) (JsMap.keys imoexDay)).
    + now rewrite app_nil_r.
    + now rewrite <- app_assoc.
Qed.

(** X14. When a page brings several rows for one security the last of
    them wins: after the merge the record under a row's SECID is the one
    made of that row, provided no later row of the page has the same
    SECID. Securities already in the map keep their place and the new
    ones come after them, each once, in the order they are first seen. *)
Theorem mergeRows_last_row_wins (idxName idxVol idxClose : nat)
    (before after : list (list Cell)) (row : list Cell)
    (imoexDay imoexDay' : DaySnapshot) :
  mergeRows idxName idxVol idxClose (before ++ row :: after) imoexDay
  = Merged imoexDay' ->
  Forall (fun r => rowKey idxName r <> rowKey idxName row) after ->
  (exists v,
      BigInt (nth idxVol row CUndefined) = Some v
      /\ JsMap.get (rowKey idxName row) imoexDay'
         = Some (recordOf idxVol idxClose row v))
  /\ JsMap.keys imoexDay'
     = JsMap.keys imoexDay
       ++ firstSeen (JsMap.keys imoexDay)
            (map (rowKey idxName) (before ++ row :: after)).
Proof.
  intros M F. split.
  - destruct (mergeRows_row _ _ _ _ _ _ _ _ M) as (v & day1 & B & _ & _ & _ & L).
    exists v. split; [exact B | exact (L F)].
  - eapply mergeRows_keys; exact M.
Qed.

(** BBB is in the map already; the page brings CCC, AAA, CCC again and
    BBB. *)
Lemma mergeRows_last_row_wins_witness :
  (exists v,
      BigInt (nth 2 (row "CCC" 30 4) CUndefined) = Some v
      /\ JsMap.get (rowKey 1 (row "CCC" 30 4))
           [ (CStr "BBB", {| volume := 20; turnover := Number 60 |});
             (CStr "CCC", {| volume := 30; turnover := Number 120 |});
             (CStr "AAA", {| volume := 10; turnover := Number 20 |}) ]
         = Some (recordOf 2 3 (row "CCC" 30 4) v))
  /\ JsMap.keys
       [ (CStr "BBB", {| volume := 20; turnover := Number 60 |});
         (CStr "CCC", {| volume := 30; turnover := Number 120 |});
         (CStr "AAA", {| volume := 10; turnover := Number 20 |}) ]
     = JsMap.keys [(CStr "BBB", {| volume := 1; turnover := Number 1 |})]
       ++ firstSeen
            (JsMap.keys [(CStr "BBB", {| volume := 1; turnover := Number 1 |})])
            (map (rowKey 1)
               ([row "CCC" 1 1; row "AAA" 10 2] ++ row "CCC" 30 4 :: [row "BBB" 20 3])).
Proof.
  apply (mergeRows_last_row_wins 1 2 3 [row "CCC" 1 1; row "AAA" 10 2]
           [row "BBB" 20 3] (row "CCC" 30 4)
           [(CStr "BBB", {| volume := 1; turnover := Number 1 |})]).
  - vm_compute. reflexivity.
  - constructor; [|constructor]. vm_compute. discriminate.
Defined.

Lemma BigInt_Number_finite x v :
  BigInt (CNum x) = Some v ->
  (exists s, x = S754_zero s) \/ (exists s m e, x = S754_finite s m e).
Proof. destruct x as [s| | |s m e]; try discriminate; eauto. Qed.

(** X15. A row whose VOLUME is a Number and whose CLOSE is null (a
    security that did not trade) is merged all the same: its turnover is
    a zero, and so is the turnover reported for it. A row too short to
    have a CLOSE cell gets the turnover NaN, which is reported as NaN. *)
Theorem close_without_a_price (idxName idxVol idxClose : nat)
    (before : list (list Cell)) (row : list Cell)
    (imoexDay imoexDay' : DaySnapshot) :
  mergeRows idxName idxVol idxClose (before ++ [row]) imoexDay = Merged imoexDay' ->
  exists record,
    JsMap.get (rowKey idxName row) imoexDay' = Some record
    /\ BigInt (nth idxVol row CUndefined) = Some (volume record)
    /\ (forall x,
          nth idxVol row CUndefined = CNum x ->
          nth idxClose row CUndefined = CNull ->
          exists s, turnover record = S754_zero s
                    /\ forall secId ratio,
                         Hot.turnover (hotEntry secId ratio record) = S754_zero s)
    /\ (nth idxClose row CUndefined = CUndefined ->
        turnover record = NaN
        /\ forall secId ratio, Hot.turnover (hotEntry secId ratio record) = NaN).
Proof.
  intros M.
  destruct (mergeRows_row idxName idxVol idxClose before row [] imoexDay imoexDay' M)
    as (v & day1 & B & _ & _ & _ & G).
  specialize (G (Forall_nil _)).
  exists (recordOf idxVol idxClose row v). split; [exact G|]. split; [exact B|].
  unfold recordOf, hotEntry. simpl. split.
  - intros x Ex Ec. rewrite Ex in *. rewrite Ec. simpl.
    destruct (BigInt_Number_finite _ _ B) as [[s ->]|(s & m & e & ->)];
      exists s; destruct s; split; reflexivity.
  - intros ->. simpl.
    assert (X : fmul (ToNumber (nth idxVol row CUndefined)) NaN = NaN)
      by (destruct (ToNumber (nth idxVol row CUndefined)); reflexivity).
    rewrite X. split; reflexivity.
Qed.

Lemma close_without_a_price_witness :
  exists record,
    JsMap.get (rowKey 1 [CStr "2025-10-31"; CStr "AAA"; CNum (Number 10); CNull])
      [(CStr "AAA", {| volume := 10; turnover := S754_zero false |})]
    = Some record
    /\ BigInt (nth 2 [CStr "2025-10-31"; CStr "AAA"; CNum (Number 10); CNull] CUndefined)
       = Some (volume record)
    /\ (forall x,
          nth 2 [CStr "2025-10-31"; CStr "AAA"; CNum (Number 10); CNull] CUndefined
          = CNum x ->
          nth 3 [CStr "2025-10-31"; CStr "AAA"; CNum (Number 10); CNull] CUndefined
          = CNull ->
          exists s, turnover record = S754_zero s
                    /\ forall secId ratio,
                         Hot.turnover (hotEntry secId ratio record) = S754_zero s)
    /\ (nth 3 [CStr "2025-10-31"; CStr "AAA"; CNum (Number 10); CNull] CUndefined
        = CUndefined ->
        turnover record = NaN
        /\ forall secId ratio, Hot.turnover (hotEntry secId ratio record) = NaN).
Proof.
  apply (close_without_a_price 1 2 3 []
           [CStr "2025-10-31"; CStr "AAA"; CNum (Number 10); CNull] []).
  vm_compute. reflexivity.
Defined.

(** X16. A row whose VOLUME does not convert to a BigInt (null, missing,
    a Number that is not an integer, text that is no integer literal)
    stops the merge of its page inside the [try] block: the rows before
    it stay in the day's map, the rows after it are not read, the user is
    alerted and the same page is asked for again. *)
Theorem pageLoop_volume_not_an_integer (a : Page) (rest : list Response)
    (date : string) (start : Z) (imoexDay imoexDay1 : DaySnapshot)
    (trace : list Event) (idxName idxVol idxDate idxClose : nat)
    (good after : list (list Cell)) (bad : list Cell) :
  0 <= start ->
  indexOf "SECID" (columns (history a)) = Some idxName ->
  indexOf "VOLUME" (columns (history a)) = Some idxVol ->
  indexOf "TRADEDATE" (columns (history a)) = Some idxDate ->
  indexOf "CLOSE" (columns (history a)) = Some idxClose ->
  data (history a) = good ++ bad :: after ->
  mergeRows idxName idxVol idxClose good imoexDay = Merged imoexDay1 ->
  BigInt (nth idxVol bad CUndefined) = None ->
  pageLoop (Reply a :: rest) date (Some start) imoexDay trace
  = pageLoop rest date (Some start) imoexDay1
      (trace ++ [Fetch date start; Alert DataError]).
Proof.
  intros Hs E1 E2 E3 E4 D M B. simpl.
  destruct (Z.ltb_spec start 0); [lia|].
  rewrite E1, E2, E3, E4, D, mergeRows_app, M. simpl. rewrite B. reflexivity.
Qed.

(** The second row has the text [n/a] for its VOLUME. *)
Lemma pageLoop_volume_not_an_integer_witness :
  pageLoop [Reply (page [row "AAA" 10 2;
                         [CStr "2025-10-31"; CStr "BBB"; CStr "n/a"; CNull];
                         row "CCC" 30 4] 0 3 100)]
    "2025-10-31" (Some 0) [] []
  = pageLoop [] "2025-10-31" (Some 0)
      [(CStr "AAA", {| volume := 10; turnover := Number 20 |})]
      ([] ++ [Fetch "2025-10-31" 0; Alert DataError]).
Proof.
  apply (pageLoop_volume_not_an_integer _ [] "2025-10-31"%string 0 [] _ []
           1%nat 2%nat 0%nat 3%nat [row "AAA" 10 2] [row "CCC" 30 4]
           [CStr "2025-10-31"; CStr "BBB"; CStr "n/a"; CNull]);
    try reflexivity; lia.
Defined.

(** Where text in the VOLUME cell is an integer literal the row is
    merged, and text in the CLOSE cell is read as the number it
    writes. *)
Example mergeRows_numeric_text :
  mergeRows 1 2 3 [[CStr "2025-10-31"; CStr "AAA"; CStr "10"; CStr "2.5"]] []
  = Merged [(CStr "AAA", {| volume := 10; turnover := Number 25 |})].
Proof. vm_compute. reflexivity. Qed.

Lemma pageLoop_abort_alert responses : forall date page imoexDay trace rest trace',
  pageLoop responses date page imoexDay trace = DayAbort rest trace' ->
  exists before start notice,
    trace' = before ++ [Fetch date start; Alert notice]
    /\ (notice = CannotFindAllIndexes \/ notice = CannotFindAllIndexesForPage).
Proof.
  induction responses as [|r more IH]; intros date page imoexDay trace rest trace'.
  - destruct page as [start|]; simpl; [|discriminate].
    destruct (start <? 0); discriminate.
  - destruct page as [start|]; simpl; [|discriminate].
    destruct (start <? 0); [discriminate|].
    destruct r as [|a]; [apply IH|].
    repeat match goal with
           | |- context [match ?x with _ => _ end] =>
               lazymatch x with
               | pageLoop _ _ _ _ _ => fail
               | _ => destruct x
               end
           end;
      try apply IH;
      intros [= _ <-]; eexists; eexists; eexists; split; try reflexivity; auto.
Qed.

Lemma mergeRows_total idxName idxVol idxClose rows :
  Forall (fun row => BigInt (nth idxVol row CUndefined) <> None) rows ->
  forall imoexDay, exists imoexDay',
    mergeRows idxName idxVol idxClose rows imoexDay = Merged imoexDay'.
Proof.
  induction 1 as [|row rest B F IH]; intros imoexDay; simpl; [eauto|].
  destruct (BigInt (nth idxVol row CUndefined)); [apply IH | contradiction].
Qed.

Lemma pageLoop_missing_cursor_column a rest date start imoexDay trace
      idxName idxVol idxDate idxClose :
  0 <= start ->
  indexOf "SECID" (columns (history a)) = Some idxName ->
  indexOf "VOLUME" (columns (history a)) = Some idxVol ->
  indexOf "TRADEDATE" (columns (history a)) = Some idxDate ->
  indexOf "CLOSE" (columns (history a)) = Some idxClose ->
  Forall (fun row => BigInt (nth idxVol row CUndefined) <> None) (data (history a)) ->
  lacksCursorColumn a ->
  pageLoop (Reply a :: rest) date (Some start) imoexDay trace
  = DayAbort rest (trace ++ [Fetch date start; Alert CannotFindAllIndexesForPage]).
Proof.
  intros Hs E1 E2 E3 E4 F L. simpl. destruct (Z.ltb_spec start 0); [lia|].
  destruct (mergeRows_total idxName idxVol idxClose _ F imoexDay) as [imoexDay' M].
  rewrite E1, E2, E3, E4, M.
  destruct L as [L|[L|L]]; rewrite L;
    repeat match goal with
           | |- context [match indexOf ?n ?c with _ => _ end] =>
               destruct (indexOf n c)
           end; reflexivity.
Qed.

Lemma datesLoop_abort_alert dates : forall responses imoexData trace0 rest trace,
  datesLoop dates responses imoexData trace0 = Returned None rest trace ->
  exists before date start notice,
    trace = before ++ [Fetch date start; Alert notice]
    /\ (notice = CannotFindAllIndexes \/ notice = CannotFindAllIndexesForPage).
Proof.
  induction dates as [|date more IH]; intros responses imoexData trace0 rest trace;
    simpl; [discriminate|].
  destruct (pageLoop responses date (Some 0) [] trace0)
    as [imoexDay rest1 trace1|rest1 trace1|trace1] eqn:P; try discriminate.
  - apply IH.
  - intros [= <- <-].
    destruct (pageLoop_abort_alert _ _ _ _ _ _ _ P) as (before & start & notice & E & N).
    eauto 6.
Qed.

(** The loop of a date, given more answers than it has read: where it had
    come to an end it ends the same way and leaves the new answers
    unread; where it was waiting for an answer it goes on with the new
    ones from the page it was waiting for. *)
Lemma pageLoop_more answered : forall date page imoexDay trace next,
  match pageLoop answered date page imoexDay trace with
  | DayDone imoexDay' rest trace' =>
      pageLoop (answered ++ next) date page imoexDay trace
      = DayDone imoexDay' (rest ++ next) trace'
  | DayAbort rest trace' =>
      pageLoop (answered ++ next) date page imoexDay trace
      = DayAbort (rest ++ next) trace'
  | DayAwait trace' =>
      exists start imoexDay1 trace1,
        0 <= start
        /\ trace' = trace1 ++ [Fetch date start]
        /\ pageLoop (answered ++ next) date page imoexDay trace
           = pageLoop next date (Some start) imoexDay1 trace1
  end.
Proof.
  induction answered as [|r more IH]; intros date page imoexDay trace next.
  - destruct page as [start|]; simpl.
    + destruct (Z.ltb_spec start 0) as [Hs|Hs].
      * destruct next; simpl; destruct (Z.ltb_spec start 0); try lia; reflexivity.
      * exists start, imoexDay, trace. split; [exact Hs|]. split; reflexivity.
    + destruct next; reflexivity.
  - destruct page as [start|]; simpl; [|reflexivity].
    destruct (start <? 0); [reflexivity|].
    destruct r as [|a]; [apply IH|].
    repeat match goal with
           | |- context [match ?x with _ => _ end] =>
               lazymatch type of x with
               | DayResult => fail
               | _ => destruct x
               end
           end;
      try apply IH; reflexivity.
Qed.

(** A load that is waiting for an answer, given answers that make the
    loop of any date abort with the alert [notice]: it returns
    [undefined] after that alert. *)
Lemma datesLoop_next_aborts dates notice next rest :
  (forall date start imoexDay trace,
      0 <= start ->
      pageLoop next date (Some start) imoexDay trace
      = DayAbort rest (trace ++ [Fetch date start; Alert notice])) ->
  forall answered imoexData trace0 trace,
    datesLoop dates answered imoexData trace0 = Awaiting trace ->
    datesLoop dates (answered ++ next) imoexData trace0
    = Returned None rest (trace ++ [Alert notice]).
Proof.
  intros A.
  induction dates as [|date more IH]; intros answered imoexData trace0 trace;
    simpl; [discriminate|].
  pose proof (pageLoop_more answered date (Some 0) [] trace0 next) as P.
  destruct (pageLoop answered date (Some 0) [] trace0)
    as [imoexDay rest1 trace1|rest1 trace1|trace1]; try discriminate.
  - rewrite P. apply IH.
  - intros [= <-]. destruct P as (start & imoexDay1 & trace2 & Hs & -> & ->).
    rewrite (A date start imoexDay1 trace2 Hs), <- app_assoc. reflexivity.
Qed.

(** X17. [loadData] returns [undefined] only for a missing column: when
    it does, the last thing it did was to request a page and to alert
    that the indexes of the history or of the cursor cannot all be found.
    And whatever it has read so far, when the answer it is waiting for,
    for any page of any date, lacks one of its history columns, or has
    them with rows that all convert but lacks one of its cursor columns,
    it alerts and returns [undefined] at once, leaving the answers that
    follow unread. *)
Theorem loadData_undefined_means_missing_column :
  (forall daysBack now responses rest trace,
      loadData daysBack now responses = Returned None rest trace ->
      exists before date start notice,
        trace = before ++ [Fetch date start; Alert notice]
        /\ (notice = CannotFindAllIndexes \/ notice = CannotFindAllIndexesForPage))
  /\ (forall daysBack now answered a rest trace,
        loadData daysBack now answered = Awaiting trace ->
        lacksHistoryColumn a ->
        loadData daysBack now (answered ++ Reply a :: rest)
        = Returned None rest (trace ++ [Alert CannotFindAllIndexes]))
  /\ (forall daysBack now answered a rest trace idxName idxVol idxDate idxClose,
        loadData daysBack now answered = Awaiting trace ->
        indexOf "SECID" (columns (history a)) = Some idxName ->
        indexOf "VOLUME" (columns (history a)) = Some idxVol ->
        indexOf "TRADEDATE" (columns (history a)) = Some idxDate ->
        indexOf "CLOSE" (columns (history a)) = Some idxClose ->
        Forall (fun row => BigInt (nth idxVol row CUndefined) <> None)
          (data (history a)) ->
        lacksCursorColumn a ->
        loadData daysBack now (answered ++ Reply a :: rest)
        = Returned None rest (trace ++ [Alert CannotFindAllIndexesForPage])).
Proof.
  split; [|split].
  - intros daysBack now responses rest trace. unfold loadData.
    apply datesLoop_abort_alert.
  - intros daysBack now answered a rest trace W L. unfold loadData in *.
    apply (datesLoop_next_aborts _ CannotFindAllIndexes (Reply a :: rest) rest);
      [|exact W].
    intros date start imoexDay trace1 Hs. now apply pageLoop_missing_column.
  - intros daysBack now answered a rest trace idxName idxVol idxDate idxClose
           W E1 E2 E3 E4 F L. unfold loadData in *.
    apply (datesLoop_next_aborts _ CannotFindAllIndexesForPage (Reply a :: rest) rest);
      [|exact W].
    intros date start imoexDay trace1 Hs.
    now apply (pageLoop_missing_cursor_column a rest date start imoexDay trace1
                 idxName idxVol idxDate idxClose).
Qed.

(** The first page of the day is read and the second one comes without
    its CLOSE column. *)
Lemma loadData_undefined_means_missing_column_witness :
  (exists before date start notice,
      [Fetch "2025-10-31" 0; Alert CannotFindAllIndexes]
      = before ++ [Fetch date start; Alert notice]
      /\ (notice = CannotFindAllIndexes \/ notice = CannotFindAllIndexesForPage))
  /\ loadData 0 20394 ([Reply page1] ++ Reply noClosePage :: [Reply onlyPage])
     = Returned None [Reply onlyPage]
         ([Fetch "2025-10-31" 0; Fetch "2025-10-31" 2] ++ [Alert CannotFindAllIndexes]).
Proof.
  split.
  - apply (proj1 loadData_undefined_means_missing_column 0 20394
             [Reply noClosePage; Reply onlyPage] [Reply onlyPage]).
    vm_compute. reflexivity.
  - apply (proj1 (proj2 loadData_undefined_means_missing_column) 0 20394
             [Reply page1] noClosePage [Reply onlyPage]).
    + vm_compute. reflexivity.
    + right. right. right. reflexivity.
Defined.

(* ===================================================================== *)
(** * More on the cache *)
(* ===================================================================== *)

(** X18. A call that does not return a result leaves the cache exactly as
    it found it: a rejected call (a missing column) and a call still
    waiting for the network evict nothing, and neither does a hit. *)
Theorem getHotStocks_failure_keeps_cache (daysBack : Z) (today now : Date)
    (cacheImoexData : Cache) (responses : list Response) :
  (settled (getHotStocks daysBack today now cacheImoexData responses) = Rejected
   \/ settled (getHotStocks daysBack today now cacheImoexData responses) = Pending
   \/ JsMap.has (cacheKeyOf daysBack today) cacheImoexData = true) ->
  cacheAfter (getHotStocks daysBack today now cacheImoexData responses)
  = cacheImoexData.
Proof.
  intros H.
  destruct (getHotStocks_cache_shape daysBack today now cacheImoexData responses)
    as [E|(hs & Miss & F & _)]; [exact E|].
  rewrite F, Miss in H. destruct H as [H|[H|H]]; discriminate.
Qed.

Lemma getHotStocks_failure_keeps_cache_witness :
  cacheAfter (getHotStocks 0 20394 20394
                [("hotStocks_5_2025-11-02"%string, [])]
                [Reply noClosePage])
  = [("hotStocks_5_2025-11-02"%string, [])].
Proof.
  apply (getHotStocks_failure_keeps_cache 0 20394 20394
           [("hotStocks_5_2025-11-02"%string, [])] [Reply noClosePage]).
  left. vm_compute. reflexivity.
Defined.

Lemma single_slot_other_key (c : Cache) key key' out :
  (List.length c <= 1)%nat -> JsMap.get key c = Some out -> key' <> key ->
  JsMap.has key' c = false.
Proof.
  destruct c as [|[k v] [|e c]]; simpl; try discriminate; try lia.
  intros _. destruct (eq_dec key k) as [->|]; [|discriminate].
  intros _ N. apply has_false. simpl.
  destruct (eq_dec key' k); [contradiction | reflexivity].
Qed.

Lemma getHotStocks_fulfilled_cached daysBack today now cacheImoexData responses out :
  settled (getHotStocks daysBack today now cacheImoexData responses) = Fulfilled out ->
  JsMap.get (cacheKeyOf daysBack today)
    (cacheAfter (getHotStocks daysBack today now cacheImoexData responses))
  = Some out.
Proof.
  destruct (JsMap.has (cacheKeyOf daysBack today) cacheImoexData) eqn:Hh.
  - rewrite (getHotStocks_hit _ _ _ _ _ Hh). unfold readCache.
    destruct (JsMap.get _ cacheImoexData) as [hs|] eqn:Hg;
      cbn [settled cacheAfter]; [|discriminate].
    now intros [= ->].
  - rewrite (getHotStocks_miss _ _ _ _ _ Hh).
    destruct (loadData daysBack now responses) as [[moexData|] rest trace|trace];
      cbn [settled]; try discriminate.
    destruct (computeAverageVolume moexData) as [averageVolume|];
      cbn [settled]; try discriminate.
    destruct (computeHotStocks moexData averageVolume) as [hotStocks|];
      cbn [settled cacheAfter]; try discriminate.
    intros [= ->]. cbn [JsMap.get].
    destruct (eq_dec (cacheKeyOf daysBack today) (cacheKeyOf daysBack today));
      [reflexivity | congruence].
Qed.

(** X19. The cache has one slot: after a call has returned its result,
    a call under another key (another [daysBack] or another day) finds
    nothing of use and goes to the network exactly as it would with an
    empty cache. *)
Theorem getHotStocks_other_key_starts_over (daysBack daysBack' : Z)
    (today now today' now' : Date) (cacheImoexData : Cache)
    (responses responses' : list Response) (out : HotStocks) :
  reachable cacheImoexData ->
  settled (getHotStocks daysBack today now cacheImoexData responses) = Fulfilled out ->
  cacheKeyOf daysBack' today' <> cacheKeyOf daysBack today ->
  let first := getHotStocks daysBack today now cacheImoexData responses in
  let second := getHotStocks daysBack' today' now' (cacheAfter first) responses' in
  let fresh := getHotStocks daysBack' today' now' [] responses' in
  JsMap.has (cacheKeyOf daysBack' today') (cacheAfter first) = false
  /\ settled second = settled fresh
  /\ events second = events fresh
  /\ unread second = unread fresh.
Proof.
  intros R F N first second fresh.
  assert (Hh : JsMap.has (cacheKeyOf daysBack' today') (cacheAfter first) = false).
  { eapply single_slot_other_key; [|apply getHotStocks_fulfilled_cached; exact F|exact N].
    apply reachable_single_slot. subst first. now constructor. }
  split; [exact Hh|].
  subst second fresh.
  rewrite (getHotStocks_miss _ _ _ _ _ Hh).
  rewrite (getHotStocks_miss daysBack' today' now' [] responses' eq_refl).
  destruct (loadData daysBack' now' responses') as [[moexData|] rest trace|trace];
    cbn [settled events unread]; auto.
  destruct (computeAverageVolume moexData) as [averageVolume|];
    cbn [settled events unread]; auto.
  destruct (computeHotStocks moexData averageVolume) as [hotStocks|];
    cbn [settled events unread]; auto.
Qed.

Lemma getHotStocks_other_key_starts_over_witness :
  let first := getHotStocks 0 20394 20394 [] [Reply onlyPage] in
  let second := getHotStocks 1 20394 20394 (cacheAfter first) [Reply onlyPage] in
  let fresh := getHotStocks 1 20394 20394 [] [Reply onlyPage] in
  JsMap.has (cacheKeyOf 1 20394) (cacheAfter first) = false
  /\ settled second = settled fresh
  /\ events second = events fresh
  /\ unread second = unread fresh.
Proof.
  apply (getHotStocks_other_key_starts_over 0 1 20394 20394 20394 20394 []
           [Reply onlyPage] [Reply onlyPage]
           [("2025-10-31"%string,
             [{| Hot.secId := CStr "AAA"; Hot.ratio := tenths 10;
                 Hot.turnover := S754_zero false |}])]).
  - apply reachable_initial.
  - vm_compute. reflexivity.
  - vm_compute. discriminate.
Defined.

(** X20. With a negative [daysBack] there is no date to load: a call
    that misses makes no request, reads no answer, returns the empty
    object and stores it as the cache's only entry. *)
Theorem getHotStocks_negative_window (daysBack : Z) (today now : Date)
    (cacheImoexData : Cache) (responses : list Response) :
  daysBack < 0 ->
  JsMap.has (cacheKeyOf daysBack today) cacheImoexData = false ->
  getHotStocks daysBack today now cacheImoexData responses
  = {| settled := Fulfilled [];
       cacheAfter := [(cacheKeyOf daysBack today, [])];
       unread := responses;
       events := [] |}.
Proof.
  intros Hn Hh. rewrite (getHotStocks_miss _ _ _ _ _ Hh).
  unfold loadData, workDaysGenerator.
  rewrite workDaysLoop_step.
  destruct (Z.leb_spec 0 daysBack); [lia | reflexivity].
Qed.

Lemma getHotStocks_negative_window_witness :
  getHotStocks (-1) 20394 20394 [] [Failure]
  = {| settled := Fulfilled [];
       cacheAfter := [(cacheKeyOf (-1) 20394, [])];
       unread := [Failure];
       events := [] |}.
Proof.
  apply (getHotStocks_negative_window (-1) 20394 20394 [] [Failure]).
  - lia.
  - reflexivity.
Defined.

(* ===================================================================== *)
(** * A whole load *)
(* ===================================================================== *)

Lemma pagedWindow_silent dates pages ds ds' requested :
  pagedWindow dates pages ds ds' requested -> silent requested.
Proof.
  unfold silent. induction 1 as [|date dates pages offsets day more ds ds' req P W IH].
  - constructor.
  - apply Forall_app. split; [|exact IH].
    clear. induction offsets; simpl; constructor; auto.
Qed.

(** X21. A clean run: when the answers are, date after date of the
    window, the pages of well-paged days, [loadData] returns the dataset
    made of these days, having made one request per page and shown no
    alert, and leaves the answers that follow unread. *)
Theorem loadData_clean_run (daysBack : Z) (now : Date) (pages : list Page)
    (ds : WindowDataset) (requested : list Event) (rest : list Response) :
  pagedWindow (workDaysGenerator daysBack now) pages [] ds requested ->
  loadData daysBack now (map Reply pages ++ rest) = Returned (Some ds) rest requested
  /\ silent requested
  /\ List.length (requests requested) = List.length pages.
Proof.
  intros W. unfold loadData.
  assert (G : forall dates pages ds0 ds requested,
             pagedWindow dates pages ds0 ds requested ->
             forall trace,
               datesLoop dates (map Reply pages ++ rest) ds0 trace
               = Returned (Some ds) rest (trace ++ requested)
               /\ List.length (requests requested) = List.length pages).
  { clear. induction 1 as [|date dates pages offsets day more ds0 ds req P WW IH];
      intros trace.
    - simpl. now rewrite app_nil_r.
    - cbn [datesLoop]. rewrite map_app, <- app_assoc.
      rewrite (pagedDay_shape 0 pages [] day offsets ltac:(lia) P).
      destruct (IH (trace ++ map (Fetch date) offsets)) as [E L].
      rewrite E, <- app_assoc. split; [reflexivity|].
      assert (A : forall t1 t2, requests (t1 ++ t2) = requests t1 ++ requests t2).
      { induction t1 as [|[d s|x] t1 IHt]; intros t2; simpl;
          [reflexivity | now rewrite IHt | apply IHt]. }
      assert (B : forall offs, List.length (requests (map (Fetch date) offs))
                               = List.length offs).
      { induction offs; simpl; [reflexivity | now f_equal]. }
      rewrite A, !length_app, B, L, (pagedDay_length _ _ _ _ _ P). reflexivity. }
  destruct (G _ _ _ _ _ W []) as [E L]. simpl in E.
  split; [exact E|]. split; [eapply pagedWindow_silent; exact W | exact L].
Qed.

Lemma loadData_clean_run_witness :
  loadData 1 20394 (map Reply ([page1; page2; page3] ++ [onlyPage] ++ []) ++ [Failure])
  = Returned
      (Some (JsMap.set "2025-10-30"%string
               [(CStr "AAA", {| volume := 10; turnover := Number 20 |})]
               (JsMap.set "2025-10-31"%string
                  [ (CStr "AAA", {| volume := 10; turnover := Number 20 |});
                    (CStr "BBB", {| volume := 20; turnover := Number 60 |});
                    (CStr "CCC", {| volume := 30; turnover := Number 120 |});
                    (CStr "DDD", {| volume := 40; turnover := Number 200 |});
                    (CStr "EEE", {| volume := 50; turnover := Number 300 |}) ]
                  [])))
      [Failure]
      (map (Fetch "2025-10-31") [0; 0 + 2; 0 + 2 + 2]
       ++ map (Fetch "2025-10-30") [0] ++ [])
  /\ silent (map (Fetch "2025-10-31") [0; 0 + 2; 0 + 2 + 2]
             ++ map (Fetch "2025-10-30") [0] ++ [])
  /\ List.length (requests (map (Fetch "2025-10-31") [0; 0 + 2; 0 + 2 + 2]
                            ++ map (Fetch "2025-10-30") [0] ++ []))
     = List.length ([page1; page2; page3] ++ [onlyPage] ++ []).
Proof.
  apply (loadData_clean_run 1 20394).
  change (workDaysGenerator 1 20394) with ["2025-10-31"%string; "2025-10-30"%string].
  eapply window_day.
  - eapply paged_more with (pageIndex := 0) (pageTotal := 5) (pageSize := 2);
      [apply page_reads_as_laid_out; vm_compute; reflexivity | lia | lia |].
    eapply paged_more with (pageIndex := 2) (pageTotal := 5) (pageSize := 2);
      [apply page_reads_as_laid_out; vm_compute; reflexivity | lia | lia |].
    eapply paged_last with (pageIndex := 4) (pageTotal := 5) (pageSize := 2);
      [apply page_reads_as_laid_out; vm_compute; reflexivity | lia].
  - eapply window_day.
    + eapply paged_last with (pageIndex := 0) (pageTotal := 1) (pageSize := 100);
        [apply page_reads_as_laid_out; vm_compute; reflexivity | lia].
    + apply window_done.
Defined.

Lemma window_sums_permute k (ds ds' : WindowDataset) :
  Permutation ds ds' ->
  windowVolume k ds = windowVolume k ds' /\ daysWith k ds = daysWith k ds'.
Proof.
  induction 1 as [|[d x] l l' P [IHv IHc]|[d x] [d' x'] l|l l' l'' P [IHv IHc] P' [IHv' IHc']];
    simpl; lia.
Qed.

(** X22. The averages depend on the days of the window, not on their
    order: two windows that are maps of maps and hold the same days, in
    whatever order, give every security the same entry. *)
Theorem computeAverageVolume_order_of_days (ds ds' : WindowDataset) :
  isDataset ds -> isDataset ds' -> Permutation ds ds' ->
  exists averageVolume averageVolume',
    computeAverageVolume ds = Some averageVolume
    /\ computeAverageVolume ds' = Some averageVolume'
    /\ forall secId,
         JsMap.get secId averageVolume = JsMap.get secId averageVolume'.
Proof.
  intros D D' P.
  destruct (computeAverageVolume_by_days ds D) as (a & E & G).
  destruct (computeAverageVolume_by_days ds' D') as (a' & E' & G').
  exists a, a'. split; [exact E|]. split; [exact E'|].
  intros k. rewrite G, G'.
  destruct (window_sums_permute k ds ds' P) as [-> ->]. reflexivity.
Qed.

Lemma computeAverageVolume_order_of_days_witness :
  exists averageVolume averageVolume',
    computeAverageVolume twoDays = Some averageVolume
    /\ computeAverageVolume (rev twoDays) = Some averageVolume'
    /\ forall secId,
         JsMap.get secId averageVolume = JsMap.get secId averageVolume'.
Proof.
  apply (computeAverageVolume_order_of_days twoDays (rev twoDays)).
  - map_of_maps.
  - map_of_maps.
  - apply Permutation_rev.
Defined.

(** X23. A call that misses the cache and returns reports only dates of
    its own window of business days. *)
Theorem getHotStocks_reports_window_dates (daysBack : Z) (today now : Date)
    (cacheImoexData : Cache) (responses : list Response) (out : HotStocks) :
  JsMap.has (cacheKeyOf daysBack today) cacheImoexData = false ->
  settled (getHotStocks daysBack today now cacheImoexData responses) = Fulfilled out ->
  forall date, JsMap.has date out = true -> In date (workDaysGenerator daysBack now).
Proof.
  intros Hh. rewrite (getHotStocks_miss _ _ _ _ _ Hh).
  destruct (loadData daysBack now responses) as [[moexData|] rest trace|trace] eqn:L;
    cbn [settled]; try discriminate.
  destruct (computeAverageVolume moexData) as [averageVolume|];
    cbn [settled]; try discriminate.
  destruct (computeHotStocks moexData averageVolume) as [hotStocks|] eqn:Eh;
    cbn [settled]; try discriminate.
  intros [= <-] date Hd.
  destruct (computeHotStocks_report moexData averageVolume) as (hs & E & R).
  rewrite Eh in E. inversion E; subst hs.
  apply has_true in Hd as [l Hl].
  assert (Hne : exists e, In e (listAt date hotStocks)).
  { destruct (hotStocks_invariant averageVolume moexData [] hotStocks) as [_ F];
      [constructor | constructor | exact Eh |].
    apply get_In in Hl as Hl'. rewrite Forall_forall in F. specialize (F _ Hl').
    unfold listAt. rewrite Hl. destruct l as [|e l]; [now elim F|].
    exists e. now left. }
  destruct Hne as [e He]. rewrite R in He.
  apply In_reportFor in He as (dayData & k & r & I & _ & _).
  unfold loadData in L.
  assert (K : In date (JsMap.keys moexData)).
  { unfold JsMap.keys. change date with (fst (date, dayData)). now apply in_map. }
  apply (datesLoop_keys _ _ _ _ _ _ _ L date) in K as [[]|K]. exact K.
Qed.

Lemma getHotStocks_reports_window_dates_witness :
  In "2025-10-31"%string (workDaysGenerator 0 20394).
Proof.
  apply (getHotStocks_reports_window_dates 0 20394 20394 [] [Reply onlyPage]
           [("2025-10-31"%string,
             [{| Hot.secId := CStr "AAA"; Hot.ratio := tenths 10;
                 Hot.turnover := S754_zero false |}])]).
  - reflexivity.
  - vm_compute. reflexivity.
  - reflexivity.
Defined.
